(** * The HTTP/2 framing codec of shgang97/http2 (frame.go, constants.go)

    A shallow embedding of the frame header codec and of the seven payload
    codecs, followed by the properties of the wire format.

    Conventions.
    - A Go [uint8], [uint16] or [uint32] is a [Z]; every operation that wraps
      in Go has its wrap-around written out ([u8], [u16], [u32]).
    - A Go [int] (64 bit) is a [Z]; the sizes met here never reach 2^63.
    - A [[]byte] is the list of its elements, and its capacity is its length,
      as for a buffer obtained from [make] or read whole from the transport.
    - A Go function that returns [(v, error)] returns a [result]: [Ok v],
      [Err msg] with the format string of the [fmt.Errorf] call, or [Panic]
      when the Go runtime aborts on an index or a slice bound. *)

From Stdlib Require Import String.
From Stdlib Require Import ZArith List Bool Lia.
Import ListNotations.
Local Open Scope string_scope.
Local Open Scope list_scope.
Local Open Scope Z_scope.

(** ** Results of fallible Go code *)

Inductive result (A : Type) : Type :=
| Ok (a : A)
| Err (msg : string)
| Panic (msg : string).
Arguments Ok {A} a.
Arguments Err {A} msg.
Arguments Panic {A} msg.

Definition bind {A B : Type} (r : result A) (k : A -> result B) : result B :=
  match r with
  | Ok a => k a
  | Err m => Err m
  | Panic m => Panic m
  end.

Notation "x <- e ;; k" := (bind e (fun x => k))
  (at level 61, e at next level, right associativity).

Definition is_err {A : Type} (r : result A) : bool :=
  match r with Err _ => true | _ => false end.

(** ** Machine integers and byte buffers *)

Definition u8 (x : Z) : Z := x mod 256.
Definition u16 (x : Z) : Z := x mod 65536.
Definition u32 (x : Z) : Z := x mod 4294967296.

Definition is_u8 (x : Z) : Prop := 0 <= x < 256.
Definition is_u16 (x : Z) : Prop := 0 <= x < 65536.
Definition is_u32 (x : Z) : Prop := 0 <= x < 4294967296.

Definition bytes := list Z.

(** [len(b)] *)
Definition len {A : Type} (b : list A) : Z := Z.of_nat (length b).

(** [make([]byte, n)]: [n] zero bytes. *)
Definition make (n : Z) : bytes := repeat 0 (Z.to_nat n).

Definition index_msg : string := "index out of range".
Definition slice_msg : string := "slice bounds out of range".

(** [b[i]] *)
Definition index (b : bytes) (i : Z) : result Z :=
  if (0 <=? i) && (i <? len b) then Ok (nth (Z.to_nat i) b 0)
  else Panic index_msg.

(** [b[lo:hi]]; Go bounds a slice expression by the capacity of [b], which
    is its length under the convention above. *)
Definition slice (b : bytes) (lo hi : Z) : result bytes :=
  if (0 <=? lo) && (lo <=? hi) && (hi <=? len b)
  then Ok (firstn (Z.to_nat (hi - lo)) (skipn (Z.to_nat lo) b))
  else Panic slice_msg.

(** [b[lo:]] *)
Definition slice_from (b : bytes) (lo : Z) : result bytes :=
  slice b lo (len b).

(** [copy(dst, src)], on the whole of [dst]: the first
    [min(len(dst), len(src))] bytes are overwritten. *)
Definition copy (dst src : bytes) : bytes :=
  firstn (length dst) src ++ skipn (length src) dst.

(** [b[i] = v] *)
Definition set_index (b : bytes) (i v : Z) : result bytes :=
  if (0 <=? i) && (i <? len b)
  then Ok (firstn (Z.to_nat i) b ++ v :: skipn (Z.to_nat i + 1) b)
  else Panic index_msg.

(** The effect on [b] of running [w] on the window [b[lo:hi]], which shares
    its storage with [b]; [w] returns the new contents of the window. *)
Definition on_slice (b : bytes) (lo hi : Z) (w : bytes -> result bytes)
  : result bytes :=
  s <- slice b lo hi ;;
  s' <- w s ;;
  Ok (firstn (Z.to_nat lo) b ++ s' ++ skipn (Z.to_nat hi) b).

(** [copy(b[lo:], src)] *)
Definition copy_from (b : bytes) (lo : Z) (src : bytes) : result bytes :=
  on_slice b lo (len b) (fun s => Ok (copy s src)).

(** [binary.BigEndian.PutUint16(b, v)] *)
Definition PutUint16 (v : Z) (b : bytes) : result bytes :=
  if len b <? 2 then Panic index_msg
  else Ok (u8 (Z.shiftr v 8) :: u8 v :: skipn 2 b).

(** [binary.BigEndian.PutUint32(b, v)] *)
Definition PutUint32 (v : Z) (b : bytes) : result bytes :=
  if len b <? 4 then Panic index_msg
  else Ok (u8 (Z.shiftr v 24) :: u8 (Z.shiftr v 16) :: u8 (Z.shiftr v 8)
           :: u8 v :: skipn 4 b).

(** [binary.BigEndian.Uint16(b)] *)
Definition Uint16 (b : bytes) : result Z :=
  if len b <? 2 then Panic index_msg
  else Ok (Z.lor (nth 1 b 0) (Z.shiftl (nth 0 b 0) 8)).

(** [binary.BigEndian.Uint32(b)] *)
Definition Uint32 (b : bytes) : result Z :=
  if len b <? 4 then Panic index_msg
  else Ok (Z.lor (Z.lor (Z.lor (nth 3 b 0) (Z.shiftl (nth 2 b 0) 8))
                        (Z.shiftl (nth 1 b 0) 16))
                 (Z.shiftl (nth 0 b 0) 24)).

(** ** constants.go *)

Definition FrameData : Z := 0.
Definition FrameHeaders : Z := 1.
Definition FramePriority : Z := 2.
Definition FrameRSTStream : Z := 3.
Definition FrameSettings : Z := 4.
Definition FramePushPromise : Z := 5.
Definition FramePing : Z := 6.
Definition FrameGoWay : Z := 7.
Definition FrameWindowUpdate : Z := 8.
Definition FrameContinuation : Z := 9.

Definition FlagBit0 : Z := Z.shiftl 1 0.
Definition FlagBit2 : Z := Z.shiftl 1 2.
Definition FlagBit3 : Z := Z.shiftl 1 3.
Definition FlagBit5 : Z := Z.shiftl 1 5.

Definition FlagEndStream : Z := FlagBit0.
Definition FlagEndHeaders : Z := FlagBit2.
Definition FlagPadded : Z := FlagBit3.
Definition FlagPriority : Z := FlagBit5.

(** ** The frame header *)

Module FrameHeader.

Record t : Type := mk {
  Length : Z;    (* uint32, 24 bits on the wire *)
  Type' : Z;     (* uint8 *)
  Flags : Z;     (* uint8 *)
  StreamID : Z   (* uint32, 31 bits on the wire *)
}.

(** [f.Length = n] on the embedded header. *)
Definition set_Length (n : Z) (h : t) : t :=
  mk n (Type' h) (Flags h) (StreamID h).

(** [func (h *FrameHeader) Serialize() []byte] *)
Definition Serialize (h : t) : result bytes :=
  let buf := make 9 in
  buf <- set_index buf 0 (u8 (Z.shiftr (Length h) 16)) ;;
  buf <- set_index buf 1 (u8 (Z.shiftr (Length h) 8)) ;;
  buf <- set_index buf 2 (u8 (Length h)) ;;
  buf <- set_index buf 3 (Type' h) ;;
  buf <- set_index buf 4 (Flags h) ;;
  buf <- on_slice buf 5 9 (PutUint32 (Z.land (StreamID h) 2147483647)) ;;
  Ok buf.

End FrameHeader.

(** [func ParseFrameHeader(data []byte)]; the zero header that Go returns
    next to the error is left out. *)
Definition ParseFrameHeader (data : bytes) : result FrameHeader.t :=
  if len data <? 9 then
    Err "FRAME_SIZE_ERROR: frame header must be 9 bytes, got %d"
  else
    d0 <- index data 0 ;;
    d1 <- index data 1 ;;
    d2 <- index data 2 ;;
    d3 <- index data 3 ;;
    d4 <- index data 4 ;;
    s <- slice data 5 9 ;;
    sid <- Uint32 s ;;
    Ok (FrameHeader.mk
          (Z.lor (Z.lor (Z.shiftl d0 16) (Z.shiftl d1 8)) d2)
          d3 d4
          (Z.land sid (Z.shiftl 1 31 - 1))).

(** [func hasPad(flags uint8) bool] *)
Definition hasPad (flags : Z) : bool := negb (Z.land flags FlagPadded =? 0).

(** [func hasPriority(flags uint8) bool] *)
Definition hasPriority (flags : Z) : bool :=
  negb (Z.land flags FlagPriority =? 0).

(** ** HEADERS *)

Module HeadersFrame.

Record t : Type := mk {
  Header : FrameHeader.t;
  PadLen : Z;             (* uint8 *)
  Exclusive : bool;
  StreamDependency : Z;   (* uint32 *)
  Weight : Z;             (* uint8 *)
  HeaderBlock : bytes
}.

Definition set_Length (n : Z) (f : t) : t :=
  mk (FrameHeader.set_Length n (Header f)) (PadLen f) (Exclusive f)
     (StreamDependency f) (Weight f) (HeaderBlock f).

(** The payload length computed at the head of [Serialize]
    (frame.go, lines 112-130). *)
Definition payloadLength (f : t) : result Z :=
  let flags := FrameHeader.Flags (Header f) in
  let payloadLength := u32 (len (HeaderBlock f)) in
  payloadLength <-
    (if hasPad flags then
       if 255 <? PadLen f then
         Err "HEADERS_FRAME_ERROR: padLen is out of range: %d"
       else Ok (u32 (1 + PadLen f))
     else Ok payloadLength) ;;
  let payloadLength :=
    if hasPriority flags then u32 (payloadLength + 5) else payloadLength in
  if 16777215 <? payloadLength then
    Err "HEADERS_FRAME_ERROR: payloadLength is out of range: %d"
  else Ok payloadLength.

(** [func (f *HeadersFrame) Serialize() ([]byte, error)]; the frame is
    returned with the buffer because [f.Length] is assigned. *)
Definition Serialize (f : t) : result (t * bytes) :=
  let flags := FrameHeader.Flags (Header f) in
  if FrameHeader.StreamID (Header f) =? 0 then
    Err "HEADERS_FRAME_ERROR: frame must have non-zero stream ID"
  else
    payloadLength <- payloadLength f ;;
    let f := set_Length payloadLength f in
    header <- FrameHeader.Serialize (Header f) ;;
    let offset := len header in
    let frameLength := offset + payloadLength in
    let frame := make frameLength in
    let frame := copy frame header in
    st <- (if hasPad flags then
             frame <- set_index frame offset (PadLen f) ;;
             Ok (frame, offset + 1)
           else Ok (frame, offset)) ;;
    let '(frame, offset) := st in
    st <- (if hasPriority flags then
             let dep :=
               if Exclusive f then Z.lor (StreamDependency f) 0x80000000
               else Z.lor (StreamDependency f) 0x7FFFFFFF in
             frame <- on_slice frame offset (offset + 4) (PutUint32 dep) ;;
             let offset := offset + 4 in
             frame <- set_index frame offset (Weight f) ;;
             Ok (frame, offset + 1)
           else Ok (frame, offset)) ;;
    let '(frame, offset) := st in
    frame <- copy_from frame offset (HeaderBlock f) ;;
    Ok (f, frame).

End HeadersFrame.

(** [func ParseHeadersFrame(header *FrameHeader, payload []byte)] *)
Definition ParseHeadersFrame (header : FrameHeader.t) (payload : bytes)
  : result HeadersFrame.t :=
  let flags := FrameHeader.Flags header in
  let offset := 0 in
  st <- (if hasPad flags then
           if len payload <? 1 then
             Err "HEADERS_FRAME_ERROR: pad is required"
           else b <- index payload 0 ;; Ok (b, offset + 1)
         else Ok (0, offset)) ;;
  let '(PadLen, offset) := st in
  st <- (if hasPriority flags then
           if len payload <? offset + 5 then
             Err "HEADERS_FRAME_ERROR: priority is required"
           else
             s <- slice payload offset (offset + 4) ;;
             dep <- Uint32 s ;;
             let Exclusive := negb (Z.land dep 0x80000000 =? 0) in
             let StreamDependency := Z.land dep 0x7FFFFFFF in
             let offset := offset + 4 in
             Weight <- index payload offset ;;
             Ok (Exclusive, StreamDependency, Weight, offset + 1)
         else Ok (false, 0, 0, offset)) ;;
  let '(Exclusive, StreamDependency, Weight, offset) := st in
  let headerBlockLength := len payload - offset - PadLen in
  if headerBlockLength <? 0 then
    Err "HEADERS_FRAME_ERROR: header block length must not be negative"
  else
    HeaderBlock <- slice payload offset (offset + headerBlockLength) ;;
    Ok (HeadersFrame.mk header PadLen Exclusive StreamDependency Weight
                        HeaderBlock).

(** ** DATA *)

Module DataFrame.

Record t : Type := mk {
  Header : FrameHeader.t;
  PadLen : Z;   (* uint8 *)
  Data : bytes
}.

Definition set_Length (n : Z) (f : t) : t :=
  mk (FrameHeader.set_Length n (Header f)) (PadLen f) (Data f).

(** [func (f *DataFrame) Serialize() ([]byte, error)] *)
Definition Serialize (f : t) : result (t * bytes) :=
  let flags := FrameHeader.Flags (Header f) in
  if FrameHeader.StreamID (Header f) =? 0 then
    Err "DATA_FRAME_ERROR: StreamID must be greater than zero"
  else
    payloadLength <-
      (if negb (Z.land flags FlagPadded =? 0) then
         if 255 <? PadLen f then
           Err "DATA_FRAME_ERROR: PadLen must be <= 255"
         else Ok (u32 (1 + u32 (len (Data f)) + PadLen f))
       else Ok (u32 (len (Data f)))) ;;
    if 16777215 <? payloadLength then Err EmptyString
    else
      let f := set_Length payloadLength f in
      header <- FrameHeader.Serialize (Header f) ;;
      let offset := len header in
      let frame := make (offset + payloadLength) in
      let frame := copy frame header in
      st <- (if negb (Z.land flags FlagPadded =? 0) then
               frame <- set_index frame offset (PadLen f) ;;
               Ok (frame, offset + 1)
             else Ok (frame, offset)) ;;
      let '(frame, offset) := st in
      frame <- copy_from frame offset (Data f) ;;
      Ok (f, frame).

End DataFrame.

(** [func ParseDataFrame(header *FrameHeader, payload []byte)] *)
Definition ParseDataFrame (header : FrameHeader.t) (payload : bytes)
  : result DataFrame.t :=
  let flags := FrameHeader.Flags header in
  if negb (FrameHeader.Type' header =? FrameData) then
    Err "DATA_FRAME_ERROR: expected frame type %d, got %d"
  else
    let offset := 0 in
    st <- (if negb (Z.land flags FlagPadded =? 0) then
             if len payload <? 1 then Err "DATA_FRAME_ERROR: pad is required"
             else
               PadLen <- index payload 0 ;;
               let offset := offset + 1 in
               if len payload - offset <? PadLen then
                 Err "DATA_FRAME_ERROR: pad length out of range"
               else Ok (PadLen, offset)
           else Ok (0, offset)) ;;
    let '(PadLen, offset) := st in
    let dataLength := len payload - offset - PadLen in
    if dataLength <? 0 then
      Err "DATA_FRAME_ERROR: data length out of range: %d"
    else
      let Data := make dataLength in
      s <- slice payload offset (offset + dataLength) ;;
      Ok (DataFrame.mk header PadLen (copy Data s)).

(** ** SETTINGS *)

Record Setting : Type := mkSetting {
  ID : Z;      (* uint16 *)
  Value : Z    (* uint32 *)
}.

Module SettingsFrame.

Record t : Type := mk {
  Header : FrameHeader.t;
  Settings : list Setting
}.

Definition wf_setting (s : Setting) : Prop := is_u16 (ID s) /\ is_u32 (Value s).

Definition set_Length (n : Z) (f : t) : t :=
  mk (FrameHeader.set_Length n (Header f)) (Settings f).

(** The loop [for _, setting := range f.Settings] of [Serialize]. *)
Fixpoint put_settings (settings : list Setting) (frame : bytes) (offset : Z)
  : result bytes :=
  match settings with
  | [] => Ok frame
  | setting :: rest =>
      frame <- on_slice frame offset (len frame) (PutUint16 (ID setting)) ;;
      frame <- on_slice frame (offset + 2) (len frame)
                        (PutUint32 (Value setting)) ;;
      put_settings rest frame (offset + 6)
  end.

(** [func (f *SettingsFrame) Serialize() ([]byte, error)] *)
Definition Serialize (f : t) : result (t * bytes) :=
  let size := len (Settings f) in
  let f := set_Length (u32 (size * 6)) f in
  header <- FrameHeader.Serialize (Header f) ;;
  let offset := len header in
  let frame := make (offset + size * 6) in
  let frame := copy frame header in
  frame <- put_settings (Settings f) frame offset ;;
  Ok (f, frame).

End SettingsFrame.

(** The loop [for i := 0; i < len(settings); i++] of [ParseSettingsFrame],
    with [n] iterations left. *)
Fixpoint parse_settings (payload : bytes) (n : nat) (i : Z)
  : result (list Setting) :=
  match n with
  | O => Ok []
  | S n' =>
      let offset := i * 6 in
      a <- slice payload offset (offset + 2) ;;
      id <- Uint16 a ;;
      b <- slice payload (offset + 2) (offset + 6) ;;
      v <- Uint32 b ;;
      rest <- parse_settings payload n' (i + 1) ;;
      Ok (mkSetting id v :: rest)
  end.

(** [func ParseSettingsFrame(header *FrameHeader, payload []byte)] *)
Definition ParseSettingsFrame (header : FrameHeader.t) (payload : bytes)
  : result SettingsFrame.t :=
  if negb (FrameHeader.StreamID header =? 0) then
    Err "SETTINGS_FRAME_ERROR: streamID must be zero"
  else if negb (Z.rem (len payload) 6 =? 0) then
    Err "SETTINGS_FRAME_ERROR: invalid payload length"
  else
    settings <- parse_settings payload (Z.to_nat (Z.quot (len payload) 6)) 0 ;;
    Ok (SettingsFrame.mk header settings).


(** ** PING *)

Module PingFrame.

Record t : Type := mk {
  Header : FrameHeader.t;
  Data : bytes   (* [8]byte *)
}.

Definition set_Length (n : Z) (f : t) : t :=
  mk (FrameHeader.set_Length n (Header f)) (Data f).

(** [func (f *PingFrame) Serialize() ([]byte, error)] *)
Definition Serialize (f : t) : result (t * bytes) :=
  if negb (FrameHeader.StreamID (Header f) =? 0) then
    Err "SETTINGS_FRAME_ERROR: streamID must be zero"
  else
    let f := set_Length 8 f in
    header <- FrameHeader.Serialize (Header f) ;;
    let offset := len header in
    let frame := make (offset + 8) in
    let frame := copy frame header in
    frame <- copy_from frame offset (Data f) ;;
    Ok (f, frame).

End PingFrame.

(** [func ParsePingFrame(header *FrameHeader, payload []byte)] *)
Definition ParsePingFrame (header : FrameHeader.t) (payload : bytes)
  : result PingFrame.t :=
  if negb (FrameHeader.Type' header =? FramePing) then
    Err "PING_FRAME_ERROR: expected frame type %d, got %d"
  else if negb (FrameHeader.StreamID header =? 0) then
    Err "PING_FRAME_ERROR: streamID must be zero"
  else if negb (len payload =? 8) then
    Err "PING_FRAME_ERROR: invalid payload length: %d"
  else
    Ok (PingFrame.mk header (copy (make 8) payload)).

(** ** WINDOW_UPDATE *)

Module WindowUpdateFrame.

Record t : Type := mk {
  Header : FrameHeader.t;
  WindowSizeIncrement : Z   (* uint32 *)
}.

Definition set_Length (n : Z) (f : t) : t :=
  mk (FrameHeader.set_Length n (Header f)) (WindowSizeIncrement f).

(** [func (f *WindowUpdateFrame) Serialize() ([]byte, error)] *)
Definition Serialize (f : t) : result (t * bytes) :=
  if (WindowSizeIncrement f =? 0) || (0x7FFFFFFF <? WindowSizeIncrement f)
  then Err "WINDOW_UPDATE_FRAME_ERROR: invalid window size: %d"
  else
    let f := set_Length 4 f in
    header <- FrameHeader.Serialize (Header f) ;;
    let offset := len header in
    let frame := make (offset + 4) in
    let frame := copy frame header in
    frame <- on_slice frame offset (len frame)
               (PutUint32 (Z.land (WindowSizeIncrement f) 0x7FFFFFFF)) ;;
    Ok (f, frame).

End WindowUpdateFrame.

(** [func ParseWindowUpdateFrame(header *FrameHeader, payload []byte)] *)
Definition ParseWindowUpdateFrame (header : FrameHeader.t) (payload : bytes)
  : result WindowUpdateFrame.t :=
  if len payload <? 4 then
    Err "WINDOW_UPDATE_FRAME_ERROR: invalid payload length: %d"
  else if negb (FrameHeader.Type' header =? FrameWindowUpdate) then
    Err "WINDOW_UPDATE_FRAME_ERROR: expected frame type %d, got %d"
  else if negb (FrameHeader.Length header =? 4) then
    Err "WINDOW_UPDATE_FRAME_ERROR: invalid length: %d"
  else
    v <- Uint32 payload ;;
    let increment := Z.land v 0x7FFFFFFF in
    if increment =? 0 then
      Err "WINDOW_UPDATE_FRAME_ERROR: invalid increment value: %d"
    else Ok (WindowUpdateFrame.mk header increment).

(** ** RST_STREAM *)

Module RSTStreamFrame.

Record t : Type := mk {
  Header : FrameHeader.t;
  ErrorCode : Z   (* uint32 *)
}.

Definition set_Length (n : Z) (f : t) : t :=
  mk (FrameHeader.set_Length n (Header f)) (ErrorCode f).

(** [func (f *RSTStreamFrame) Serialize() ([]byte, error)] *)
Definition Serialize (f : t) : result (t * bytes) :=
  if ErrorCode f =? 0 then
    Err "RST_STREAM_FRAME_ERROR: streamID must be greater than zero"
  else
    let f := set_Length 4 f in
    header <- FrameHeader.Serialize (Header f) ;;
    let offset := len header in
    let frame := make (offset + 4) in
    let frame := copy frame header in
    frame <- on_slice frame offset (len frame) (PutUint32 (ErrorCode f)) ;;
    Ok (f, frame).

End RSTStreamFrame.

(** [func ParseRSTStreamFrame(header *FrameHeader, payload []byte)] *)
Definition ParseRSTStreamFrame (header : FrameHeader.t) (payload : bytes)
  : result RSTStreamFrame.t :=
  if len payload <? 4 then
    Err "RST_STREAMFRAME_ERROR: invalid payload length: %d"
  else if negb (FrameHeader.Type' header =? FrameRSTStream) then
    Err "RST_STREAMFRAME_ERROR: expected frame type %d, got %d"
  else if negb (FrameHeader.Length header =? 4) then
    Err "RST_STREAMFRAME_ERROR: invalid length: %d"
  else
    v <- Uint32 payload ;;
    Ok (RSTStreamFrame.mk header v).

(** ** GOAWAY *)

Module GoAwayFrame.

Record t : Type := mk {
  Header : FrameHeader.t;
  LastStreamID : Z;   (* uint32 *)
  ErrorCode : Z;      (* uint32 *)
  DebugData : bytes
}.

Definition set_Length (n : Z) (f : t) : t :=
  mk (FrameHeader.set_Length n (Header f)) (LastStreamID f) (ErrorCode f)
     (DebugData f).

(** [func (f *GoAwayFrame) Serialize() ([]byte, error)] *)
Definition Serialize (f : t) : result (t * bytes) :=
  if negb (FrameHeader.StreamID (Header f) =? 0) then
    Err "GOWAYFRAME_FRAME_ERROR: streamID must be zero"
  else
    let f := set_Length (u32 (8 + u32 (len (DebugData f)))) f in
    header <- FrameHeader.Serialize (Header f) ;;
    let offset := len header in
    let frame := make (offset + FrameHeader.Length (Header f)) in
    let frame := copy frame header in
    frame <- on_slice frame offset (offset + 4)
               (PutUint32 (Z.land (LastStreamID f) 0x7FFFFFFF)) ;;
    let offset := offset + 4 in
    frame <- on_slice frame (offset + 4) (offset + 8)
               (PutUint32 (ErrorCode f)) ;;
    let offset := offset + 4 in
    frame <- copy_from frame offset (DebugData f) ;;
    Ok (f, frame).

End GoAwayFrame.

(** [func ParseGoAwayFrame(header *FrameHeader, payload []byte)] *)
Definition ParseGoAwayFrame (header : FrameHeader.t) (payload : bytes)
  : result GoAwayFrame.t :=
  if len payload <? 8 then
    Err "GOWAYFRAME_ERROR: invalid payload length: %d"
  else if negb (FrameHeader.Type' header =? FrameGoWay) then
    Err "GOWAYFRAME_ERROR: expected frame type %d, got %d"
  else if negb (FrameHeader.StreamID header =? 0) then
    Err "GOWAYFRAME_ERROR: streamID must be zero"
  else
    s <- slice payload 0 4 ;;
    v <- Uint32 s ;;
    let lastStreamID := Z.land v 0x7FFFFFFF in
    s <- slice payload 4 8 ;;
    errorCode <- Uint32 s ;;
    let debugData := make (u32 (FrameHeader.Length header - 8)) in
    debugData <-
      (if 8 <? FrameHeader.Length header then
         s <- slice payload 8 (FrameHeader.Length header) ;;
         Ok (copy debugData s)
       else Ok debugData) ;;
    Ok (GoAwayFrame.mk header lastStreamID errorCode debugData).

(** ** Any frame

    The Go interface [Frame] (a header and a [Serialize] method), as the sum
    of the seven frame structs that implement it. *)

Inductive Frame : Type :=
| Data (f : DataFrame.t)
| Headers (f : HeadersFrame.t)
| Settings (f : SettingsFrame.t)
| Ping (f : PingFrame.t)
| WindowUpdate (f : WindowUpdateFrame.t)
| RSTStream (f : RSTStreamFrame.t)
| GoAway (f : GoAwayFrame.t).

Definition fmap {A B : Type} (g : A -> B) (r : result A) : result B :=
  x <- r ;; Ok (g x).

Definition with_frame {A B C : Type} (g : A -> B) (p : A * C) : B * C :=
  (g (fst p), snd p).

Module AnyFrame.

(** [Frame.Header()] *)
Definition Header (f : Frame) : FrameHeader.t :=
  match f with
  | Data f => DataFrame.Header f
  | Headers f => HeadersFrame.Header f
  | Settings f => SettingsFrame.Header f
  | Ping f => PingFrame.Header f
  | WindowUpdate f => WindowUpdateFrame.Header f
  | RSTStream f => RSTStreamFrame.Header f
  | GoAway f => GoAwayFrame.Header f
  end.

(** [Frame.Serialize()], dispatched on the dynamic type. *)
Definition Serialize (f : Frame) : result (Frame * bytes) :=
  match f with
  | Data f => fmap (with_frame Data) (DataFrame.Serialize f)
  | Headers f => fmap (with_frame Headers) (HeadersFrame.Serialize f)
  | Settings f => fmap (with_frame Settings) (SettingsFrame.Serialize f)
  | Ping f => fmap (with_frame Ping) (PingFrame.Serialize f)
  | WindowUpdate f =>
      fmap (with_frame WindowUpdate) (WindowUpdateFrame.Serialize f)
  | RSTStream f => fmap (with_frame RSTStream) (RSTStreamFrame.Serialize f)
  | GoAway f => fmap (with_frame GoAway) (GoAwayFrame.Serialize f)
  end.

(** The parser of the variant of [f], applied to a header and a payload. *)
Definition Parse_as (f : Frame) (header : FrameHeader.t) (payload : bytes)
  : result Frame :=
  match f with
  | Data _ => fmap Data (ParseDataFrame header payload)
  | Headers _ => fmap Headers (ParseHeadersFrame header payload)
  | Settings _ => fmap Settings (ParseSettingsFrame header payload)
  | Ping _ => fmap Ping (ParsePingFrame header payload)
  | WindowUpdate _ =>
      fmap WindowUpdate (ParseWindowUpdateFrame header payload)
  | RSTStream _ => fmap RSTStream (ParseRSTStreamFrame header payload)
  | GoAway _ => fmap GoAway (ParseGoAwayFrame header payload)
  end.

Definition set_Length (n : Z) (f : Frame) : Frame :=
  match f with
  | Data f => Data (DataFrame.set_Length n f)
  | Headers f => Headers (HeadersFrame.set_Length n f)
  | Settings f => Settings (SettingsFrame.set_Length n f)
  | Ping f => Ping (PingFrame.set_Length n f)
  | WindowUpdate f => WindowUpdate (WindowUpdateFrame.set_Length n f)
  | RSTStream f => RSTStream (RSTStreamFrame.set_Length n f)
  | GoAway f => GoAway (GoAwayFrame.set_Length n f)
  end.

(** Equality of two frames in every field but the header's [Length]. *)
Definition eq_up_to_Length (f g : Frame) : Prop :=
  set_Length 0 f = set_Length 0 g.

(** What the receiver does with a serialized frame: the first nine bytes go
    to [ParseFrameHeader], the bytes after them to the payload parser. *)
Definition reparse (f : Frame) (buf : bytes) : result Frame :=
  hd <- slice buf 0 9 ;;
  header <- ParseFrameHeader hd ;;
  payload <- slice_from buf 9 ;;
  Parse_as f header payload.

(** Serialize, then parse what was serialized. *)
Definition roundtrip (f : Frame) : result Frame :=
  r <- Serialize f ;;
  reparse f (snd r).

End AnyFrame.

(** ** Wire layouts

    The byte sequences and values that the properties below relate the codec
    to. *)

(** The nine bytes of a header on the wire. *)
Definition header_bytes (h : FrameHeader.t) : bytes :=
  let sid := Z.land (FrameHeader.StreamID h) 0x7FFFFFFF in
  [ u8 (Z.shiftr (FrameHeader.Length h) 16);
    u8 (Z.shiftr (FrameHeader.Length h) 8);
    u8 (FrameHeader.Length h);
    FrameHeader.Type' h;
    FrameHeader.Flags h;
    u8 (Z.shiftr sid 24); u8 (Z.shiftr sid 16); u8 (Z.shiftr sid 8); u8 sid ].

(** What [ParseFrameHeader] recovers from a serialized header. *)
Definition wire_header (h : FrameHeader.t) : FrameHeader.t :=
  FrameHeader.mk (FrameHeader.Length h mod 2 ^ 24) (FrameHeader.Type' h)
                 (FrameHeader.Flags h)
                 (Z.land (FrameHeader.StreamID h) 0x7FFFFFFF).

(** The DATA frame of the concrete scenario: stream 1, no flags, "hello". *)
Definition data_hello : DataFrame.t :=
  DataFrame.mk (FrameHeader.mk 0 FrameData 0 1) 0 [104; 101; 108; 108; 111].

(** The bytes [PutUint16] and [PutUint32] write. *)
Definition be16 (v : Z) : bytes := [u8 (Z.shiftr v 8); u8 v].

Definition be32 (v : Z) : bytes :=
  [u8 (Z.shiftr v 24); u8 (Z.shiftr v 16); u8 (Z.shiftr v 8); u8 v].

(** DATA payload: [pad_len?:1][data:N][padding:pad_len]. *)
Definition DataFrame_payload (f : DataFrame.t) : bytes :=
  if hasPad (FrameHeader.Flags (DataFrame.Header f))
  then DataFrame.PadLen f :: DataFrame.Data f ++ make (DataFrame.PadLen f)
  else DataFrame.Data f.

Definition DataFrame_payloadLength (f : DataFrame.t) : Z :=
  if hasPad (FrameHeader.Flags (DataFrame.Header f))
  then 1 + len (DataFrame.Data f) + DataFrame.PadLen f
  else len (DataFrame.Data f).

(** The four bytes [Serialize] packs the exclusive bit and the dependency
    into (frame.go, lines 150-155). *)
Definition HeadersFrame_dep (f : HeadersFrame.t) : Z :=
  if HeadersFrame.Exclusive f
  then Z.lor (HeadersFrame.StreamDependency f) 0x80000000
  else Z.lor (HeadersFrame.StreamDependency f) 0x7FFFFFFF.

(** HEADERS payload without padding: [excl+dep?:4][weight?:1][header_block]. *)
Definition HeadersFrame_payload_unpadded (f : HeadersFrame.t) : bytes :=
  if hasPriority (FrameHeader.Flags (HeadersFrame.Header f))
  then be32 (HeadersFrame_dep f)
       ++ [HeadersFrame.Weight f] ++ HeadersFrame.HeaderBlock f
  else HeadersFrame.HeaderBlock f.

Definition HeadersFrame_payloadLength_unpadded (f : HeadersFrame.t) : Z :=
  if hasPriority (FrameHeader.Flags (HeadersFrame.Header f))
  then len (HeadersFrame.HeaderBlock f) + 5
  else len (HeadersFrame.HeaderBlock f).

(** SETTINGS payload: one six-byte record [id:2][value:4] per setting, in
    order. *)
Definition Setting_bytes (s : Setting) : bytes :=
  be16 (ID s) ++ be32 (Value s).

Definition SettingsFrame_payload (settings : list Setting) : bytes :=
  flat_map Setting_bytes settings.

(** Frames in canonical form: the header's stream identifier fits 31 bits,
    the header's type is the variant's code where the parser checks it, the
    fields lie in the range of their Go type, a field whose flag is unset
    holds its zero value, and the content fits the 24-bit length. HEADERS
    frames are canonical only without padding and, when they carry a priority
    block, with the exclusive bit set; no GOAWAY frame is. *)
Definition canonical (f : Frame) : Prop :=
  0 <= FrameHeader.StreamID (AnyFrame.Header f) < 2 ^ 31
  /\ match f with
     | Data f =>
         FrameHeader.Type' (DataFrame.Header f) = FrameData
         /\ 0 <= DataFrame.PadLen f <= 255
         /\ (hasPad (FrameHeader.Flags (DataFrame.Header f)) = false ->
             DataFrame.PadLen f = 0)
         /\ len (DataFrame.Data f) <= 0xFFFFFF
     | Headers f =>
         hasPad (FrameHeader.Flags (HeadersFrame.Header f)) = false
         /\ HeadersFrame.PadLen f = 0
         /\ len (HeadersFrame.HeaderBlock f) <= 0xFFFFFF
         /\ (if hasPriority (FrameHeader.Flags (HeadersFrame.Header f))
             then HeadersFrame.Exclusive f = true
                  /\ 0 <= HeadersFrame.StreamDependency f < 2 ^ 31
             else HeadersFrame.Exclusive f = false
                  /\ HeadersFrame.StreamDependency f = 0
                  /\ HeadersFrame.Weight f = 0)
     | Settings f =>
         FrameHeader.StreamID (SettingsFrame.Header f) = 0
         /\ Forall SettingsFrame.wf_setting (SettingsFrame.Settings f)
     | Ping f =>
         FrameHeader.Type' (PingFrame.Header f) = FramePing
         /\ len (PingFrame.Data f) = 8
     | WindowUpdate f =>
         FrameHeader.Type' (WindowUpdateFrame.Header f) = FrameWindowUpdate
         /\ is_u32 (WindowUpdateFrame.WindowSizeIncrement f)
     | RSTStream f =>
         FrameHeader.Type' (RSTStreamFrame.Header f) = FrameRSTStream
         /\ is_u32 (RSTStreamFrame.ErrorCode f)
     | GoAway _ => False
     end.

(** A DATA frame that carries a [PadLen] without the PADDED flag. *)
Definition data_stray_PadLen : Frame :=
  Data (DataFrame.mk (FrameHeader.mk 0 FrameData 0 1) 7
                     [104; 101; 108; 108; 111]).

(** A DATA frame in canonical form, with two bytes of padding. *)
Definition data_padded : Frame :=
  Data (DataFrame.mk (FrameHeader.mk 0 FrameData FlagPadded 1) 2
                     [104; 101; 108; 108; 111]).

(** * Properties *)

(** ** Bits of big-endian encodings *)

Lemma testbit_u8 (x n : Z) :
  0 <= n -> Z.testbit (u8 x) n = (n <? 8) && Z.testbit x n.
Proof.
  intros Hn. unfold u8. change 256 with (2 ^ 8).
  destruct (Z.ltb_spec n 8).
  - rewrite Z.mod_pow2_bits_low by lia. reflexivity.
  - rewrite Z.mod_pow2_bits_high by lia. reflexivity.
Qed.

Lemma testbit_byte_at (v k n : Z) :
  0 <= k -> 0 <= n ->
  Z.testbit (Z.shiftl (u8 (Z.shiftr v k)) k) n
  = (k <=? n) && (n <? k + 8) && Z.testbit v n.
Proof.
  intros Hk Hn. rewrite Z.shiftl_spec by lia.
  destruct (Z.leb_spec k n).
  - rewrite testbit_u8 by lia. rewrite Z.shiftr_spec by lia.
    replace (n - k + k) with n by lia.
    destruct (Z.ltb_spec (n - k) 8), (Z.ltb_spec n (k + 8)); try lia;
      reflexivity.
  - rewrite Z.testbit_neg_r by lia. reflexivity.
Qed.

Lemma testbit_below (v k n : Z) :
  0 <= v < 2 ^ k -> k <= n -> Z.testbit v n = false.
Proof.
  intros Hv Hn. destruct (Z.lt_ge_cases k 0) as [Hk|Hk].
  - rewrite Z.pow_neg_r in Hv by lia. lia.
  - rewrite <- (Z.mod_small v (2 ^ k)) by lia.
    apply Z.mod_pow2_bits_high. lia.
Qed.

(** Reading back the four bytes that [PutUint32] writes. *)
Lemma be32_decode_encode (v : Z) :
  is_u32 v ->
  Z.lor (Z.lor (Z.lor (u8 v) (Z.shiftl (u8 (Z.shiftr v 8)) 8))
               (Z.shiftl (u8 (Z.shiftr v 16)) 16))
        (Z.shiftl (u8 (Z.shiftr v 24)) 24) = v.
Proof.
  intros Hv. apply Z.bits_inj'. intros n Hn.
  rewrite !Z.lor_spec, !testbit_byte_at, testbit_u8 by lia.
  destruct (Z.ltb_spec n 32) as [H32|H32].
  - destruct (Z.testbit v n); rewrite ?andb_true_r, ?andb_false_r;
      [|reflexivity].
    destruct (Z.ltb_spec n 8), (Z.leb_spec 8 n), (Z.ltb_spec n (8 + 8)),
      (Z.leb_spec 16 n), (Z.ltb_spec n (16 + 8)), (Z.leb_spec 24 n),
      (Z.ltb_spec n (24 + 8)); try lia; reflexivity.
  - rewrite (testbit_below v 32 n) by (unfold is_u32 in Hv; lia).
    rewrite !andb_false_r. reflexivity.
Qed.

(** Reading back the two bytes that [PutUint16] writes. *)
Lemma be16_decode_encode (v : Z) :
  is_u16 v ->
  Z.lor (u8 v) (Z.shiftl (u8 (Z.shiftr v 8)) 8) = v.
Proof.
  intros Hv. apply Z.bits_inj'. intros n Hn.
  rewrite !Z.lor_spec, !testbit_byte_at, testbit_u8 by lia.
  destruct (Z.ltb_spec n 16) as [H16|H16].
  - destruct (Z.testbit v n); rewrite ?andb_true_r, ?andb_false_r;
      [|reflexivity].
    destruct (Z.ltb_spec n 8), (Z.leb_spec 8 n), (Z.ltb_spec n (8 + 8));
      try lia; reflexivity.
  - rewrite (testbit_below v 16 n) by (unfold is_u16 in Hv; lia).
    rewrite !andb_false_r. reflexivity.
Qed.

(** The three length bytes hold the low 24 bits of [Length]. *)
Lemma be24_decode_encode (v : Z) :
  Z.lor (Z.lor (Z.shiftl (u8 (Z.shiftr v 16)) 16)
               (Z.shiftl (u8 (Z.shiftr v 8)) 8)) (u8 v)
  = v mod 2 ^ 24.
Proof.
  apply Z.bits_inj'. intros n Hn.
  rewrite !Z.lor_spec, !testbit_byte_at, testbit_u8 by lia.
  destruct (Z.ltb_spec n 24) as [H24|H24].
  - rewrite Z.mod_pow2_bits_low by lia.
    destruct (Z.testbit v n); rewrite ?andb_true_r, ?andb_false_r;
      [|reflexivity].
    destruct (Z.ltb_spec n 8), (Z.leb_spec 8 n), (Z.ltb_spec n (8 + 8)),
      (Z.leb_spec 16 n), (Z.ltb_spec n (16 + 8)); try lia; reflexivity.
  - rewrite Z.mod_pow2_bits_high by lia.
    destruct (Z.ltb_spec n 8), (Z.leb_spec 8 n), (Z.ltb_spec n (8 + 8)),
      (Z.leb_spec 16 n), (Z.ltb_spec n (16 + 8)); try lia;
      rewrite ?andb_false_r; reflexivity.
Qed.

Lemma land_mask31_range (v : Z) : 0 <= Z.land v 0x7FFFFFFF < 2 ^ 31.
Proof.
  change 0x7FFFFFFF with (Z.ones 31). rewrite Z.land_ones by lia.
  apply Z.mod_pos_bound. lia.
Qed.

Lemma land_mask31_small (v : Z) :
  0 <= v < 2 ^ 31 -> Z.land v 0x7FFFFFFF = v.
Proof.
  intros Hv. change 0x7FFFFFFF with (Z.ones 31).
  rewrite Z.land_ones by lia. apply Z.mod_small. lia.
Qed.

(** ** The header codec *)

Lemma FrameHeader_Serialize_eq (h : FrameHeader.t) :
  FrameHeader.Serialize h = Ok (header_bytes h).
Proof. reflexivity. Qed.

Lemma len_header_bytes (h : FrameHeader.t) : len (header_bytes h) = 9.
Proof. reflexivity. Qed.

Lemma index_ok (b : bytes) (i : Z) :
  0 <= i < len b -> index b i = Ok (nth (Z.to_nat i) b 0).
Proof.
  intros H. unfold index.
  destruct (Z.leb_spec 0 i); [|lia]. destruct (Z.ltb_spec i (len b)); [|lia].
  reflexivity.
Qed.

Lemma slice_ok (b : bytes) (lo hi : Z) :
  0 <= lo <= hi -> hi <= len b ->
  slice b lo hi = Ok (firstn (Z.to_nat (hi - lo)) (skipn (Z.to_nat lo) b)).
Proof.
  intros H1 H2. unfold slice.
  destruct (Z.leb_spec 0 lo); [|lia]. destruct (Z.leb_spec lo hi); [|lia].
  destruct (Z.leb_spec hi (len b)); [|lia]. reflexivity.
Qed.

Lemma len_cons {A : Type} (x : A) (l : list A) : len (x :: l) = 1 + len l.
Proof. unfold len. cbn [length]. lia. Qed.

Lemma len_nonneg {A : Type} (l : list A) : 0 <= len l.
Proof. unfold len. lia. Qed.

Lemma len_app {A : Type} (l1 l2 : list A) : len (l1 ++ l2) = len l1 + len l2.
Proof. unfold len. rewrite length_app. lia. Qed.

Lemma len_make (n : Z) : 0 <= n -> len (make n) = n.
Proof. intros H. unfold len, make. rewrite repeat_length. lia. Qed.

(** [ParseFrameHeader] on at least nine bytes. *)
Lemma ParseFrameHeader_cons (b0 b1 b2 b3 b4 b5 b6 b7 b8 : Z) (rest : bytes) :
  ParseFrameHeader (b0 :: b1 :: b2 :: b3 :: b4 :: b5 :: b6 :: b7 :: b8 :: rest)
  = Ok (FrameHeader.mk
          (Z.lor (Z.lor (Z.shiftl b0 16) (Z.shiftl b1 8)) b2) b3 b4
          (Z.land (Z.lor (Z.lor (Z.lor b8 (Z.shiftl b7 8)) (Z.shiftl b6 16))
                         (Z.shiftl b5 24))
                  0x7FFFFFFF)).
Proof.
  unfold ParseFrameHeader.
  pose proof (len_nonneg rest) as Hr.
  destruct (Z.ltb_spec
              (len (b0 :: b1 :: b2 :: b3 :: b4 :: b5 :: b6 :: b7 :: b8 :: rest))
              9) as [H|H]; [rewrite !len_cons in H; lia|].
  rewrite !index_ok by (rewrite !len_cons; lia).
  rewrite slice_ok by (rewrite ?len_cons; lia).
  reflexivity.
Qed.

Lemma ParseFrameHeader_short (data : bytes) :
  len data < 9 ->
  ParseFrameHeader data
  = Err "FRAME_SIZE_ERROR: frame header must be 9 bytes, got %d".
Proof.
  intros H. unfold ParseFrameHeader.
  destruct (Z.ltb_spec (len data) 9); [reflexivity|lia].
Qed.

Lemma ParseFrameHeader_header_bytes (h : FrameHeader.t) :
  ParseFrameHeader (header_bytes h) = Ok (wire_header h).
Proof.
  unfold header_bytes. cbv zeta. rewrite ParseFrameHeader_cons.
  unfold wire_header. f_equal. f_equal.
  - apply be24_decode_encode.
  - rewrite be32_decode_encode.
    + apply land_mask31_small. apply land_mask31_range.
    + pose proof (land_mask31_range (FrameHeader.StreamID h)).
      unfold is_u32. lia.
Qed.

(** Total description of [ParseFrameHeader]: it fails only on fewer than nine
    bytes, never aborts, and the stream identifier it returns has the
    reserved bit clear. *)
Lemma ParseFrameHeader_total (data : bytes) :
  match ParseFrameHeader data with
  | Ok h => 9 <= len data /\ 0 <= FrameHeader.StreamID h < 2 ^ 31
  | Err _ => len data < 9
  | Panic _ => False
  end.
Proof.
  destruct (Z.lt_ge_cases (len data) 9) as [H|H].
  - rewrite ParseFrameHeader_short by assumption. assumption.
  - do 9 (destruct data as [|? data];
          [unfold len in H; cbn [length] in H; lia|]).
    rewrite ParseFrameHeader_cons. cbn [FrameHeader.StreamID].
    split; [assumption|apply land_mask31_range].
Qed.

(** C7. Whatever [StreamID] the caller supplies, the four stream-identifier
    bytes written by [FrameHeader.Serialize] hold the identifier with the
    reserved bit cleared, so the top bit of the first of them is zero, and
    parsing these nine bytes gives the masked identifier. [ParseFrameHeader]
    masks the reserved bit off whatever bytes it is given: it fails only on
    fewer than nine bytes, and the stream identifier it returns is the
    32-bit value of bytes 5 to 8 ANDed with 0x7FFFFFFF, that is, bit 31
    cleared and the 31 bits below it kept; the wire bytes 80 00 00 01 are
    parsed to stream identifier 1. And a header with stream identifier
    0x80000001 is serialized and parsed back to stream identifier 1. *)
Theorem header_reserved_bit_stripped :
  (forall h : FrameHeader.t,
      exists buf s h',
        FrameHeader.Serialize h = Ok buf
        /\ slice buf 5 9 = Ok s
        /\ Uint32 s = Ok (Z.land (FrameHeader.StreamID h) 0x7FFFFFFF)
        /\ Z.testbit (nth 5 buf 0) 7 = false
        /\ ParseFrameHeader buf = Ok h'
        /\ FrameHeader.StreamID h' = Z.land (FrameHeader.StreamID h) 0x7FFFFFFF
        /\ Z.testbit (FrameHeader.StreamID h') 31 = false)
  /\ (forall data : bytes,
         match ParseFrameHeader data with
         | Ok h => 9 <= len data /\ 0 <= FrameHeader.StreamID h < 2 ^ 31
         | Err _ => len data < 9
         | Panic _ => False
         end)
  /\ (forall (b0 b1 b2 b3 b4 b5 b6 b7 b8 : Z) (rest : bytes),
         let v := Z.lor (Z.lor (Z.lor b8 (Z.shiftl b7 8)) (Z.shiftl b6 16))
                        (Z.shiftl b5 24) in
         exists h,
           ParseFrameHeader
             (b0 :: b1 :: b2 :: b3 :: b4 :: b5 :: b6 :: b7 :: b8 :: rest)
           = Ok h
           /\ Uint32 [b5; b6; b7; b8] = Ok v
           /\ FrameHeader.StreamID h = Z.land v 0x7FFFFFFF
           /\ Z.testbit (FrameHeader.StreamID h) 31 = false
           /\ (forall n, 0 <= n < 31 ->
                         Z.testbit (FrameHeader.StreamID h) n
                         = Z.testbit v n))
  /\ ParseFrameHeader [0; 0; 0; 0; 0; 0x80; 0x00; 0x00; 0x01]
     = Ok (FrameHeader.mk 0 0 0 1)
  /\ (forall length type flags : Z,
         (buf <- FrameHeader.Serialize
                   (FrameHeader.mk length type flags 0x80000001) ;;
          ParseFrameHeader buf)
         = Ok (FrameHeader.mk (length mod 2 ^ 24) type flags 1)).
Proof.
  split; [|split; [|split; [|split]]].
  - intros h.
    pose proof (land_mask31_range (FrameHeader.StreamID h)) as Hm.
    set (sid := Z.land (FrameHeader.StreamID h) 0x7FFFFFFF) in *.
    exists (header_bytes h),
      [u8 (Z.shiftr sid 24); u8 (Z.shiftr sid 16); u8 (Z.shiftr sid 8); u8 sid],
      (wire_header h).
    split; [apply FrameHeader_Serialize_eq|].
    split; [reflexivity|].
    split.
    { unfold Uint32. cbn [len length Z.of_nat Pos.of_succ_nat Pos.succ Z.ltb
                          Z.compare Pos.compare Pos.compare_cont nth].
      rewrite be32_decode_encode; [reflexivity|unfold is_u32; lia]. }
    split.
    { cbn [header_bytes nth]. fold sid. rewrite testbit_u8 by lia.
      rewrite Z.shiftr_spec by lia. cbn [Z.ltb Z.compare Pos.compare
        Pos.compare_cont andb Z.add Pos.add Pos.succ Pos.add_carry].
      apply (testbit_below sid 31); lia. }
    split; [apply ParseFrameHeader_header_bytes|].
    split; [reflexivity|].
    cbn [wire_header FrameHeader.StreamID]. fold sid.
    apply (testbit_below sid 31); lia.
  - apply ParseFrameHeader_total.
  - intros b0 b1 b2 b3 b4 b5 b6 b7 b8 rest. cbv zeta.
    rewrite ParseFrameHeader_cons. eexists. split; [reflexivity|].
    cbn [FrameHeader.StreamID].
    split; [reflexivity|]. split; [reflexivity|]. split.
    + apply (testbit_below _ 31); [apply land_mask31_range|lia].
    + intros n Hn. rewrite Z.land_spec.
      change 0x7FFFFFFF with (Z.ones 31).
      rewrite Z.testbit_ones_nonneg by lia.
      destruct (Z.ltb_spec n 31); [apply andb_true_r|lia].
  - rewrite ParseFrameHeader_cons. reflexivity.
  - intros length type flags. rewrite FrameHeader_Serialize_eq.
    cbn [bind]. rewrite ParseFrameHeader_header_bytes. reflexivity.
Qed.

Lemma header_reserved_bit_stripped_witness :
  exists h,
    ParseFrameHeader [0; 0; 5; 0; 0; 0x80; 0x00; 0x00; 0x01; 104] = Ok h
    /\ FrameHeader.StreamID h = Z.land 0x80000001 0x7FFFFFFF
    /\ Z.testbit (FrameHeader.StreamID h) 31 = false
    /\ Z.testbit (FrameHeader.StreamID h) 0 = Z.testbit 0x80000001 0.
Proof.
  destruct header_reserved_bit_stripped as (_ & _ & Hparse & _ & _).
  destruct (Hparse 0 0 5 0 0 0x80 0x00 0x00 0x01 [104])
    as (h & Hh & _ & Hsid & H31 & Hlow).
  exists h. split; [exact Hh|]. split; [exact Hsid|]. split; [exact H31|].
  apply (Hlow 0). lia.
Defined.

(** ** Failures and rejections common to the codecs *)

Lemma GoAway_Serialize_nonzero_stream (f : GoAwayFrame.t) :
  FrameHeader.StreamID (GoAwayFrame.Header f) <> 0 ->
  GoAwayFrame.Serialize f
  = Err "GOWAYFRAME_FRAME_ERROR: streamID must be zero".
Proof.
  intros H. unfold GoAwayFrame.Serialize.
  destruct (Z.eqb_spec (FrameHeader.StreamID (GoAwayFrame.Header f)) 0);
    [contradiction|reflexivity].
Qed.

Lemma ParseGoAwayFrame_nonzero_stream (h : FrameHeader.t) (payload : bytes) :
  FrameHeader.StreamID h <> 0 ->
  is_err (ParseGoAwayFrame h payload) = true.
Proof.
  intros H. unfold ParseGoAwayFrame.
  destruct (len payload <? 8); [reflexivity|].
  destruct (negb (FrameHeader.Type' h =? FrameGoWay)); [reflexivity|].
  destruct (Z.eqb_spec (FrameHeader.StreamID h) 0);
    [contradiction|reflexivity].
Qed.

Lemma ParseSettingsFrame_nonzero_stream (h : FrameHeader.t) (payload : bytes) :
  FrameHeader.StreamID h <> 0 ->
  ParseSettingsFrame h payload
  = Err "SETTINGS_FRAME_ERROR: streamID must be zero".
Proof.
  intros H. unfold ParseSettingsFrame.
  destruct (Z.eqb_spec (FrameHeader.StreamID h) 0);
    [contradiction|reflexivity].
Qed.

(** ** Evaluations on concrete frames *)

(** C2. On the HEADERS frame with stream 1, the PADDED flag, [PadLen] 0 and
    the three-byte header block "abc", the claimed payload length is
    3 + 1 + 0 = 4; [Serialize] assigns [1 + PadLen] over the header block's
    length, writes length 1 and emits a single payload byte, so the header
    block is not on the wire. *)
Theorem headers_padded_length_drops_block :
  let f := HeadersFrame.mk (FrameHeader.mk 0 FrameHeaders FlagPadded 1)
                           0 false 0 0 [97; 98; 99] in
  hasPad (FrameHeader.Flags (HeadersFrame.Header f)) = true
  /\ len (HeadersFrame.HeaderBlock f) + (1 + HeadersFrame.PadLen f) = 4
  /\ HeadersFrame.payloadLength f = Ok 1
  /\ HeadersFrame.Serialize f
     = Ok (HeadersFrame.set_Length 1 f, [0; 0; 1; 1; 8; 0; 0; 0; 1; 0]).
Proof. cbv zeta. repeat split. Qed.

(** C3. On the GOAWAY frame with stream 0, last stream 1, error code 2 and
    debug data "abcd", payload bytes 4..7 are zero and not 00 00 00 02: the
    error code is written four bytes too far, at payload bytes 8..11, where
    the debug data then overwrites it. *)
Theorem goaway_error_code_not_on_wire :
  let f := GoAwayFrame.mk (FrameHeader.mk 0 FrameGoWay 0 0) 1 2
                          [97; 98; 99; 100] in
  GoAwayFrame.Serialize f
  = Ok (GoAwayFrame.set_Length 12 f,
        [0; 0; 12; 7; 0; 0; 0; 0; 0]
        ++ [0; 0; 0; 1] ++ [0; 0; 0; 0] ++ [97; 98; 99; 100]).
Proof. reflexivity. Qed.

(** C4. Serializing the GOAWAY frame with stream 0 and empty debug data
    aborts: the buffer has 9 + 8 bytes and the error code is written to
    [frame[17:21]]. No buffer and no length 8 is produced. *)
Theorem goaway_empty_debug_data_aborts :
  GoAwayFrame.Serialize (GoAwayFrame.mk (FrameHeader.mk 0 FrameGoWay 0 0) 0 0 [])
  = Panic slice_msg.
Proof. reflexivity. Qed.

(** C5. [SettingsFrame.Serialize] has no stream check: on the SETTINGS frame
    with stream 1 and no settings it returns a buffer, with stream
    identifier 1 on the wire. *)
Theorem settings_serialize_accepts_nonzero_stream :
  let f := SettingsFrame.mk (FrameHeader.mk 0 FrameSettings 0 1) [] in
  SettingsFrame.Serialize f = Ok (f, [0; 0; 0; 4; 0; 0; 0; 0; 1]).
Proof. reflexivity. Qed.

(** C6, as amended. Serializing the DATA frame with stream 1, flags 0 and
    data "hello" succeeds and gives the fourteen bytes
    00 00 05 00 00 00 00 00 01 68 65 6C 6C 6F: a three-byte length 5, type 0,
    flags 0, stream identifier 1, then the data. *)
Theorem data_hello_serialized :
  DataFrame.Serialize data_hello
  = Ok (DataFrame.set_Length 5 data_hello,
        [0x00; 0x00; 0x05; 0x00; 0x00; 0x00; 0x00; 0x00; 0x01;
         0x68; 0x65; 0x6C; 0x6C; 0x6F]).
Proof. reflexivity. Qed.

(** C6 as stated fails: the serialized frame is not the fifteen bytes
    00 00 00 05 00 00 00 00 00 01 68 65 6C 6C 6F. *)
Lemma data_hello_not_fifteen_bytes :
  ~ (exists f',
        DataFrame.Serialize data_hello
        = Ok (f', [0x00; 0x00; 0x00; 0x05; 0x00; 0x00; 0x00; 0x00; 0x00; 0x01;
                   0x68; 0x65; 0x6C; 0x6C; 0x6F])).
Proof.
  intros [f' H]. vm_compute in H. discriminate H.
Qed.

(** C9. On a GOAWAY header with stream 0 and [Length] 9 and a payload of
    eight bytes, [ParseGoAwayFrame] passes its three checks and aborts on
    [payload[8:header.Length]]. *)
Theorem ParseGoAwayFrame_aborts_on_long_Length :
  ParseGoAwayFrame (FrameHeader.mk 9 FrameGoWay 0 0) [0; 0; 0; 0; 0; 0; 0; 0]
  = Panic slice_msg.
Proof. reflexivity. Qed.

(** ** Reading a payload *)

(** The value [binary.BigEndian.Uint32] reads from the head of [b]. *)
Lemma Uint32_ok (b : bytes) :
  4 <= len b ->
  Uint32 b = Ok (Z.lor (Z.lor (Z.lor (nth 3 b 0) (Z.shiftl (nth 2 b 0) 8))
                              (Z.shiftl (nth 1 b 0) 16))
                       (Z.shiftl (nth 0 b 0) 24)).
Proof.
  intros H. unfold Uint32. destruct (Z.ltb_spec (len b) 4); [lia|reflexivity].
Qed.

Lemma Uint16_ok (b : bytes) :
  2 <= len b ->
  Uint16 b = Ok (Z.lor (nth 1 b 0) (Z.shiftl (nth 0 b 0) 8)).
Proof.
  intros H. unfold Uint16. destruct (Z.ltb_spec (len b) 2); [lia|reflexivity].
Qed.

Lemma len_window (b : bytes) (lo n : Z) :
  0 <= lo -> 0 <= n -> lo + n <= len b ->
  len (firstn (Z.to_nat n) (skipn (Z.to_nat lo) b)) = n.
Proof.
  intros Hlo Hn H. unfold len in *.
  rewrite length_firstn, length_skipn. lia.
Qed.

(** The loop of [ParseSettingsFrame] stays inside a payload that holds the
    records it reads, and returns one setting per iteration. *)
Lemma parse_settings_ok (payload : bytes) (n : nat) :
  forall i : Z,
    0 <= i -> (i + Z.of_nat n) * 6 <= len payload ->
    exists settings,
      parse_settings payload n i = Ok settings /\ length settings = n.
Proof.
  induction n as [|n IH]; intros i Hi Hlen.
  - exists []. split; reflexivity.
  - cbn [parse_settings]. cbv zeta.
    rewrite slice_ok by lia. cbn [bind].
    rewrite Uint16_ok by (rewrite len_window; lia). cbn [bind].
    rewrite slice_ok by lia. cbn [bind].
    rewrite Uint32_ok by (rewrite len_window; lia). cbn [bind].
    destruct (IH (i + 1)) as [rest [Hrest Hl]]; [lia|lia|].
    rewrite Hrest. cbn [bind]. eexists. split; [reflexivity|].
    cbn [length]. rewrite Hl. reflexivity.
Qed.

(** ** Parsers and the frame type *)

Lemma ParseHeadersFrame_accepts (h : FrameHeader.t) (payload : bytes) :
  let padded := hasPad (FrameHeader.Flags h) in
  let priority := hasPriority (FrameHeader.Flags h) in
  let fixed := (if padded then 1 else 0) + (if priority then 5 else 0) in
  let padLen := if padded then nth 0 payload 0 else 0 in
  fixed <= len payload -> 0 <= padLen -> fixed + padLen <= len payload ->
  exists f, ParseHeadersFrame h payload = Ok f /\ HeadersFrame.Header f = h.
Proof.
  cbv zeta. unfold ParseHeadersFrame.
  destruct (hasPad (FrameHeader.Flags h)),
    (hasPriority (FrameHeader.Flags h)); intros Hfix Hpad Hlen.
  - destruct (Z.ltb_spec (len payload) 1); [lia|].
    rewrite index_ok by lia. cbn [bind].
    destruct (Z.ltb_spec (len payload) (0 + 1 + 5)); [lia|].
    rewrite slice_ok by lia. cbn [bind].
    rewrite Uint32_ok by (rewrite len_window; lia). cbn [bind].
    rewrite index_ok by lia. cbn [bind].
    change (Z.to_nat 0) with 0%nat.
    destruct (Z.ltb_spec (len payload - (0 + 1 + 4 + 1) - nth 0 payload 0) 0);
      [lia|].
    rewrite slice_ok by lia. cbn [bind].
    eexists. split; reflexivity.
  - destruct (Z.ltb_spec (len payload) 1); [lia|].
    rewrite index_ok by lia. cbn [bind].
    change (Z.to_nat 0) with 0%nat.
    destruct (Z.ltb_spec (len payload - (0 + 1) - nth 0 payload 0) 0); [lia|].
    rewrite slice_ok by lia. cbn [bind].
    eexists. split; reflexivity.
  - cbn [bind].
    destruct (Z.ltb_spec (len payload) (0 + 5)); [lia|].
    rewrite slice_ok by lia. cbn [bind].
    rewrite Uint32_ok by (rewrite len_window; lia). cbn [bind].
    rewrite index_ok by lia. cbn [bind].
    destruct (Z.ltb_spec (len payload - (0 + 4 + 1) - 0) 0); [lia|].
    rewrite slice_ok by lia. cbn [bind].
    eexists. split; reflexivity.
  - cbn [bind].
    destruct (Z.ltb_spec (len payload - 0 - 0) 0); [lia|].
    rewrite slice_ok by lia. cbn [bind].
    eexists. split; reflexivity.
Qed.

Lemma ParseSettingsFrame_accepts (h : FrameHeader.t) (payload : bytes) :
  FrameHeader.StreamID h = 0 -> len payload mod 6 = 0 ->
  exists f,
    ParseSettingsFrame h payload = Ok f /\ SettingsFrame.Header f = h
    /\ len (SettingsFrame.Settings f) * 6 = len payload.
Proof.
  intros Hsid Hmod. unfold ParseSettingsFrame.
  pose proof (len_nonneg payload) as Hnn.
  rewrite Hsid. cbn [Z.eqb negb].
  rewrite Z.rem_mod_nonneg by lia. rewrite Hmod. cbn [Z.eqb negb].
  rewrite Z.quot_div_nonneg by lia.
  assert (Hdiv : len payload = 6 * (len payload / 6))
    by (apply Z.div_exact; [lia|assumption]).
  destruct (parse_settings_ok payload (Z.to_nat (len payload / 6)) 0)
    as [settings [Hs Hl]]; [lia| |].
  { rewrite Z2Nat.id by (apply Z.div_pos; lia). lia. }
  rewrite Hs. cbn [bind]. eexists. split; [reflexivity|].
  split; [reflexivity|].
  cbn [SettingsFrame.Settings]. unfold len at 1. rewrite Hl.
  rewrite Z2Nat.id by (apply Z.div_pos; lia). lia.
Qed.

(** ** Writing into a buffer

    A write at or after offset [len h] into [h ++ t] is the same write into
    [t], moved down by [len h]; [h] is untouched. *)

Lemma firstn_app_len {A : Type} (h t : list A) (n k : nat) :
  n = (length h + k)%nat -> firstn n (h ++ t) = h ++ firstn k t.
Proof.
  intros ->. rewrite firstn_app.
  rewrite firstn_all2 by lia.
  replace (length h + k - length h)%nat with k by lia. reflexivity.
Qed.

Lemma skipn_app_len {A : Type} (h t : list A) (n k : nat) :
  n = (length h + k)%nat -> skipn n (h ++ t) = skipn k t.
Proof.
  intros ->. rewrite skipn_app.
  rewrite skipn_all2 by lia.
  replace (length h + k - length h)%nat with k by lia. reflexivity.
Qed.

Lemma set_index_app (h t : bytes) (i k v : Z) :
  0 <= k -> i = len h + k ->
  set_index (h ++ t) i v = fmap (app h) (set_index t k v).
Proof.
  intros Hk ->. unfold set_index, fmap. rewrite len_app.
  pose proof (len_nonneg h) as Hh.
  destruct (Z.leb_spec 0 (len h + k)); [|lia].
  destruct (Z.leb_spec 0 k); [|lia].
  destruct (Z.ltb_spec (len h + k) (len h + len t)),
    (Z.ltb_spec k (len t)); try lia; [|reflexivity].
  cbn [andb bind]. f_equal.
  rewrite (firstn_app_len h t _ (Z.to_nat k)) by (unfold len; lia).
  rewrite (skipn_app_len h t _ (Z.to_nat k + 1)) by (unfold len; lia).
  rewrite <- app_assoc. reflexivity.
Qed.

Lemma slice_app (h t : bytes) (lo hi lo' hi' : Z) :
  0 <= lo' -> lo = len h + lo' -> hi = len h + hi' ->
  slice (h ++ t) lo hi = slice t lo' hi'.
Proof.
  intros Hlo -> ->. unfold slice. rewrite len_app.
  pose proof (len_nonneg h) as Hh.
  destruct (Z.leb_spec 0 (len h + lo')); [|lia].
  destruct (Z.leb_spec 0 lo'); [|lia].
  destruct (Z.leb_spec (len h + lo') (len h + hi')),
    (Z.leb_spec lo' hi'); try lia; [|reflexivity].
  destruct (Z.leb_spec (len h + hi') (len h + len t)),
    (Z.leb_spec hi' (len t)); try lia; [|reflexivity].
  cbn [andb]. f_equal.
  rewrite (skipn_app_len h t _ (Z.to_nat lo')) by (unfold len; lia).
  f_equal. lia.
Qed.

Lemma on_slice_app (h t : bytes) (lo hi lo' hi' : Z)
      (w : bytes -> result bytes) :
  0 <= lo' -> lo = len h + lo' -> hi = len h + hi' ->
  on_slice (h ++ t) lo hi w = fmap (app h) (on_slice t lo' hi' w).
Proof.
  intros Hlo Elo Ehi. unfold on_slice, fmap.
  rewrite (slice_app h t lo hi lo' hi') by assumption.
  unfold slice.
  destruct (Z.leb_spec 0 lo'); [|lia].
  destruct (Z.leb_spec lo' hi'); [|reflexivity].
  destruct (Z.leb_spec hi' (len t)); [|reflexivity].
  cbn [andb bind].
  destruct (w _) as [s'|m|m]; [|reflexivity|reflexivity].
  cbn [bind]. f_equal. subst lo hi.
  rewrite (firstn_app_len h t _ (Z.to_nat lo')) by (unfold len; lia).
  rewrite (skipn_app_len h t _ (Z.to_nat hi')) by (unfold len; lia).
  rewrite <- app_assoc. reflexivity.
Qed.

Lemma copy_from_app (h t : bytes) (lo lo' : Z) (src : bytes) :
  0 <= lo' -> lo = len h + lo' ->
  copy_from (h ++ t) lo src = fmap (app h) (copy_from t lo' src).
Proof.
  intros Hlo Elo. unfold copy_from.
  apply on_slice_app; [assumption|assumption|apply len_app].
Qed.

Lemma copy_from_0 (t src : bytes) : copy_from t 0 src = Ok (copy t src).
Proof.
  unfold copy_from, on_slice. pose proof (len_nonneg t).
  rewrite slice_ok by lia. cbn [bind].
  change (Z.to_nat 0) with 0%nat. cbn [firstn skipn app].
  rewrite Z.sub_0_r. unfold len. rewrite Nat2Z.id.
  rewrite firstn_all, skipn_all, app_nil_r. reflexivity.
Qed.

Lemma make_add (a b : Z) : 0 <= a -> 0 <= b -> make (a + b) = make a ++ make b.
Proof.
  intros Ha Hb. unfold make. rewrite Z2Nat.inj_add by lia.
  apply repeat_app.
Qed.

Lemma make_0 : make 0 = [].
Proof. reflexivity. Qed.

(** [copy] of a source into a fresh buffer at least as long: the source,
    then the zero bytes that are left. *)
Lemma copy_make (src : bytes) (n : Z) :
  0 <= n -> copy (make (len src + n)) src = src ++ make n.
Proof.
  intros Hn. pose proof (len_nonneg src).
  assert (Hl : length (make (len src)) = length src).
  { unfold make, len. rewrite repeat_length. lia. }
  rewrite make_add by lia. unfold copy.
  rewrite firstn_all2 by (rewrite length_app, Hl; lia).
  rewrite skipn_app.
  rewrite skipn_all2 by lia. rewrite Hl.
  rewrite Nat.sub_diag. reflexivity.
Qed.

Lemma on_slice_PutUint32 (t : bytes) (hi v : Z) :
  hi = len t -> 4 <= len t ->
  on_slice t 0 hi (PutUint32 v) = Ok (be32 v ++ skipn 4 t).
Proof.
  intros -> H. unfold on_slice. rewrite slice_ok by lia. cbn [bind].
  change (Z.to_nat 0) with 0%nat. cbn [skipn firstn app].
  rewrite Z.sub_0_r.
  replace (Z.to_nat (len t)) with (length t) by (unfold len; lia).
  rewrite firstn_all.
  unfold PutUint32. destruct (Z.ltb_spec (len t) 4); [lia|]. cbn [bind].
  rewrite skipn_all, app_nil_r. reflexivity.
Qed.

Lemma on_slice_PutUint16 (t : bytes) (hi v : Z) :
  hi = len t -> 2 <= len t ->
  on_slice t 0 hi (PutUint16 v) = Ok (be16 v ++ skipn 2 t).
Proof.
  intros -> H. unfold on_slice. rewrite slice_ok by lia. cbn [bind].
  change (Z.to_nat 0) with 0%nat. cbn [skipn firstn app].
  rewrite Z.sub_0_r.
  replace (Z.to_nat (len t)) with (length t) by (unfold len; lia).
  rewrite firstn_all.
  unfold PutUint16. destruct (Z.ltb_spec (len t) 2); [lia|]. cbn [bind].
  rewrite skipn_all, app_nil_r. reflexivity.
Qed.

(** A four-byte window at the head of a longer buffer. *)
Lemma on_slice_PutUint32_head (t : bytes) (v : Z) :
  4 <= len t ->
  on_slice t 0 4 (PutUint32 v) = Ok (be32 v ++ skipn 4 t).
Proof.
  intros H. unfold on_slice. rewrite slice_ok by lia. cbn [bind].
  unfold PutUint32. rewrite len_window by lia.
  change (4 - 0 <? 4) with false. cbn [bind].
  change (Z.to_nat 0) with 0%nat. change (Z.to_nat (4 - 0)) with 4%nat.
  change (Z.to_nat 4) with 4%nat.
  rewrite skipn_firstn_comm. cbn [Nat.sub firstn skipn app be32].
  reflexivity.
Qed.

Lemma set_index_make_0 (n v : Z) :
  1 <= n -> set_index (make n) 0 v = Ok (v :: make (n - 1)).
Proof.
  intros H. replace n with (1 + (n - 1)) at 1 by lia.
  rewrite make_add by lia. reflexivity.
Qed.

Lemma copy_from_cons (x : Z) (t : bytes) (lo : Z) (src : bytes) :
  1 <= lo ->
  copy_from (x :: t) lo src = fmap (cons x) (copy_from t (lo - 1) src).
Proof.
  intros H. apply (copy_from_app [x] t lo (lo - 1) src); [lia|].
  rewrite len_cons. unfold len. cbn [length]. lia.
Qed.

Lemma copy_from_make (src : bytes) (n k : Z) :
  0 <= k -> n = len src + k ->
  copy_from (make n) 0 src = Ok (src ++ make k).
Proof.
  intros Hk ->. rewrite copy_from_0. rewrite copy_make by assumption.
  reflexivity.
Qed.

(** ** DATA on the wire *)

Lemma DataFrame_Serialize_eq (f : DataFrame.t) :
  0 <= DataFrame.PadLen f <= 255 -> len (DataFrame.Data f) <= 0xFFFFFF ->
  DataFrame.Serialize f
  = if FrameHeader.StreamID (DataFrame.Header f) =? 0 then
      Err "DATA_FRAME_ERROR: StreamID must be greater than zero"
    else if 0xFFFFFF <? DataFrame_payloadLength f then Err EmptyString
    else
      let f' := DataFrame.set_Length (DataFrame_payloadLength f) f in
      Ok (f', header_bytes (DataFrame.Header f') ++ DataFrame_payload f).
Proof.
  intros Hpad Hlen. pose proof (len_nonneg (DataFrame.Data f)) as Hnn.
  unfold DataFrame.Serialize, DataFrame_payloadLength, DataFrame_payload.
  fold (hasPad (FrameHeader.Flags (DataFrame.Header f))).
  destruct (FrameHeader.StreamID (DataFrame.Header f) =? 0); [reflexivity|].
  destruct (hasPad (FrameHeader.Flags (DataFrame.Header f))).
  - destruct (Z.ltb_spec 255 (DataFrame.PadLen f)); [lia|]. cbn [bind].
    unfold u32. rewrite (Z.mod_small (len (DataFrame.Data f))) by lia.
    rewrite Z.mod_small by lia.
    destruct (Z.ltb_spec 0xFFFFFF
                (1 + len (DataFrame.Data f) + DataFrame.PadLen f));
      [reflexivity|].
    rewrite FrameHeader_Serialize_eq. cbn [bind]. cbv zeta.
    rewrite copy_make by lia.
    rewrite (set_index_app _ _ _ 0) by lia.
    rewrite set_index_make_0 by lia. cbn [fmap bind].
    rewrite (copy_from_app _ _ _ 1) by lia.
    rewrite copy_from_cons by lia. change (1 - 1) with 0.
    cbn [DataFrame.set_Length DataFrame.Data DataFrame.PadLen].
    rewrite (copy_from_make _ _ (DataFrame.PadLen f)) by lia.
    reflexivity.
  - cbn [bind]. unfold u32. rewrite Z.mod_small by lia.
    destruct (Z.ltb_spec 0xFFFFFF (len (DataFrame.Data f))); [reflexivity|].
    rewrite FrameHeader_Serialize_eq. cbn [bind]. cbv zeta.
    rewrite copy_make by lia.
    rewrite (copy_from_app _ _ _ 0) by lia.
    cbn [DataFrame.set_Length DataFrame.Data DataFrame.PadLen].
    rewrite (copy_from_make _ _ 0) by lia.
    cbn [fmap bind]. rewrite make_0, app_nil_r. reflexivity.
Qed.

Lemma copy_make_exact (src : bytes) : copy (make (len src)) src = src.
Proof.
  rewrite <- (Z.add_0_r (len src)). rewrite copy_make by lia.
  rewrite make_0. apply app_nil_r.
Qed.

Lemma slice_prefix (b t : bytes) (hi : Z) :
  hi = len b -> slice (b ++ t) 0 hi = Ok b.
Proof.
  intros ->. pose proof (len_nonneg b). pose proof (len_nonneg t).
  rewrite slice_ok by (rewrite ?len_app; lia).
  change (Z.to_nat 0) with 0%nat. cbn [skipn]. rewrite Z.sub_0_r.
  rewrite (firstn_app_len b t _ 0) by (unfold len; lia).
  cbn [firstn]. rewrite app_nil_r. reflexivity.
Qed.

Lemma slice_all (b : bytes) (lo hi : Z) :
  lo = 0 -> hi = len b -> slice b lo hi = Ok b.
Proof.
  intros -> ->. rewrite <- (app_nil_r b) at 1. apply slice_prefix.
  reflexivity.
Qed.

Lemma slice_suffix (h b : bytes) (lo hi : Z) :
  lo = len h -> hi = len h + len b -> slice (h ++ b) lo hi = Ok b.
Proof.
  intros -> ->. rewrite (slice_app h b _ _ 0 (len b)) by lia.
  apply slice_all; reflexivity.
Qed.

Lemma ParseDataFrame_payload (h : FrameHeader.t) (f : DataFrame.t) :
  FrameHeader.Type' h = FrameData ->
  FrameHeader.Flags h = FrameHeader.Flags (DataFrame.Header f) ->
  0 <= DataFrame.PadLen f ->
  (hasPad (FrameHeader.Flags (DataFrame.Header f)) = false ->
   DataFrame.PadLen f = 0) ->
  ParseDataFrame h (DataFrame_payload f)
  = Ok (DataFrame.mk h (DataFrame.PadLen f) (DataFrame.Data f)).
Proof.
  intros Hty Hfl Hpad Hzero.
  pose proof (len_nonneg (DataFrame.Data f)) as Hnn.
  unfold ParseDataFrame, DataFrame_payload. rewrite Hty, Hfl.
  change (negb (FrameData =? FrameData)) with false. cbv iota.
  fold (hasPad (FrameHeader.Flags (DataFrame.Header f))).
  destruct (hasPad (FrameHeader.Flags (DataFrame.Header f))).
  - set (payload := DataFrame.PadLen f
                    :: DataFrame.Data f ++ make (DataFrame.PadLen f)).
    assert (Hl : len payload
                 = 1 + len (DataFrame.Data f) + DataFrame.PadLen f).
    { unfold payload. rewrite len_cons, len_app, len_make by lia. lia. }
    destruct (Z.ltb_spec (len payload) 1); [lia|].
    rewrite index_ok by lia. cbn [bind].
    change (nth (Z.to_nat 0) payload 0) with (DataFrame.PadLen f).
    destruct (Z.ltb_spec (len payload - (0 + 1)) (DataFrame.PadLen f));
      [lia|].
    cbn [bind].
    destruct (Z.ltb_spec (len payload - (0 + 1) - DataFrame.PadLen f) 0);
      [lia|].
    replace (len payload - (0 + 1) - DataFrame.PadLen f)
      with (len (DataFrame.Data f)) by lia.
    unfold payload.
    change (DataFrame.PadLen f
            :: DataFrame.Data f ++ make (DataFrame.PadLen f))
      with ([DataFrame.PadLen f]
            ++ (DataFrame.Data f ++ make (DataFrame.PadLen f))).
    rewrite (slice_app [DataFrame.PadLen f] _ _ _ 0 (len (DataFrame.Data f)))
      by (unfold len; cbn [length]; lia).
    rewrite slice_prefix by reflexivity. cbn [bind].
    rewrite copy_make_exact. reflexivity.
  - rewrite Hzero by reflexivity. cbn [bind].
    destruct (Z.ltb_spec (len (DataFrame.Data f) - 0 - 0) 0); [lia|].
    replace (len (DataFrame.Data f) - 0 - 0) with (len (DataFrame.Data f))
      by lia.
    rewrite slice_all by lia. cbn [bind].
    rewrite copy_make_exact. reflexivity.
Qed.

(** ** Receiving a serialized frame *)

Lemma reparse_frame (f : Frame) (h : FrameHeader.t) (payload : bytes) :
  AnyFrame.reparse f (header_bytes h ++ payload)
  = AnyFrame.Parse_as f (wire_header h) payload.
Proof.
  unfold AnyFrame.reparse, slice_from.
  rewrite slice_prefix by reflexivity. cbn [bind].
  rewrite ParseFrameHeader_header_bytes. cbn [bind].
  rewrite slice_suffix by (rewrite ?len_app; reflexivity).
  reflexivity.
Qed.

Lemma len_be32 (v : Z) : len (be32 v) = 4.
Proof. reflexivity. Qed.

Lemma len_be16 (v : Z) : len (be16 v) = 2.
Proof. reflexivity. Qed.

Lemma len_nil : len (@nil Z) = 0.
Proof. reflexivity. Qed.

Ltac len_solve :=
  rewrite ?len_app, ?len_cons, ?len_nil, ?len_header_bytes, ?len_be32,
    ?len_be16 in *;
  lia.

(** ** HEADERS on the wire, without padding *)

Lemma land_bit31_small (v : Z) : 0 <= v < 2 ^ 31 -> Z.land v 0x80000000 = 0.
Proof.
  intros Hv. apply Z.bits_inj'. intros n Hn.
  rewrite Z.land_spec, Z.bits_0. change 0x80000000 with (2 ^ 31).
  rewrite Z.pow2_bits_eqb by lia.
  destruct (Z.eqb_spec 31 n) as [<-|Hne].
  - rewrite (testbit_below v 31 31) by lia. reflexivity.
  - apply andb_false_r.
Qed.

Lemma lor_bit31 (v : Z) :
  0 <= v < 2 ^ 31 -> Z.lor v 0x80000000 = v + 2 ^ 31.
Proof.
  intros Hv. rewrite <- Z.lxor_lor by (apply land_bit31_small; assumption).
  rewrite <- Z.add_nocarry_lxor by (apply land_bit31_small; assumption).
  reflexivity.
Qed.

Lemma exclusive_dep_decode (v : Z) :
  0 <= v < 2 ^ 31 ->
  is_u32 (Z.lor v 0x80000000)
  /\ negb (Z.land (Z.lor v 0x80000000) 0x80000000 =? 0) = true
  /\ Z.land (Z.lor v 0x80000000) 0x7FFFFFFF = v.
Proof.
  intros Hv. split; [|split].
  - rewrite lor_bit31 by assumption. unfold is_u32. lia.
  - rewrite Z.land_lor_distr_l, land_bit31_small by assumption.
    reflexivity.
  - rewrite lor_bit31 by assumption. change 0x7FFFFFFF with (Z.ones 31).
    rewrite Z.land_ones by lia.
    replace (v + 2 ^ 31) with (v + 1 * 2 ^ 31) by lia.
    rewrite Z.mod_add by lia. apply Z.mod_small. assumption.
Qed.

Lemma HeadersFrame_payloadLength_unpadded_eq (f : HeadersFrame.t) :
  hasPad (FrameHeader.Flags (HeadersFrame.Header f)) = false ->
  len (HeadersFrame.HeaderBlock f) <= 0xFFFFFF ->
  HeadersFrame.payloadLength f
  = if 0xFFFFFF <? HeadersFrame_payloadLength_unpadded f then
      Err "HEADERS_FRAME_ERROR: payloadLength is out of range: %d"
    else Ok (HeadersFrame_payloadLength_unpadded f).
Proof.
  intros Hpad Hlen. pose proof (len_nonneg (HeadersFrame.HeaderBlock f)).
  unfold HeadersFrame.payloadLength, HeadersFrame_payloadLength_unpadded.
  rewrite Hpad. cbn [bind]. unfold u32.
  rewrite (Z.mod_small (len (HeadersFrame.HeaderBlock f))) by lia.
  destruct (hasPriority (FrameHeader.Flags (HeadersFrame.Header f)));
    [rewrite Z.mod_small by lia|]; reflexivity.
Qed.

Lemma HeadersFrame_Serialize_unpadded (f : HeadersFrame.t) :
  hasPad (FrameHeader.Flags (HeadersFrame.Header f)) = false ->
  len (HeadersFrame.HeaderBlock f) <= 0xFFFFFF ->
  HeadersFrame.Serialize f
  = if FrameHeader.StreamID (HeadersFrame.Header f) =? 0 then
      Err "HEADERS_FRAME_ERROR: frame must have non-zero stream ID"
    else if 0xFFFFFF <? HeadersFrame_payloadLength_unpadded f then
      Err "HEADERS_FRAME_ERROR: payloadLength is out of range: %d"
    else
      let f' :=
        HeadersFrame.set_Length (HeadersFrame_payloadLength_unpadded f) f in
      Ok (f', header_bytes (HeadersFrame.Header f')
              ++ HeadersFrame_payload_unpadded f).
Proof.
  intros Hpad Hlen.
  pose proof (len_nonneg (HeadersFrame.HeaderBlock f)) as Hnn.
  unfold HeadersFrame.Serialize.
  destruct (FrameHeader.StreamID (HeadersFrame.Header f) =? 0);
    [reflexivity|].
  rewrite HeadersFrame_payloadLength_unpadded_eq by assumption.
  destruct (Z.ltb_spec 0xFFFFFF (HeadersFrame_payloadLength_unpadded f))
    as [Hbig|Hfit]; [reflexivity|].
  cbn [bind]. rewrite FrameHeader_Serialize_eq. cbn [bind]. cbv zeta.
  rewrite Hpad. cbn [bind].
  unfold HeadersFrame_payloadLength_unpadded, HeadersFrame_payload_unpadded
    in *.
  destruct (hasPriority (FrameHeader.Flags (HeadersFrame.Header f))).
  - rewrite copy_make by lia.
    rewrite (on_slice_app _ _ _ _ 0 4) by lia.
    rewrite on_slice_PutUint32_head by (rewrite len_make; lia).
    cbn [fmap bind].
    replace (len (HeadersFrame.HeaderBlock f) + 5)
      with (4 + (1 + len (HeadersFrame.HeaderBlock f))) by lia.
    rewrite (make_add 4) by lia.
    rewrite (skipn_app_len (make 4) _ 4 0) by reflexivity.
    cbn [skipn]. rewrite app_assoc.
    rewrite (set_index_app _ _ _ 0) by len_solve.
    rewrite set_index_make_0 by lia. cbn [fmap bind].
    replace (1 + len (HeadersFrame.HeaderBlock f) - 1)
      with (len (HeadersFrame.HeaderBlock f)) by lia.
    rewrite (copy_from_app _ _ _ 1) by len_solve.
    rewrite copy_from_cons by lia. change (1 - 1) with 0.
    cbn [HeadersFrame.set_Length HeadersFrame.HeaderBlock
         HeadersFrame.Weight HeadersFrame.Exclusive
         HeadersFrame.StreamDependency].
    rewrite (copy_from_make _ _ 0) by lia. cbn [fmap bind].
    rewrite make_0, app_nil_r, <- app_assoc. reflexivity.
  - cbn [bind]. rewrite copy_make by lia.
    rewrite (copy_from_app _ _ _ 0) by lia.
    cbn [HeadersFrame.set_Length HeadersFrame.HeaderBlock].
    rewrite (copy_from_make _ _ 0) by lia. cbn [fmap bind].
    rewrite make_0, app_nil_r. reflexivity.
Qed.

Lemma Uint32_be32 (v : Z) : is_u32 v -> Uint32 (be32 v) = Ok v.
Proof.
  intros Hv. rewrite Uint32_ok by (rewrite len_be32; lia).
  cbn [be32 nth]. rewrite be32_decode_encode by assumption. reflexivity.
Qed.

Lemma Uint16_be16 (v : Z) : is_u16 v -> Uint16 (be16 v) = Ok v.
Proof.
  intros Hv. rewrite Uint16_ok by (rewrite len_be16; lia).
  cbn [be16 nth]. rewrite be16_decode_encode by assumption. reflexivity.
Qed.

Lemma ParseHeadersFrame_payload_unpadded (h : FrameHeader.t)
      (f : HeadersFrame.t) :
  FrameHeader.Flags h = FrameHeader.Flags (HeadersFrame.Header f) ->
  hasPad (FrameHeader.Flags (HeadersFrame.Header f)) = false ->
  (hasPriority (FrameHeader.Flags (HeadersFrame.Header f)) = true ->
   HeadersFrame.Exclusive f = true
   /\ 0 <= HeadersFrame.StreamDependency f < 2 ^ 31) ->
  ParseHeadersFrame h (HeadersFrame_payload_unpadded f)
  = Ok (if hasPriority (FrameHeader.Flags (HeadersFrame.Header f))
        then HeadersFrame.mk h 0 true (HeadersFrame.StreamDependency f)
                             (HeadersFrame.Weight f)
                             (HeadersFrame.HeaderBlock f)
        else HeadersFrame.mk h 0 false 0 0 (HeadersFrame.HeaderBlock f)).
Proof.
  intros Hfl Hpad Hprio.
  pose proof (len_nonneg (HeadersFrame.HeaderBlock f)) as Hnn.
  unfold ParseHeadersFrame, HeadersFrame_payload_unpadded.
  rewrite Hfl, Hpad. cbn [bind].
  destruct (hasPriority (FrameHeader.Flags (HeadersFrame.Header f))).
  - destruct Hprio as [Hex Hdep]; [reflexivity|].
    unfold HeadersFrame_dep. rewrite Hex.
    destruct (exclusive_dep_decode _ Hdep) as (Hu & Hbit & Hlow).
    set (dep := Z.lor (HeadersFrame.StreamDependency f) 0x80000000) in *.
    destruct (Z.ltb_spec
                (len (be32 dep ++ [HeadersFrame.Weight f]
                      ++ HeadersFrame.HeaderBlock f)) (0 + 5));
      [len_solve|].
    rewrite slice_prefix by reflexivity. cbn [bind].
    rewrite Uint32_be32 by assumption. cbn [bind].
    rewrite index_ok by len_solve. cbn [bind].
    change (nth (Z.to_nat (0 + 4))
                (be32 dep ++ [HeadersFrame.Weight f]
                 ++ HeadersFrame.HeaderBlock f) 0)
      with (HeadersFrame.Weight f).
    rewrite Hbit, Hlow.
    destruct (Z.ltb_spec
                (len (be32 dep ++ [HeadersFrame.Weight f]
                      ++ HeadersFrame.HeaderBlock f) - (0 + 4 + 1) - 0) 0);
      [len_solve|].
    rewrite app_assoc.
    rewrite slice_suffix by len_solve. reflexivity.
  - cbn [bind].
    destruct (Z.ltb_spec (len (HeadersFrame.HeaderBlock f) - 0 - 0) 0);
      [lia|].
    rewrite slice_all by lia. reflexivity.
Qed.

(** ** SETTINGS on the wire *)

Lemma skipn_make (k : nat) (n : Z) :
  Z.of_nat k <= n -> skipn k (make n) = make (n - Z.of_nat k).
Proof.
  intros H. replace n with (Z.of_nat k + (n - Z.of_nat k)) at 1 by lia.
  rewrite make_add by lia.
  apply (skipn_app_len (make (Z.of_nat k)) _ k 0).
  unfold make. rewrite repeat_length. lia.
Qed.

Lemma len_SettingsFrame_payload (settings : list Setting) :
  len (SettingsFrame_payload settings) = len settings * 6.
Proof.
  induction settings as [|s rest IH]; [reflexivity|].
  unfold SettingsFrame_payload in *. cbn [flat_map].
  rewrite len_app, IH, len_cons. unfold Setting_bytes.
  rewrite len_app, len_be16, len_be32. lia.
Qed.

(** The serialization loop fills the zeroed tail of the buffer with the
    records, one after the other. *)
Lemma put_settings_layout (settings : list Setting) :
  forall (pre : bytes) (offset : Z),
    offset = len pre ->
    SettingsFrame.put_settings settings (pre ++ make (len settings * 6)) offset
    = Ok (pre ++ SettingsFrame_payload settings).
Proof.
  induction settings as [|s rest IH]; intros pre offset ->.
  - reflexivity.
  - pose proof (len_nonneg rest) as Hnn. pose proof (len_nonneg pre) as Hp.
    cbn [SettingsFrame.put_settings].
    rewrite len_cons.
    replace ((1 + len rest) * 6) with (6 + len rest * 6) by lia.
    set (n := len rest * 6) in *.
    rewrite (on_slice_app pre _ _ _ 0 (len (make (6 + n))))
      by (rewrite ?len_app; lia).
    rewrite on_slice_PutUint16 by (rewrite ?len_make; lia).
    cbn [fmap bind].
    rewrite (skipn_make 2) by lia.
    replace (6 + n - Z.of_nat 2) with (4 + n) by lia.
    rewrite app_assoc.
    rewrite (on_slice_app (pre ++ be16 (ID s)) _ _ _ 0 (len (make (4 + n))))
      by (rewrite ?len_app, ?len_be16; lia).
    rewrite on_slice_PutUint32 by (rewrite ?len_make; lia).
    cbn [fmap bind].
    rewrite (skipn_make 4) by lia.
    replace (4 + n - Z.of_nat 4) with n by lia.
    rewrite app_assoc. subst n.
    rewrite IH by (rewrite !len_app, len_be16, len_be32; lia).
    unfold SettingsFrame_payload, Setting_bytes. cbn [flat_map].
    rewrite <- !app_assoc. reflexivity.
Qed.

(** [SettingsFrame.Serialize] never fails, whatever the stream identifier. *)
Lemma SettingsFrame_Serialize_eq (f : SettingsFrame.t) :
  SettingsFrame.Serialize f
  = let f' :=
      SettingsFrame.set_Length (u32 (len (SettingsFrame.Settings f) * 6)) f in
    Ok (f', header_bytes (SettingsFrame.Header f')
            ++ SettingsFrame_payload (SettingsFrame.Settings f)).
Proof.
  unfold SettingsFrame.Serialize. cbv zeta.
  pose proof (len_nonneg (SettingsFrame.Settings f)).
  rewrite FrameHeader_Serialize_eq. cbn [bind].
  rewrite copy_make by lia.
  cbn [SettingsFrame.set_Length SettingsFrame.Settings].
  rewrite put_settings_layout by reflexivity. reflexivity.
Qed.

Lemma parse_settings_payload (settings : list Setting) :
  Forall SettingsFrame.wf_setting settings ->
  forall (pre : bytes) (i : Z),
    len pre = i * 6 ->
    parse_settings (pre ++ SettingsFrame_payload settings)
                   (length settings) i
    = Ok settings.
Proof.
  induction 1 as [|s rest [Hid Hval] Hrest IH]; intros pre i Hpre.
  - reflexivity.
  - pose proof (len_nonneg pre) as Hp.
    cbn [length parse_settings]. cbv zeta.
    unfold SettingsFrame_payload in *. cbn [flat_map]. unfold Setting_bytes.
    rewrite <- app_assoc.
    set (tail := flat_map (fun s0 => be16 (ID s0) ++ be32 (Value s0)) rest)
      in *.
    rewrite (slice_app pre _ _ _ 0 2) by lia.
    rewrite slice_prefix by reflexivity. cbn [bind].
    rewrite Uint16_be16 by assumption. cbn [bind].
    rewrite (app_assoc pre).
    rewrite (slice_app (pre ++ be16 (ID s)) _ _ _ 0 4)
      by (rewrite ?len_app, ?len_be16; lia).
    rewrite slice_prefix by reflexivity. cbn [bind].
    rewrite Uint32_be32 by assumption. cbn [bind].
    rewrite (app_assoc _ (be32 (Value s))).
    rewrite IH by (rewrite !len_app, len_be16, len_be32; lia).
    destruct s. reflexivity.
Qed.

Lemma ParseSettingsFrame_payload (h : FrameHeader.t)
      (settings : list Setting) :
  FrameHeader.StreamID h = 0 ->
  Forall SettingsFrame.wf_setting settings ->
  ParseSettingsFrame h (SettingsFrame_payload settings)
  = Ok (SettingsFrame.mk h settings).
Proof.
  intros Hsid Hwf. unfold ParseSettingsFrame. rewrite Hsid.
  pose proof (len_nonneg settings) as Hnn.
  rewrite len_SettingsFrame_payload.
  rewrite Z.rem_mul by lia. rewrite Z.quot_mul by lia.
  cbn [Z.eqb negb].
  replace (Z.to_nat (len settings)) with (length settings)
    by (unfold len; lia).
  rewrite <- (app_nil_l (SettingsFrame_payload settings)).
  rewrite parse_settings_payload by (assumption || reflexivity).
  reflexivity.
Qed.

(** ** PING, WINDOW_UPDATE and RST_STREAM on the wire *)

Lemma PingFrame_Serialize_eq (f : PingFrame.t) :
  len (PingFrame.Data f) = 8 ->
  PingFrame.Serialize f
  = if negb (FrameHeader.StreamID (PingFrame.Header f) =? 0) then
      Err "SETTINGS_FRAME_ERROR: streamID must be zero"
    else
      let f' := PingFrame.set_Length 8 f in
      Ok (f', header_bytes (PingFrame.Header f') ++ PingFrame.Data f).
Proof.
  intros Hlen. unfold PingFrame.Serialize.
  destruct (negb (FrameHeader.StreamID (PingFrame.Header f) =? 0));
    [reflexivity|].
  rewrite FrameHeader_Serialize_eq. cbn [bind]. cbv zeta.
  rewrite copy_make by lia.
  rewrite (copy_from_app _ _ _ 0) by lia.
  cbn [PingFrame.set_Length PingFrame.Data].
  rewrite (copy_from_make _ _ 0) by lia. cbn [fmap bind].
  rewrite make_0, app_nil_r. reflexivity.
Qed.

Lemma ParsePingFrame_payload (h : FrameHeader.t) (data : bytes) :
  FrameHeader.Type' h = FramePing -> FrameHeader.StreamID h = 0 ->
  len data = 8 ->
  ParsePingFrame h data = Ok (PingFrame.mk h data).
Proof.
  intros Hty Hsid Hlen. unfold ParsePingFrame.
  rewrite Hty, Hsid, Hlen. cbn [Z.eqb negb Pos.eqb FramePing].
  rewrite <- Hlen. rewrite copy_make_exact. reflexivity.
Qed.

Lemma WindowUpdateFrame_Serialize_eq (f : WindowUpdateFrame.t) :
  is_u32 (WindowUpdateFrame.WindowSizeIncrement f) ->
  WindowUpdateFrame.Serialize f
  = if (WindowUpdateFrame.WindowSizeIncrement f =? 0)
       || (0x7FFFFFFF <? WindowUpdateFrame.WindowSizeIncrement f)
    then Err "WINDOW_UPDATE_FRAME_ERROR: invalid window size: %d"
    else
      let f' := WindowUpdateFrame.set_Length 4 f in
      Ok (f', header_bytes (WindowUpdateFrame.Header f')
              ++ be32 (WindowUpdateFrame.WindowSizeIncrement f)).
Proof.
  intros [Hpos _]. unfold WindowUpdateFrame.Serialize.
  destruct (Z.eqb_spec (WindowUpdateFrame.WindowSizeIncrement f) 0);
    [reflexivity|].
  destruct (Z.ltb_spec 0x7FFFFFFF (WindowUpdateFrame.WindowSizeIncrement f));
    [reflexivity|].
  cbn [orb]. rewrite FrameHeader_Serialize_eq. cbn [bind]. cbv zeta.
  rewrite copy_make by lia.
  rewrite (on_slice_app _ _ _ _ 0 4) by (rewrite ?len_app; reflexivity || lia).
  rewrite on_slice_PutUint32 by reflexivity. cbn [fmap bind].
  cbn [WindowUpdateFrame.set_Length WindowUpdateFrame.WindowSizeIncrement].
  rewrite land_mask31_small by lia. reflexivity.
Qed.

Lemma ParseWindowUpdateFrame_payload (h : FrameHeader.t) (inc : Z) :
  FrameHeader.Type' h = FrameWindowUpdate -> FrameHeader.Length h = 4 ->
  0 < inc <= 0x7FFFFFFF ->
  ParseWindowUpdateFrame h (be32 inc) = Ok (WindowUpdateFrame.mk h inc).
Proof.
  intros Hty Hlen Hinc. unfold ParseWindowUpdateFrame.
  rewrite Hty, Hlen. change (len (be32 inc) <? 4) with false.
  cbn [Z.eqb negb Pos.eqb FrameWindowUpdate].
  rewrite Uint32_be32 by (unfold is_u32; lia). cbn [bind].
  rewrite land_mask31_small by lia.
  destruct (Z.eqb_spec inc 0); [lia|reflexivity].
Qed.

Lemma RSTStreamFrame_Serialize_eq (f : RSTStreamFrame.t) :
  RSTStreamFrame.Serialize f
  = if RSTStreamFrame.ErrorCode f =? 0 then
      Err "RST_STREAM_FRAME_ERROR: streamID must be greater than zero"
    else
      let f' := RSTStreamFrame.set_Length 4 f in
      Ok (f', header_bytes (RSTStreamFrame.Header f')
              ++ be32 (RSTStreamFrame.ErrorCode f)).
Proof.
  unfold RSTStreamFrame.Serialize.
  destruct (RSTStreamFrame.ErrorCode f =? 0); [reflexivity|].
  rewrite FrameHeader_Serialize_eq. cbn [bind]. cbv zeta.
  rewrite copy_make by lia.
  rewrite (on_slice_app _ _ _ _ 0 4) by (rewrite ?len_app; reflexivity || lia).
  rewrite on_slice_PutUint32 by reflexivity. reflexivity.
Qed.

Lemma ParseRSTStreamFrame_payload (h : FrameHeader.t) (code : Z) :
  FrameHeader.Type' h = FrameRSTStream -> FrameHeader.Length h = 4 ->
  is_u32 code ->
  ParseRSTStreamFrame h (be32 code) = Ok (RSTStreamFrame.mk h code).
Proof.
  intros Hty Hlen Hcode. unfold ParseRSTStreamFrame.
  rewrite Hty, Hlen. change (len (be32 code) <? 4) with false.
  cbn [Z.eqb negb Pos.eqb FrameRSTStream].
  rewrite Uint32_be32 by assumption. reflexivity.
Qed.

(** ** Round trips *)

Lemma wire_header_canonical (h : FrameHeader.t) (n : Z) :
  0 <= FrameHeader.StreamID h < 2 ^ 31 ->
  FrameHeader.set_Length 0 (wire_header (FrameHeader.set_Length n h))
  = FrameHeader.set_Length 0 h.
Proof.
  intros Hsid. unfold wire_header, FrameHeader.set_Length.
  cbn [FrameHeader.Type' FrameHeader.Flags FrameHeader.StreamID].
  rewrite land_mask31_small by assumption. reflexivity.
Qed.

Lemma roundtrip_Data (d : DataFrame.t) (r : DataFrame.t * bytes) :
  canonical (Data d) -> DataFrame.Serialize d = Ok r ->
  exists g,
    AnyFrame.roundtrip (Data d) = Ok g
    /\ AnyFrame.eq_up_to_Length g (Data d).
Proof.
  intros (Hsid & Hty & Hpad & Hzero & Hlen) Hser.
  cbn [AnyFrame.Header] in Hsid.
  unfold AnyFrame.roundtrip. cbn [AnyFrame.Serialize].
  rewrite DataFrame_Serialize_eq in * by assumption.
  destruct (FrameHeader.StreamID (DataFrame.Header d) =? 0);
    [discriminate Hser|].
  destruct (0xFFFFFF <? DataFrame_payloadLength d); [discriminate Hser|].
  cbv zeta. cbn [fmap bind with_frame fst snd].
  rewrite reparse_frame. cbn [AnyFrame.Parse_as].
  rewrite ParseDataFrame_payload by (assumption || reflexivity || lia).
  cbn [fmap bind]. eexists. split; [reflexivity|].
  unfold AnyFrame.eq_up_to_Length, AnyFrame.set_Length,
    DataFrame.set_Length.
  cbn [DataFrame.Header DataFrame.PadLen DataFrame.Data].
  rewrite wire_header_canonical by assumption. reflexivity.
Qed.

Lemma roundtrip_Headers (d : HeadersFrame.t) (r : HeadersFrame.t * bytes) :
  canonical (Headers d) -> HeadersFrame.Serialize d = Ok r ->
  exists g,
    AnyFrame.roundtrip (Headers d) = Ok g
    /\ AnyFrame.eq_up_to_Length g (Headers d).
Proof.
  intros (Hsid & Hpad & Hzero & Hlen & Hprio) Hser.
  cbn [AnyFrame.Header] in Hsid.
  unfold AnyFrame.roundtrip. cbn [AnyFrame.Serialize].
  rewrite HeadersFrame_Serialize_unpadded in * by assumption.
  destruct (FrameHeader.StreamID (HeadersFrame.Header d) =? 0);
    [discriminate Hser|].
  destruct (0xFFFFFF <? HeadersFrame_payloadLength_unpadded d);
    [discriminate Hser|].
  cbv zeta. cbn [fmap bind with_frame fst snd].
  rewrite reparse_frame. cbn [AnyFrame.Parse_as].
  rewrite ParseHeadersFrame_payload_unpadded.
  - cbn [fmap bind]. eexists. split; [reflexivity|].
    unfold AnyFrame.eq_up_to_Length, AnyFrame.set_Length,
      HeadersFrame.set_Length.
    destruct d as [h p ex sd w blk].
    cbn [HeadersFrame.Header HeadersFrame.PadLen HeadersFrame.Exclusive
         HeadersFrame.StreamDependency HeadersFrame.Weight
         HeadersFrame.HeaderBlock] in *.
    destruct (hasPriority (FrameHeader.Flags h)).
    + destruct Hprio as [-> _]. subst p.
      cbn [HeadersFrame.Header HeadersFrame.PadLen HeadersFrame.Exclusive
           HeadersFrame.StreamDependency HeadersFrame.Weight
           HeadersFrame.HeaderBlock].
      rewrite wire_header_canonical by assumption. reflexivity.
    + destruct Hprio as (-> & -> & ->). subst p.
      cbn [HeadersFrame.Header HeadersFrame.PadLen HeadersFrame.Exclusive
           HeadersFrame.StreamDependency HeadersFrame.Weight
           HeadersFrame.HeaderBlock].
      rewrite wire_header_canonical by assumption. reflexivity.
  - reflexivity.
  - assumption.
  - intros Hp. rewrite Hp in Hprio. assumption.
Qed.

Lemma roundtrip_Settings (d : SettingsFrame.t) :
  canonical (Settings d) ->
  exists g,
    AnyFrame.roundtrip (Settings d) = Ok g
    /\ AnyFrame.eq_up_to_Length g (Settings d).
Proof.
  intros (_ & Hsid & Hwf).
  unfold AnyFrame.roundtrip. cbn [AnyFrame.Serialize].
  rewrite SettingsFrame_Serialize_eq.
  cbv zeta. cbn [fmap bind with_frame fst snd].
  rewrite reparse_frame. cbn [AnyFrame.Parse_as].
  rewrite ParseSettingsFrame_payload.
  - cbn [fmap bind]. eexists. split; [reflexivity|].
    unfold AnyFrame.eq_up_to_Length, AnyFrame.set_Length,
      SettingsFrame.set_Length.
    cbn [SettingsFrame.Header SettingsFrame.Settings].
    rewrite wire_header_canonical by (rewrite Hsid; lia). reflexivity.
  - cbn [SettingsFrame.set_Length SettingsFrame.Header wire_header
         FrameHeader.set_Length FrameHeader.StreamID].
    rewrite Hsid. reflexivity.
  - assumption.
Qed.

Lemma roundtrip_Ping (d : PingFrame.t) (r : PingFrame.t * bytes) :
  canonical (Ping d) -> PingFrame.Serialize d = Ok r ->
  exists g,
    AnyFrame.roundtrip (Ping d) = Ok g
    /\ AnyFrame.eq_up_to_Length g (Ping d).
Proof.
  intros (Hsid & Hty & Hlen) Hser. cbn [AnyFrame.Header] in Hsid.
  unfold AnyFrame.roundtrip. cbn [AnyFrame.Serialize].
  rewrite PingFrame_Serialize_eq in * by assumption.
  destruct (Z.eqb_spec (FrameHeader.StreamID (PingFrame.Header d)) 0)
    as [Hz|Hnz]; [|discriminate Hser].
  cbv zeta. cbn [negb fmap bind with_frame fst snd].
  rewrite reparse_frame. cbn [AnyFrame.Parse_as].
  rewrite ParsePingFrame_payload.
  - cbn [fmap bind]. eexists. split; [reflexivity|].
    unfold AnyFrame.eq_up_to_Length, AnyFrame.set_Length,
      PingFrame.set_Length.
    cbn [PingFrame.Header PingFrame.Data].
    rewrite wire_header_canonical by assumption. reflexivity.
  - assumption.
  - cbn [PingFrame.set_Length PingFrame.Header wire_header
         FrameHeader.set_Length FrameHeader.StreamID].
    rewrite Hz. reflexivity.
  - assumption.
Qed.

Lemma roundtrip_WindowUpdate (d : WindowUpdateFrame.t)
      (r : WindowUpdateFrame.t * bytes) :
  canonical (WindowUpdate d) -> WindowUpdateFrame.Serialize d = Ok r ->
  exists g,
    AnyFrame.roundtrip (WindowUpdate d) = Ok g
    /\ AnyFrame.eq_up_to_Length g (WindowUpdate d).
Proof.
  intros (Hsid & Hty & Hinc) Hser. cbn [AnyFrame.Header] in Hsid.
  unfold AnyFrame.roundtrip. cbn [AnyFrame.Serialize].
  rewrite WindowUpdateFrame_Serialize_eq in * by assumption.
  destruct (Z.eqb_spec (WindowUpdateFrame.WindowSizeIncrement d) 0);
    [discriminate Hser|].
  destruct (Z.ltb_spec 0x7FFFFFFF (WindowUpdateFrame.WindowSizeIncrement d));
    [discriminate Hser|].
  cbv zeta. cbn [orb fmap bind with_frame fst snd].
  rewrite reparse_frame. cbn [AnyFrame.Parse_as].
  rewrite ParseWindowUpdateFrame_payload.
  - cbn [fmap bind]. eexists. split; [reflexivity|].
    unfold AnyFrame.eq_up_to_Length, AnyFrame.set_Length,
      WindowUpdateFrame.set_Length.
    cbn [WindowUpdateFrame.Header WindowUpdateFrame.WindowSizeIncrement].
    rewrite wire_header_canonical by assumption. reflexivity.
  - assumption.
  - reflexivity.
  - unfold is_u32 in Hinc. lia.
Qed.

Lemma roundtrip_RSTStream (d : RSTStreamFrame.t)
      (r : RSTStreamFrame.t * bytes) :
  canonical (RSTStream d) -> RSTStreamFrame.Serialize d = Ok r ->
  exists g,
    AnyFrame.roundtrip (RSTStream d) = Ok g
    /\ AnyFrame.eq_up_to_Length g (RSTStream d).
Proof.
  intros (Hsid & Hty & Hcode) Hser. cbn [AnyFrame.Header] in Hsid.
  unfold AnyFrame.roundtrip. cbn [AnyFrame.Serialize].
  rewrite RSTStreamFrame_Serialize_eq in *.
  destruct (RSTStreamFrame.ErrorCode d =? 0); [discriminate Hser|].
  cbv zeta. cbn [fmap bind with_frame fst snd].
  rewrite reparse_frame. cbn [AnyFrame.Parse_as].
  rewrite ParseRSTStreamFrame_payload.
  - cbn [fmap bind]. eexists. split; [reflexivity|].
    unfold AnyFrame.eq_up_to_Length, AnyFrame.set_Length,
      RSTStreamFrame.set_Length.
    cbn [RSTStreamFrame.Header RSTStreamFrame.ErrorCode].
    rewrite wire_header_canonical by assumption. reflexivity.
  - assumption.
  - reflexivity.
  - assumption.
Qed.

(** C1, as amended. A frame in canonical form, of any variant but GOAWAY (a
    HEADERS frame without padding and with no priority block or an exclusive
    one), that serializes successfully is parsed back, from the nine header
    bytes and the payload bytes of its serialization, to a frame equal to it
    in every field except the header's [Length]. *)
Theorem roundtrip_canonical (f f' : Frame) (buf : bytes) :
  canonical f ->
  AnyFrame.Serialize f = Ok (f', buf) ->
  exists g, AnyFrame.reparse f buf = Ok g /\ AnyFrame.eq_up_to_Length g f.
Proof.
  intros Hc Hs.
  assert (Hr : exists g, AnyFrame.roundtrip f = Ok g
                         /\ AnyFrame.eq_up_to_Length g f).
  { destruct f as [d|d|d|d|d|d|d]; cbn [AnyFrame.Serialize] in Hs.
    - destruct (DataFrame.Serialize d) eqn:E; try discriminate Hs.
      eapply roundtrip_Data; eassumption.
    - destruct (HeadersFrame.Serialize d) eqn:E; try discriminate Hs.
      eapply roundtrip_Headers; eassumption.
    - apply roundtrip_Settings; assumption.
    - destruct (PingFrame.Serialize d) eqn:E; try discriminate Hs.
      eapply roundtrip_Ping; eassumption.
    - destruct (WindowUpdateFrame.Serialize d) eqn:E; try discriminate Hs.
      eapply roundtrip_WindowUpdate; eassumption.
    - destruct (RSTStreamFrame.Serialize d) eqn:E; try discriminate Hs.
      eapply roundtrip_RSTStream; eassumption.
    - destruct Hc as [_ []]. }
  unfold AnyFrame.roundtrip in Hr. rewrite Hs in Hr. exact Hr.
Qed.

Lemma roundtrip_canonical_witness :
  exists g,
    AnyFrame.reparse data_padded
      [0; 0; 8; 0; 8; 0; 0; 0; 1; 2; 104; 101; 108; 108; 111; 0; 0]
    = Ok g
    /\ AnyFrame.eq_up_to_Length g data_padded.
Proof.
  apply (roundtrip_canonical data_padded
           (AnyFrame.set_Length 8 data_padded)).
  - unfold canonical, data_padded.
    cbn [AnyFrame.Header DataFrame.Header DataFrame.PadLen DataFrame.Data
         FrameHeader.StreamID FrameHeader.Type' FrameHeader.Flags].
    split; [lia|]. split; [reflexivity|]. split; [lia|].
    split; [intros H; discriminate H|].
    unfold len. cbn [length]. lia.
  - reflexivity.
Defined.

(** C1 as stated fails: the DATA frame with stream 1, no flags, [PadLen] 7
    and data "hello" serializes successfully, and is parsed back with
    [PadLen] 0. *)
Lemma roundtrip_loses_stray_PadLen :
  ~ (forall (f f' : Frame) (buf : bytes),
        AnyFrame.Serialize f = Ok (f', buf) ->
        exists g,
          AnyFrame.reparse f buf = Ok g /\ AnyFrame.eq_up_to_Length g f).
Proof.
  intros H.
  destruct (H data_stray_PadLen
              (AnyFrame.set_Length 5 data_stray_PadLen)
              [0; 0; 5; 0; 0; 0; 0; 0; 1; 104; 101; 108; 108; 111]
              eq_refl) as [g [Hg He]].
  vm_compute in Hg. injection Hg as <-.
  vm_compute in He. discriminate He.
Qed.

(** C8. [WindowUpdateFrame.Serialize] returns its invalid-window-size error
    exactly when the increment is 0 or above 0x7FFFFFFF, and otherwise writes
    the increment itself after the header, so no out-of-range value reaches
    the mask; [ParseWindowUpdateFrame] returns an error whenever the
    increment read from the payload is 0 after masking; and a WINDOW_UPDATE
    frame with increment 0x7FFFFFFF is serialized and parsed back with
    increment 0x7FFFFFFF. *)
Theorem window_update_increment_checked :
  (forall f : WindowUpdateFrame.t,
      is_u32 (WindowUpdateFrame.WindowSizeIncrement f) ->
      WindowUpdateFrame.Serialize f
      = if (WindowUpdateFrame.WindowSizeIncrement f =? 0)
           || (0x7FFFFFFF <? WindowUpdateFrame.WindowSizeIncrement f)
        then Err "WINDOW_UPDATE_FRAME_ERROR: invalid window size: %d"
        else
          let f' := WindowUpdateFrame.set_Length 4 f in
          Ok (f', header_bytes (WindowUpdateFrame.Header f')
                  ++ be32 (WindowUpdateFrame.WindowSizeIncrement f)))
  /\ (forall (h : FrameHeader.t) (payload : bytes) (v : Z),
         Uint32 payload = Ok v -> Z.land v 0x7FFFFFFF = 0 ->
         is_err (ParseWindowUpdateFrame h payload) = true)
  /\ (forall h : FrameHeader.t,
         FrameHeader.Type' h = FrameWindowUpdate ->
         AnyFrame.roundtrip (WindowUpdate (WindowUpdateFrame.mk h 0x7FFFFFFF))
         = Ok (WindowUpdate
                 (WindowUpdateFrame.mk
                    (wire_header (FrameHeader.set_Length 4 h)) 0x7FFFFFFF))).
Proof.
  split; [|split].
  - intros f Hf. apply WindowUpdateFrame_Serialize_eq. assumption.
  - intros h payload v Hv Hmask. unfold ParseWindowUpdateFrame.
    destruct (len payload <? 4); [reflexivity|].
    destruct (negb (FrameHeader.Type' h =? FrameWindowUpdate));
      [reflexivity|].
    destruct (negb (FrameHeader.Length h =? 4)); [reflexivity|].
    rewrite Hv. cbn [bind]. rewrite Hmask. reflexivity.
  - intros h Hty. unfold AnyFrame.roundtrip. cbn [AnyFrame.Serialize].
    rewrite WindowUpdateFrame_Serialize_eq by (cbn; unfold is_u32; lia).
    cbn [WindowUpdateFrame.WindowSizeIncrement Z.eqb Z.ltb Z.compare
         Pos.compare Pos.compare_cont orb].
    cbv zeta. cbn [fmap bind with_frame fst snd].
    rewrite reparse_frame. cbn [AnyFrame.Parse_as].
    rewrite ParseWindowUpdateFrame_payload by (assumption || reflexivity || lia).
    reflexivity.
Qed.

Lemma window_update_increment_checked_witness :
  is_err (ParseWindowUpdateFrame (FrameHeader.mk 4 FrameWindowUpdate 0 1)
                                 [128; 0; 0; 0]) = true
  /\ WindowUpdateFrame.Serialize
       (WindowUpdateFrame.mk (FrameHeader.mk 0 FrameWindowUpdate 0 1)
                             0x80000000)
     = Err "WINDOW_UPDATE_FRAME_ERROR: invalid window size: %d"
  /\ AnyFrame.roundtrip
       (WindowUpdate
          (WindowUpdateFrame.mk (FrameHeader.mk 0 FrameWindowUpdate 0 1)
                                0x7FFFFFFF))
     = Ok (WindowUpdate
             (WindowUpdateFrame.mk (FrameHeader.mk 4 FrameWindowUpdate 0 1)
                                   0x7FFFFFFF)).
Proof.
  destruct window_update_increment_checked as (Hser & Hparse & Hround).
  split; [|split].
  - apply (Hparse _ _ 0x80000000); reflexivity.
  - rewrite Hser; [reflexivity|].
    cbn [WindowUpdateFrame.WindowSizeIncrement]. unfold is_u32. lia.
  - rewrite Hround; reflexivity.
Defined.

(** C10. [ParseHeadersFrame] and [ParseSettingsFrame] do not look at the
    header's type: on a header whose type is not HEADERS the first succeeds
    as soon as the payload holds the pad-length byte and the priority block
    its flags announce and the padding it declares, and on a header whose
    type is not SETTINGS the second succeeds as soon as the stream identifier
    is 0 and the payload length is a multiple of 6; both return the header
    they were given. The five other parsers return an error on any header
    whose type is not theirs. *)
Theorem parsers_and_type_mismatch :
  (forall (h : FrameHeader.t) (payload : bytes),
      FrameHeader.Type' h <> FrameHeaders ->
      let padded := hasPad (FrameHeader.Flags h) in
      let priority := hasPriority (FrameHeader.Flags h) in
      let fixed := (if padded then 1 else 0) + (if priority then 5 else 0) in
      let padLen := if padded then nth 0 payload 0 else 0 in
      fixed <= len payload -> 0 <= padLen -> fixed + padLen <= len payload ->
      exists f,
        ParseHeadersFrame h payload = Ok f /\ HeadersFrame.Header f = h)
  /\ (forall (h : FrameHeader.t) (payload : bytes),
         FrameHeader.Type' h <> FrameSettings ->
         FrameHeader.StreamID h = 0 -> len payload mod 6 = 0 ->
         exists f,
           ParseSettingsFrame h payload = Ok f
           /\ SettingsFrame.Header f = h
           /\ len (SettingsFrame.Settings f) * 6 = len payload)
  /\ (forall (h : FrameHeader.t) (payload : bytes),
         (FrameHeader.Type' h <> FrameData ->
          is_err (ParseDataFrame h payload) = true)
         /\ (FrameHeader.Type' h <> FramePing ->
             is_err (ParsePingFrame h payload) = true)
         /\ (FrameHeader.Type' h <> FrameWindowUpdate ->
             is_err (ParseWindowUpdateFrame h payload) = true)
         /\ (FrameHeader.Type' h <> FrameRSTStream ->
             is_err (ParseRSTStreamFrame h payload) = true)
         /\ (FrameHeader.Type' h <> FrameGoWay ->
             is_err (ParseGoAwayFrame h payload) = true)).
Proof.
  split; [|split].
  - intros h payload _. apply ParseHeadersFrame_accepts.
  - intros h payload _. apply ParseSettingsFrame_accepts.
  - intros h payload. repeat split; intros Hty.
    + unfold ParseDataFrame.
      destruct (Z.eqb_spec (FrameHeader.Type' h) FrameData);
        [contradiction|reflexivity].
    + unfold ParsePingFrame.
      destruct (Z.eqb_spec (FrameHeader.Type' h) FramePing);
        [contradiction|reflexivity].
    + unfold ParseWindowUpdateFrame.
      destruct (len payload <? 4); [reflexivity|].
      destruct (Z.eqb_spec (FrameHeader.Type' h) FrameWindowUpdate);
        [contradiction|reflexivity].
    + unfold ParseRSTStreamFrame.
      destruct (len payload <? 4); [reflexivity|].
      destruct (Z.eqb_spec (FrameHeader.Type' h) FrameRSTStream);
        [contradiction|reflexivity].
    + unfold ParseGoAwayFrame.
      destruct (len payload <? 8); [reflexivity|].
      destruct (Z.eqb_spec (FrameHeader.Type' h) FrameGoWay);
        [contradiction|reflexivity].
Qed.

Lemma parsers_and_type_mismatch_witness :
  (exists f,
      ParseHeadersFrame (FrameHeader.mk 8 FrameData 40 1)
                        [2; 128; 0; 0; 3; 16; 97; 0; 0] = Ok f
      /\ HeadersFrame.Header f = FrameHeader.mk 8 FrameData 40 1)
  /\ (exists f,
         ParseSettingsFrame (FrameHeader.mk 6 FramePing 0 0)
                            [0; 3; 0; 0; 0; 100] = Ok f
         /\ SettingsFrame.Header f = FrameHeader.mk 6 FramePing 0 0
         /\ len (SettingsFrame.Settings f) * 6 = 6)
  /\ is_err (ParseDataFrame (FrameHeader.mk 5 FrameHeaders 0 1)
                            [104; 101; 108; 108; 111]) = true
  /\ is_err (ParseGoAwayFrame (FrameHeader.mk 8 FrameSettings 0 0)
                              [0; 0; 0; 1; 0; 0; 0; 2]) = true.
Proof.
  destruct parsers_and_type_mismatch as (Hh & Hs & Ho).
  split; [|split; [|split]].
  - apply Hh.
    + discriminate.
    + vm_compute. discriminate.
    + vm_compute. discriminate.
    + vm_compute. discriminate.
  - apply Hs.
    + discriminate.
    + reflexivity.
    + reflexivity.
  - apply (Ho (FrameHeader.mk 5 FrameHeaders 0 1)). discriminate.
  - apply (Ho (FrameHeader.mk 8 FrameSettings 0 0)). discriminate.
Defined.

(** ** Frames outside canonical form *)

(** The reserved bit of a caller-supplied stream identifier does not come
    back. *)
Example roundtrip_masks_reserved_bit :
  AnyFrame.roundtrip
    (Data (DataFrame.mk (FrameHeader.mk 0 FrameData 0 0x80000001) 0 [104]))
  = Ok (Data (DataFrame.mk (FrameHeader.mk 1 FrameData 0 1) 0 [104])).
Proof. reflexivity. Qed.

(** [Serialize] writes the header's type as it finds it; the DATA parser
    refuses a header of another type. *)
Example roundtrip_rejects_foreign_type :
  AnyFrame.roundtrip
    (Data (DataFrame.mk (FrameHeader.mk 0 FrameHeaders 0 1) 0 [104]))
  = Err "DATA_FRAME_ERROR: expected frame type %d, got %d".
Proof. reflexivity. Qed.

(** A priority block without the exclusive bit comes back with all 31
    dependency bits set. *)
Example roundtrip_nonexclusive_dependency :
  AnyFrame.roundtrip
    (Headers (HeadersFrame.mk (FrameHeader.mk 0 FrameHeaders FlagPriority 1)
                              0 false 3 16 [97]))
  = Ok (Headers (HeadersFrame.mk (FrameHeader.mk 6 FrameHeaders FlagPriority 1)
                                 0 false 0x7FFFFFFF 16 [97])).
Proof. reflexivity. Qed.

(** ** The extent of the HEADERS and GOAWAY defects *)

(** With the PADDED flag the length written never counts the header block. *)
Lemma HeadersFrame_payloadLength_padded (f : HeadersFrame.t) :
  hasPad (FrameHeader.Flags (HeadersFrame.Header f)) = true ->
  0 <= HeadersFrame.PadLen f <= 255 ->
  HeadersFrame.payloadLength f
  = Ok (1 + HeadersFrame.PadLen f
        + (if hasPriority (FrameHeader.Flags (HeadersFrame.Header f))
           then 5 else 0)).
Proof.
  intros Hpad Hrange. unfold HeadersFrame.payloadLength.
  rewrite Hpad. destruct (Z.ltb_spec 255 (HeadersFrame.PadLen f)); [lia|].
  cbn [bind]. unfold u32.
  rewrite (Z.mod_small (1 + HeadersFrame.PadLen f)) by lia.
  destruct (hasPriority (FrameHeader.Flags (HeadersFrame.Header f))).
  - rewrite Z.mod_small by lia.
    destruct (Z.ltb_spec 16777215 (1 + HeadersFrame.PadLen f + 5));
      [lia|reflexivity].
  - destruct (Z.ltb_spec 16777215 (1 + HeadersFrame.PadLen f)); [lia|].
    rewrite Z.add_0_r. reflexivity.
Qed.

(** With fewer than four bytes of debug data the misplaced write of the
    error code falls outside the buffer. *)
Lemma GoAway_Serialize_short_DebugData (f : GoAwayFrame.t) :
  FrameHeader.StreamID (GoAwayFrame.Header f) = 0 ->
  len (GoAwayFrame.DebugData f) < 4 ->
  GoAwayFrame.Serialize f = Panic slice_msg.
Proof.
  destruct f as [[l t fl sid] last code dd].
  cbn [GoAwayFrame.Header GoAwayFrame.DebugData FrameHeader.StreamID].
  intros -> Hlen.
  destruct dd as [|a [|b [|c [|d dd]]]]; try reflexivity.
  exfalso. rewrite !len_cons in Hlen. pose proof (len_nonneg dd). lia.
Qed.

(** It returns a frame when [Length] lies between 8 and the payload's
    length. *)
Lemma ParseGoAwayFrame_within_payload (h : FrameHeader.t) (payload : bytes) :
  FrameHeader.Type' h = FrameGoWay -> FrameHeader.StreamID h = 0 ->
  8 <= FrameHeader.Length h <= len payload ->
  exists f, ParseGoAwayFrame h payload = Ok f /\ GoAwayFrame.Header f = h.
Proof.
  intros Hty Hsid Hlen. unfold ParseGoAwayFrame. rewrite Hty, Hsid.
  destruct (Z.ltb_spec (len payload) 8); [lia|].
  change (negb (FrameGoWay =? FrameGoWay)) with false.
  change (negb (0 =? 0)) with false. cbv iota.
  rewrite slice_ok by lia. cbn [bind].
  rewrite Uint32_ok by (rewrite len_window; lia). cbn [bind].
  rewrite slice_ok by lia. cbn [bind].
  rewrite Uint32_ok by (rewrite len_window; lia). cbn [bind].
  destruct (Z.ltb_spec 8 (FrameHeader.Length h)).
  - rewrite slice_ok by lia. cbn [bind]. eexists. split; reflexivity.
  - cbn [bind]. eexists. split; reflexivity.
Qed.

(** ** The shape of every serialized frame *)

Lemma bind_Ok {A B : Type} (r : result A) (k : A -> result B) (b : B) :
  bind r k = Ok b -> exists a, r = Ok a /\ k a = Ok b.
Proof.
  destruct r as [a|m|m]; cbn [bind]; intros H; try discriminate H.
  exists a. split; [reflexivity|assumption].
Qed.

Lemma fmap_Ok {A B : Type} (g : A -> B) (r : result A) (b : B) :
  fmap g r = Ok b -> exists a, r = Ok a /\ b = g a.
Proof.
  unfold fmap. intros H. apply bind_Ok in H. destruct H as [a [Ha Hb]].
  exists a. split; [assumption|]. injection Hb as <-. reflexivity.
Qed.

Lemma len_copy (dst src : bytes) : len (copy dst src) = len dst.
Proof.
  unfold copy, len. rewrite length_app, length_firstn, length_skipn. lia.
Qed.

Lemma set_index_len (b : bytes) (i v : Z) (b' : bytes) :
  set_index b i v = Ok b' -> len b' = len b.
Proof.
  unfold set_index.
  destruct (Z.leb_spec 0 i); [|discriminate].
  destruct (Z.ltb_spec i (len b)); [|discriminate].
  cbn [andb]. intros H1. injection H1 as <-. unfold len in *.
  rewrite length_app. cbn [length]. rewrite length_firstn, length_skipn. lia.
Qed.

Lemma on_slice_len (b : bytes) (lo hi : Z) (w : bytes -> result bytes)
      (b' : bytes) :
  (forall s s', w s = Ok s' -> len s' = len s) ->
  on_slice b lo hi w = Ok b' -> len b' = len b.
Proof.
  intros Hw. unfold on_slice, slice.
  destruct (Z.leb_spec 0 lo); [|discriminate].
  destruct (Z.leb_spec lo hi); [|discriminate].
  destruct (Z.leb_spec hi (len b)); [|discriminate].
  cbn [andb bind]. intros H2. apply bind_Ok in H2.
  destruct H2 as [s' [Hs' Heq]]. injection Heq as <-.
  apply Hw in Hs'. rewrite len_window in Hs' by lia.
  rewrite !len_app, Hs'. unfold len. rewrite length_firstn, length_skipn.
  unfold len in *. lia.
Qed.

Lemma PutUint32_len (v : Z) (s s' : bytes) :
  PutUint32 v s = Ok s' -> len s' = len s.
Proof.
  unfold PutUint32. destruct (Z.ltb_spec (len s) 4); [discriminate|].
  intros H0.
  apply (f_equal (fun r => match r with Ok x => len x | _ => 0 end)) in H0.
  cbv beta iota in H0. rewrite <- H0, !len_cons.
  pose proof (length_skipn 4 s) as Hk. unfold len in *. lia.
Qed.

Lemma PutUint16_len (v : Z) (s s' : bytes) :
  PutUint16 v s = Ok s' -> len s' = len s.
Proof.
  unfold PutUint16. destruct (Z.ltb_spec (len s) 2); [discriminate|].
  intros H0.
  apply (f_equal (fun r => match r with Ok x => len x | _ => 0 end)) in H0.
  cbv beta iota in H0. rewrite <- H0, !len_cons.
  pose proof (length_skipn 2 s) as Hk. unfold len in *. lia.
Qed.

Lemma copy_Ok_len (src s s' : bytes) :
  Ok (copy s src) = Ok s' -> len s' = len s.
Proof. intros H. injection H as <-. apply len_copy. Qed.

(** A write at or after [len h] into [h ++ t] that succeeds leaves [h] in
    place and the length of the rest unchanged. *)
Lemma set_index_tail (h t : bytes) (i v : Z) (b : bytes) :
  len h <= i -> set_index (h ++ t) i v = Ok b ->
  exists t', b = h ++ t' /\ len t' = len t.
Proof.
  intros Hi H. rewrite (set_index_app h t i (i - len h)) in H by lia.
  apply fmap_Ok in H. destruct H as [t' [Ht' ->]].
  exists t'. split; [reflexivity|]. eapply set_index_len; eassumption.
Qed.

Lemma on_slice_tail (h t : bytes) (lo hi : Z) (w : bytes -> result bytes)
      (b : bytes) :
  (forall s s', w s = Ok s' -> len s' = len s) ->
  len h <= lo -> on_slice (h ++ t) lo hi w = Ok b ->
  exists t', b = h ++ t' /\ len t' = len t.
Proof.
  intros Hw Hlo H.
  rewrite (on_slice_app h t lo hi (lo - len h) (hi - len h)) in H by lia.
  apply fmap_Ok in H. destruct H as [t' [Ht' ->]].
  exists t'. split; [reflexivity|]. eapply on_slice_len; eassumption.
Qed.

Lemma copy_from_tail (h t : bytes) (lo : Z) (src b : bytes) :
  len h <= lo -> copy_from (h ++ t) lo src = Ok b ->
  exists t', b = h ++ t' /\ len t' = len t.
Proof.
  intros Hlo H. unfold copy_from in H.
  eapply on_slice_tail; [|eassumption|eassumption].
  intros s s'. apply copy_Ok_len.
Qed.

Lemma u32_range (x : Z) : 0 <= u32 x < 4294967296.
Proof. unfold u32. apply Z.mod_pos_bound. lia. Qed.

Lemma HeadersFrame_payloadLength_range (f : HeadersFrame.t) (n : Z) :
  HeadersFrame.payloadLength f = Ok n -> 0 <= n <= 0xFFFFFF.
Proof.
  unfold HeadersFrame.payloadLength. intros H.
  apply bind_Ok in H. destruct H as [m [Hm H]].
  assert (Hrange : 0 <= m).
  { destruct (hasPad _).
    - destruct (255 <? HeadersFrame.PadLen f); [discriminate Hm|].
      injection Hm as <-. apply u32_range.
    - injection Hm as <-. apply u32_range. }
  cbv zeta in H.
  destruct (hasPriority _).
  - pose proof (u32_range (m + 5)).
    destruct (Z.ltb_spec 16777215 (u32 (m + 5))); [discriminate H|].
    injection H as <-. lia.
  - destruct (Z.ltb_spec 16777215 m); [discriminate H|].
    injection H as <-. lia.
Qed.

Lemma HeadersFrame_Serialize_shape (f f' : HeadersFrame.t) (buf : bytes) :
  HeadersFrame.Serialize f = Ok (f', buf) ->
  exists n payload,
    f' = HeadersFrame.set_Length n f /\ 0 <= n <= 0xFFFFFF
    /\ buf = header_bytes (HeadersFrame.Header f') ++ payload
    /\ len payload = n.
Proof.
  unfold HeadersFrame.Serialize. intros H.
  destruct (FrameHeader.StreamID (HeadersFrame.Header f) =? 0);
    [discriminate H|].
  apply bind_Ok in H. destruct H as [n [Hn H]].
  pose proof (HeadersFrame_payloadLength_range f n Hn) as Hrange.
  rewrite FrameHeader_Serialize_eq in H. cbn [bind] in H. cbv zeta in H.
  rewrite copy_make in H by lia.
  set (hb := header_bytes (HeadersFrame.Header (HeadersFrame.set_Length n f)))
    in *.
  assert (Hhb : len hb = 9) by reflexivity.
  apply bind_Ok in H. destruct H as [[frame1 offset1] [H1 H]].
  assert (S1 : exists t1, frame1 = hb ++ t1 /\ len t1 = n
                          /\ len hb <= offset1).
  { destruct (hasPad _).
    - apply bind_Ok in H1. destruct H1 as [fr [Hfr Heq]].
      injection Heq as <- <-.
      apply set_index_tail in Hfr; [|lia].
      destruct Hfr as [t1 [-> Hl]]. exists t1.
      rewrite len_make in Hl by lia. repeat split; [assumption|lia].
    - injection H1 as <- <-. exists (make n).
      rewrite len_make by lia. repeat split; lia. }
  destruct S1 as [t1 [-> [Hl1 Ho1]]].
  apply bind_Ok in H. destruct H as [[frame2 offset2] [H2 H]].
  assert (S2 : exists t2, frame2 = hb ++ t2 /\ len t2 = n
                          /\ len hb <= offset2).
  { destruct (hasPriority _).
    - apply bind_Ok in H2. destruct H2 as [fr [Hfr H2]].
      apply on_slice_tail in Hfr; [|apply PutUint32_len|lia].
      destruct Hfr as [t2 [-> Hl2]].
      cbv zeta in H2. apply bind_Ok in H2. destruct H2 as [fr' [Hfr' Heq]].
      injection Heq as <- <-.
      apply set_index_tail in Hfr'; [|lia].
      destruct Hfr' as [t3 [-> Hl3]]. exists t3.
      repeat split; lia.
    - injection H2 as <- <-. exists t1. repeat split; lia. }
  destruct S2 as [t2 [-> [Hl2 Ho2]]].
  apply bind_Ok in H. destruct H as [fr [Hfr Heq]].
  injection Heq as <- <-.
  apply copy_from_tail in Hfr; [|lia].
  destruct Hfr as [t3 [-> Hl3]].
  exists n, t3. repeat split; lia.
Qed.

Lemma DataFrame_Serialize_shape (f f' : DataFrame.t) (buf : bytes) :
  DataFrame.Serialize f = Ok (f', buf) ->
  exists n payload,
    f' = DataFrame.set_Length n f /\ 0 <= n <= 0xFFFFFF
    /\ buf = header_bytes (DataFrame.Header f') ++ payload
    /\ len payload = n.
Proof.
  unfold DataFrame.Serialize. intros H.
  destruct (FrameHeader.StreamID (DataFrame.Header f) =? 0);
    [discriminate H|].
  apply bind_Ok in H. destruct H as [n [Hn H]].
  assert (Hpos : 0 <= n).
  { destruct (negb _).
    - destruct (255 <? DataFrame.PadLen f); [discriminate Hn|].
      injection Hn as <-. apply u32_range.
    - injection Hn as <-. apply u32_range. }
  destruct (Z.ltb_spec 16777215 n); [discriminate H|].
  rewrite FrameHeader_Serialize_eq in H. cbn [bind] in H. cbv zeta in H.
  rewrite copy_make in H by lia.
  set (hb := header_bytes (DataFrame.Header (DataFrame.set_Length n f))) in *.
  assert (Hhb : len hb = 9) by reflexivity.
  apply bind_Ok in H. destruct H as [[frame1 offset1] [H1 H]].
  assert (S1 : exists t1, frame1 = hb ++ t1 /\ len t1 = n
                          /\ len hb <= offset1).
  { destruct (negb _).
    - apply bind_Ok in H1. destruct H1 as [fr [Hfr Heq]].
      injection Heq as <- <-.
      apply set_index_tail in Hfr; [|lia].
      destruct Hfr as [t1 [-> Hl]]. exists t1.
      rewrite len_make in Hl by lia. repeat split; [assumption|lia].
    - injection H1 as <- <-. exists (make n).
      rewrite len_make by lia. repeat split; lia. }
  destruct S1 as [t1 [-> [Hl1 Ho1]]].
  apply bind_Ok in H. destruct H as [fr [Hfr Heq]].
  injection Heq as <- <-.
  apply copy_from_tail in Hfr; [|lia].
  destruct Hfr as [t3 [-> Hl3]].
  exists n, t3. repeat split; lia.
Qed.

Lemma GoAwayFrame_Serialize_shape (f f' : GoAwayFrame.t) (buf : bytes) :
  GoAwayFrame.Serialize f = Ok (f', buf) ->
  exists n payload,
    f' = GoAwayFrame.set_Length n f /\ 8 <= n
    /\ buf = header_bytes (GoAwayFrame.Header f') ++ payload
    /\ len payload = n.
Proof.
  unfold GoAwayFrame.Serialize. intros H.
  destruct (negb _); [discriminate H|].
  cbv zeta in H. rewrite FrameHeader_Serialize_eq in H. cbn [bind] in H.
  set (n := u32 (8 + u32 (len (GoAwayFrame.DebugData f)))) in *.
  pose proof (u32_range (8 + u32 (len (GoAwayFrame.DebugData f)))) as Hn.
  fold n in Hn.
  cbn [GoAwayFrame.set_Length GoAwayFrame.Header FrameHeader.set_Length
       FrameHeader.Length] in H.
  rewrite copy_make in H by lia.
  fold (FrameHeader.set_Length n (GoAwayFrame.Header f)) in H.
  set (hb := header_bytes (FrameHeader.set_Length n (GoAwayFrame.Header f)))
    in *.
  assert (Hhb : len hb = 9) by reflexivity.
  apply bind_Ok in H. destruct H as [fr1 [H1 H]].
  apply on_slice_tail in H1; [|apply PutUint32_len|lia].
  destruct H1 as [t1 [-> Hl1]].
  apply bind_Ok in H. destruct H as [fr2 [H2 H]].
  assert (Hwin : 8 <= len t1).
  { unfold on_slice in H2. apply bind_Ok in H2.
    destruct H2 as [s [Hs _]]. unfold slice in Hs.
    destruct (Z.leb_spec (len hb + 4 + 8) (len (hb ++ t1)));
      [|rewrite andb_false_r in Hs; discriminate Hs].
    rewrite len_app in *. lia. }
  apply on_slice_tail in H2; [|apply PutUint32_len|lia].
  destruct H2 as [t2 [-> Hl2]].
  apply bind_Ok in H. destruct H as [fr3 [H3 Heq]].
  injection Heq as <- <-.
  apply copy_from_tail in H3; [|lia].
  destruct H3 as [t3 [-> Hl3]].
  rewrite len_make in Hl1 by lia.
  exists n, t3. repeat split; lia.
Qed.

Lemma PingFrame_Serialize_shape (f f' : PingFrame.t) (buf : bytes) :
  PingFrame.Serialize f = Ok (f', buf) ->
  exists payload,
    f' = PingFrame.set_Length 8 f
    /\ buf = header_bytes (PingFrame.Header f') ++ payload
    /\ len payload = 8.
Proof.
  unfold PingFrame.Serialize. intros H.
  destruct (negb _); [discriminate H|].
  cbv zeta in H. rewrite FrameHeader_Serialize_eq in H. cbn [bind] in H.
  rewrite copy_make in H by lia.
  apply bind_Ok in H. destruct H as [fr [Hfr Heq]].
  injection Heq as <- <-.
  apply copy_from_tail in Hfr; [|lia].
  destruct Hfr as [t [-> Hl]]. exists t. rewrite len_make in Hl by lia.
  repeat split; assumption.
Qed.

Lemma WindowUpdateFrame_Serialize_shape (f f' : WindowUpdateFrame.t)
      (buf : bytes) :
  WindowUpdateFrame.Serialize f = Ok (f', buf) ->
  exists payload,
    f' = WindowUpdateFrame.set_Length 4 f
    /\ buf = header_bytes (WindowUpdateFrame.Header f') ++ payload
    /\ len payload = 4.
Proof.
  unfold WindowUpdateFrame.Serialize. intros H.
  destruct (_ || _); [discriminate H|].
  cbv zeta in H. rewrite FrameHeader_Serialize_eq in H. cbn [bind] in H.
  rewrite copy_make in H by lia.
  apply bind_Ok in H. destruct H as [fr [Hfr Heq]].
  injection Heq as <- <-.
  apply on_slice_tail in Hfr; [|apply PutUint32_len|lia].
  destruct Hfr as [t [-> Hl]]. exists t. rewrite len_make in Hl by lia.
  repeat split; assumption.
Qed.

Lemma set_Length_absorbs (n : Z) (f : Frame) :
  AnyFrame.eq_up_to_Length (AnyFrame.set_Length n f) f.
Proof. destruct f; reflexivity. Qed.

Lemma ParseFrameHeader_frame (h : FrameHeader.t) (payload : bytes) :
  ParseFrameHeader (header_bytes h ++ payload) = Ok (wire_header h).
Proof.
  rewrite <- ParseFrameHeader_header_bytes.
  unfold header_bytes. cbv zeta. cbn [app].
  rewrite !ParseFrameHeader_cons. reflexivity.
Qed.

(** X1. Whatever frame [Serialize] accepts, the buffer it returns is the nine
    header bytes of the frame as returned, followed by a payload whose
    length is the header's [Length] (reduced modulo 2^32 for SETTINGS, whose
    serializer checks no size); the frame returned differs from the frame
    given in [Length] only; and [ParseFrameHeader] on the buffer gives back
    the type, the flags, the stream identifier without its reserved bit and
    the low 24 bits of [Length]. *)
Theorem Serialize_frame_shape (f f' : Frame) (buf : bytes) :
  AnyFrame.Serialize f = Ok (f', buf) ->
  exists payload,
    buf = header_bytes (AnyFrame.Header f') ++ payload
    /\ AnyFrame.eq_up_to_Length f' f
    /\ match f with
       | Settings _ =>
           FrameHeader.Length (AnyFrame.Header f') = u32 (len payload)
       | _ => FrameHeader.Length (AnyFrame.Header f') = len payload
       end
    /\ ParseFrameHeader buf = Ok (wire_header (AnyFrame.Header f')).
Proof.
  intros H.
  assert (S : exists payload,
             buf = header_bytes (AnyFrame.Header f') ++ payload
             /\ AnyFrame.eq_up_to_Length f' f
             /\ match f with
                | Settings _ =>
                    FrameHeader.Length (AnyFrame.Header f')
                    = u32 (len payload)
                | _ => FrameHeader.Length (AnyFrame.Header f') = len payload
                end).
  { destruct f as [d|d|d|d|d|d|d]; cbn [AnyFrame.Serialize] in H;
      apply fmap_Ok in H; destruct H as [[d' b] [Hs Heq]];
      unfold with_frame in Heq; cbn [fst snd] in Heq;
      injection Heq as -> ->; cbn [AnyFrame.Header].
    - apply DataFrame_Serialize_shape in Hs.
      destruct Hs as (n & payload & -> & Hn & -> & Hl).
      exists payload. split; [reflexivity|].
      split; [apply (set_Length_absorbs n (Data d))|].
      cbn. lia.
    - apply HeadersFrame_Serialize_shape in Hs.
      destruct Hs as (n & payload & -> & Hn & -> & Hl).
      exists payload. split; [reflexivity|].
      split; [apply (set_Length_absorbs n (Headers d))|].
      cbn. lia.
    - rewrite SettingsFrame_Serialize_eq in Hs. cbv zeta in Hs.
      injection Hs as <- <-. eexists.
      split; [reflexivity|].
      split; [apply (set_Length_absorbs _ (Settings d))|].
      rewrite len_SettingsFrame_payload. reflexivity.
    - apply PingFrame_Serialize_shape in Hs.
      destruct Hs as (payload & -> & -> & Hl).
      exists payload. split; [reflexivity|].
      split; [apply (set_Length_absorbs 8 (Ping d))|].
      cbn. lia.
    - apply WindowUpdateFrame_Serialize_shape in Hs.
      destruct Hs as (payload & -> & -> & Hl).
      exists payload. split; [reflexivity|].
      split; [apply (set_Length_absorbs 4 (WindowUpdate d))|].
      cbn. lia.
    - rewrite RSTStreamFrame_Serialize_eq in Hs.
      destruct (RSTStreamFrame.ErrorCode d =? 0); [discriminate Hs|].
      cbv zeta in Hs. injection Hs as <- <-. eexists.
      split; [reflexivity|].
      split; [apply (set_Length_absorbs 4 (RSTStream d))|].
      reflexivity.
    - apply GoAwayFrame_Serialize_shape in Hs.
      destruct Hs as (n & payload & -> & Hn & -> & Hl).
      exists payload. split; [reflexivity|].
      split; [apply (set_Length_absorbs n (GoAway d))|].
      cbn. lia. }
  destruct S as (payload & -> & He & Hl).
  exists payload. repeat split; try assumption.
  apply ParseFrameHeader_frame.
Qed.

Lemma Serialize_frame_shape_witness :
  exists payload,
    [0; 0; 8; 0; 8; 0; 0; 0; 1; 2; 104; 101; 108; 108; 111; 0; 0]
    = header_bytes (AnyFrame.Header (AnyFrame.set_Length 8 data_padded))
      ++ payload
    /\ AnyFrame.eq_up_to_Length (AnyFrame.set_Length 8 data_padded)
                                data_padded
    /\ FrameHeader.Length
         (AnyFrame.Header (AnyFrame.set_Length 8 data_padded))
       = len payload
    /\ ParseFrameHeader
         [0; 0; 8; 0; 8; 0; 0; 0; 1; 2; 104; 101; 108; 108; 111; 0; 0]
       = Ok (wire_header
               (AnyFrame.Header (AnyFrame.set_Length 8 data_padded))).
Proof.
  apply (Serialize_frame_shape data_padded). reflexivity.
Defined.

(** ** Bytes read, then written again *)

Lemma testbit_byte_out (b j : Z) :
  is_u8 b -> j < 0 \/ 8 <= j -> Z.testbit b j = false.
Proof.
  intros Hb [Hj|Hj].
  - apply Z.testbit_neg_r. assumption.
  - apply (testbit_below b 8 j); [exact Hb|assumption].
Qed.

(** The bits of the value [Uint32] reads from four bytes. *)
Lemma testbit_Uint32 (b0 b1 b2 b3 m : Z) :
  is_u8 b0 -> is_u8 b1 -> is_u8 b2 -> is_u8 b3 -> 0 <= m ->
  Z.testbit (Z.lor (Z.lor (Z.lor b3 (Z.shiftl b2 8)) (Z.shiftl b1 16))
                   (Z.shiftl b0 24)) m
  = if m <? 8 then Z.testbit b3 m
    else if m <? 16 then Z.testbit b2 (m - 8)
    else if m <? 24 then Z.testbit b1 (m - 16)
    else Z.testbit b0 (m - 24).
Proof.
  intros H0 H1 H2 H3 Hm.
  rewrite !Z.lor_spec, !Z.shiftl_spec by lia.
  destruct (Z.ltb_spec m 8); [|destruct (Z.ltb_spec m 16);
                                [|destruct (Z.ltb_spec m 24)]].
  - rewrite (testbit_byte_out b2), (testbit_byte_out b1),
      (testbit_byte_out b0) by (assumption || lia).
    rewrite !orb_false_r. reflexivity.
  - rewrite (testbit_byte_out b3), (testbit_byte_out b1),
      (testbit_byte_out b0) by (assumption || lia).
    rewrite !orb_false_r. reflexivity.
  - rewrite (testbit_byte_out b3), (testbit_byte_out b2),
      (testbit_byte_out b0) by (assumption || lia).
    rewrite !orb_false_r. reflexivity.
  - rewrite (testbit_byte_out b3), (testbit_byte_out b2),
      (testbit_byte_out b1) by (assumption || lia).
    reflexivity.
Qed.

Lemma u8_byte (b : Z) : is_u8 b -> u8 b = b.
Proof. intros Hb. unfold u8. apply Z.mod_small. exact Hb. Qed.

Lemma Uint32_is_u32 (b0 b1 b2 b3 : Z) :
  is_u8 b0 -> is_u8 b1 -> is_u8 b2 -> is_u8 b3 ->
  is_u32 (Z.lor (Z.lor (Z.lor b3 (Z.shiftl b2 8)) (Z.shiftl b1 16))
                (Z.shiftl b0 24)).
Proof.
  intros H0 H1 H2 H3.
  set (x := Z.lor _ _).
  assert (Hnn : 0 <= x).
  { unfold x. unfold is_u8 in *.
    rewrite !Z.lor_nonneg, !Z.shiftl_nonneg. lia. }
  unfold is_u32. split; [assumption|].
  destruct (Z.lt_ge_cases x 4294967296) as [Hlt|Hge]; [assumption|].
  exfalso.
  assert (Hpos : 0 < x) by lia.
  pose proof (Z.bit_log2 x Hpos) as Hbit.
  assert (Hlog : 32 <= Z.log2 x).
  { change 32 with (Z.log2 (2 ^ 32)) at 1. apply Z.log2_le_mono. lia. }
  remember (Z.log2 x) as m eqn:Em. clear Em.
  unfold x in Hbit.
  rewrite testbit_Uint32 in Hbit by (assumption || lia).
  destruct (Z.ltb_spec m 8); [lia|].
  destruct (Z.ltb_spec m 16); [lia|].
  destruct (Z.ltb_spec m 24); [lia|].
  rewrite (testbit_byte_out b0) in Hbit by (assumption || lia).
  discriminate Hbit.
Qed.

(** Writing back what [Uint32] read from four bytes gives the four bytes. *)
Lemma be32_encode_decode (b0 b1 b2 b3 : Z) :
  is_u8 b0 -> is_u8 b1 -> is_u8 b2 -> is_u8 b3 ->
  be32 (Z.lor (Z.lor (Z.lor b3 (Z.shiftl b2 8)) (Z.shiftl b1 16))
              (Z.shiftl b0 24))
  = [b0; b1; b2; b3].
Proof.
  intros H0 H1 H2 H3. unfold be32.
  assert (Hbyte : forall k b,
             is_u8 b -> 0 <= k ->
             (forall n, 0 <= n < 8 ->
                        Z.testbit (Z.lor (Z.lor (Z.lor b3 (Z.shiftl b2 8))
                                                (Z.shiftl b1 16))
                                         (Z.shiftl b0 24)) (n + k)
                        = Z.testbit b n) ->
             u8 (Z.shiftr (Z.lor (Z.lor (Z.lor b3 (Z.shiftl b2 8))
                                        (Z.shiftl b1 16))
                                 (Z.shiftl b0 24)) k) = b).
  { intros k b Hb Hk Hbits. apply Z.bits_inj'. intros n Hn.
    rewrite testbit_u8 by lia. rewrite Z.shiftr_spec by lia.
    destruct (Z.ltb_spec n 8).
    - cbn [andb]. apply Hbits. lia.
    - rewrite (testbit_byte_out b) by (assumption || lia). reflexivity. }
  f_equal; [|f_equal; [|f_equal; [|f_equal]]].
  - apply Hbyte; [assumption|lia|]. intros n Hn.
    rewrite testbit_Uint32 by (assumption || lia).
    destruct (Z.ltb_spec (n + 24) 8); [lia|].
    destruct (Z.ltb_spec (n + 24) 16); [lia|].
    destruct (Z.ltb_spec (n + 24) 24); [lia|]. f_equal. lia.
  - apply Hbyte; [assumption|lia|]. intros n Hn.
    rewrite testbit_Uint32 by (assumption || lia).
    destruct (Z.ltb_spec (n + 16) 8); [lia|].
    destruct (Z.ltb_spec (n + 16) 16); [lia|].
    destruct (Z.ltb_spec (n + 16) 24); [|lia]. f_equal. lia.
  - apply Hbyte; [assumption|lia|]. intros n Hn.
    rewrite testbit_Uint32 by (assumption || lia).
    destruct (Z.ltb_spec (n + 8) 8); [lia|].
    destruct (Z.ltb_spec (n + 8) 16); [|lia]. f_equal. lia.
  - rewrite <- (Z.shiftr_0_r (Z.lor _ _)).
    apply Hbyte; [assumption|lia|]. intros n Hn.
    rewrite testbit_Uint32 by (assumption || lia).
    destruct (Z.ltb_spec (n + 0) 8); [|lia]. f_equal. lia.
Qed.

Lemma be16_encode_decode (b0 b1 : Z) :
  is_u8 b0 -> is_u8 b1 ->
  be16 (Z.lor b1 (Z.shiftl b0 8)) = [b0; b1]
  /\ is_u16 (Z.lor b1 (Z.shiftl b0 8)).
Proof.
  intros H0 H1.
  assert (Hz : is_u8 0) by (unfold is_u8; lia).
  pose proof (be32_encode_decode 0 0 b0 b1 Hz Hz H0 H1) as H.
  rewrite !Z.shiftl_0_l, !Z.lor_0_r in H.
  pose proof (f_equal (fun l => nth 2 l 0) H) as Hhi.
  pose proof (f_equal (fun l => nth 3 l 0) H) as Hlo.
  cbv beta in Hhi, Hlo. cbn [be32 nth] in Hhi, Hlo.
  unfold be16. rewrite Hhi, Hlo.
  split; [reflexivity|].
  unfold is_u16, is_u8 in *.
  pose proof (Z.add_lor_land b1 (Z.shiftl b0 8)) as Hadd.
  assert (Hl : 0 <= Z.land b1 (Z.shiftl b0 8))
    by (apply Z.land_nonneg; lia).
  assert (Hor : 0 <= Z.lor b1 (Z.shiftl b0 8)).
  { apply Z.lor_nonneg. rewrite Z.shiftl_nonneg. lia. }
  rewrite Z.shiftl_mul_pow2 in * by lia. lia.
Qed.

(** Masking the reserved bit of the value read from four bytes clears the
    top bit of the first byte. *)
Lemma mask31_Uint32 (b0 b1 b2 b3 : Z) :
  is_u8 b0 -> is_u8 b1 -> is_u8 b2 -> is_u8 b3 ->
  Z.land (Z.lor (Z.lor (Z.lor b3 (Z.shiftl b2 8)) (Z.shiftl b1 16))
                (Z.shiftl b0 24)) 0x7FFFFFFF
  = Z.lor (Z.lor (Z.lor b3 (Z.shiftl b2 8)) (Z.shiftl b1 16))
          (Z.shiftl (b0 mod 128) 24).
Proof.
  intros H0 H1 H2 H3.
  assert (H0' : is_u8 (b0 mod 128)).
  { unfold is_u8 in *. pose proof (Z.mod_pos_bound b0 128). lia. }
  apply Z.bits_inj'. intros m Hm.
  rewrite Z.land_spec. change 0x7FFFFFFF with (Z.ones 31).
  rewrite Z.testbit_ones_nonneg by lia.
  rewrite !testbit_Uint32 by (assumption || lia).
  destruct (Z.ltb_spec m 8); [destruct (Z.ltb_spec m 31); [|lia];
                              apply andb_true_r|].
  destruct (Z.ltb_spec m 16); [destruct (Z.ltb_spec m 31); [|lia];
                               apply andb_true_r|].
  destruct (Z.ltb_spec m 24); [destruct (Z.ltb_spec m 31); [|lia];
                               apply andb_true_r|].
  change 128 with (2 ^ 7).
  destruct (Z.ltb_spec m 31).
  - rewrite Z.mod_pow2_bits_low by lia. apply andb_true_r.
  - rewrite Z.mod_pow2_bits_high by lia. apply andb_false_r.
Qed.

(** X2. [ParseFrameHeader] accepts any nine bytes, reads nothing after
    them, and returns a header within the wire ranges; serializing that
    header gives the nine bytes back, with the reserved bit cleared. *)
Theorem ParseFrameHeader_then_Serialize
        (b0 b1 b2 b3 b4 b5 b6 b7 b8 : Z) (rest : bytes) :
  Forall is_u8 [b0; b1; b2; b3; b4; b5; b6; b7; b8] ->
  exists h,
    ParseFrameHeader
      (b0 :: b1 :: b2 :: b3 :: b4 :: b5 :: b6 :: b7 :: b8 :: rest) = Ok h
    /\ 0 <= FrameHeader.Length h <= 0xFFFFFF
    /\ 0 <= FrameHeader.StreamID h < 2 ^ 31
    /\ FrameHeader.Serialize h
       = Ok [b0; b1; b2; b3; b4; b5 mod 128; b6; b7; b8].
Proof.
  intros Hb.
  repeat match goal with
         | H : Forall _ (_ :: _) |- _ => inversion H; subst; clear H
         end.
  assert (Hz : is_u8 0) by (unfold is_u8; lia).
  rewrite ParseFrameHeader_cons. eexists. split; [reflexivity|].
  cbn [FrameHeader.Length FrameHeader.StreamID].
  assert (Hlen : be32 (Z.lor (Z.lor (Z.shiftl b0 16) (Z.shiftl b1 8)) b2)
                 = [0; b0; b1; b2]).
  { rewrite <- (be32_encode_decode 0 b0 b1 b2) by assumption.
    f_equal. rewrite Z.shiftl_0_l, Z.lor_0_r.
    rewrite (Z.lor_comm (Z.lor (Z.shiftl b0 16) (Z.shiftl b1 8)) b2).
    rewrite (Z.lor_comm (Z.shiftl b0 16) (Z.shiftl b1 8)).
    apply Z.lor_assoc. }
  pose proof (f_equal (fun l => nth 1 l 0) Hlen) as Hl0.
  pose proof (f_equal (fun l => nth 2 l 0) Hlen) as Hl1.
  pose proof (f_equal (fun l => nth 3 l 0) Hlen) as Hl2.
  cbv beta in Hl0, Hl1, Hl2. cbn [be32 nth] in Hl0, Hl1, Hl2.
  assert (Hsid : be32 (Z.land
                         (Z.lor (Z.lor (Z.lor b8 (Z.shiftl b7 8))
                                       (Z.shiftl b6 16))
                                (Z.shiftl b5 24)) 0x7FFFFFFF)
                 = [b5 mod 128; b6; b7; b8]).
  { rewrite mask31_Uint32 by assumption.
    apply be32_encode_decode; try assumption.
    unfold is_u8 in *. pose proof (Z.mod_pos_bound b5 128). lia. }
  split; [|split].
  - pose proof (be24_decode_encode
                  (Z.lor (Z.lor (Z.shiftl b0 16) (Z.shiftl b1 8)) b2)) as E.
    rewrite Hl0, Hl1, Hl2 in E.
    pose proof (Z.mod_pos_bound
                  (Z.lor (Z.lor (Z.shiftl b0 16) (Z.shiftl b1 8)) b2)
                  (2 ^ 24)).
    lia.
  - apply land_mask31_range.
  - rewrite FrameHeader_Serialize_eq. unfold header_bytes. cbv zeta.
    cbn [FrameHeader.Length FrameHeader.Type' FrameHeader.Flags
         FrameHeader.StreamID].
    rewrite Hl0, Hl1, Hl2.
    rewrite <- Z.land_assoc. change (Z.land 0x7FFFFFFF 0x7FFFFFFF)
      with 0x7FFFFFFF.
    set (sid := Z.land _ 0x7FFFFFFF) in *.
    change [b0; b1; b2; b3; b4; u8 (Z.shiftr sid 24); u8 (Z.shiftr sid 16);
            u8 (Z.shiftr sid 8); u8 sid]
      with ([b0; b1; b2; b3; b4] ++ be32 sid).
    rewrite Hsid. reflexivity.
Qed.

Lemma ParseFrameHeader_then_Serialize_witness :
  exists h,
    ParseFrameHeader [0; 0; 5; 0; 1; 128; 0; 0; 1; 104; 101] = Ok h
    /\ 0 <= FrameHeader.Length h <= 0xFFFFFF
    /\ 0 <= FrameHeader.StreamID h < 2 ^ 31
    /\ FrameHeader.Serialize h = Ok [0; 0; 5; 0; 1; 128 mod 128; 0; 0; 1].
Proof.
  apply (ParseFrameHeader_then_Serialize 0 0 5 0 1 128 0 0 1 [104; 101]).
  repeat constructor; unfold is_u8; lia.
Defined.

(** X3. A header whose [Length] fits 24 bits and whose [StreamID] fits 31
    bits is parsed back, field for field, from its nine serialized bytes;
    in general the length comes back modulo 2^24 and the stream identifier
    without its top bit. *)
Theorem FrameHeader_roundtrip (h : FrameHeader.t) :
  0 <= FrameHeader.Length h <= 0xFFFFFF ->
  0 <= FrameHeader.StreamID h < 2 ^ 31 ->
  (buf <- FrameHeader.Serialize h ;; ParseFrameHeader buf) = Ok h.
Proof.
  intros Hl Hs. rewrite FrameHeader_Serialize_eq. cbn [bind].
  rewrite ParseFrameHeader_header_bytes. unfold wire_header.
  rewrite Z.mod_small by lia. rewrite land_mask31_small by assumption.
  destruct h. reflexivity.
Qed.

Lemma FrameHeader_roundtrip_witness :
  (buf <- FrameHeader.Serialize (FrameHeader.mk 0xFFFFFF FramePing 1 0x7FFFFFFF) ;;
   ParseFrameHeader buf)
  = Ok (FrameHeader.mk 0xFFFFFF FramePing 1 0x7FFFFFFF).
Proof.
  apply (FrameHeader_roundtrip
           (FrameHeader.mk 0xFFFFFF FramePing 1 0x7FFFFFFF));
    cbn [FrameHeader.Length FrameHeader.StreamID]; lia.
Defined.

(** ** What the DATA and HEADERS parsers return *)

Lemma Ok_inj {A : Type} (a b : A) : @Ok A a = Ok b -> a = b.
Proof. intros H. injection H as H. exact H. Qed.

Lemma slice_Ok (b : bytes) (lo hi : Z) (s : bytes) :
  slice b lo hi = Ok s ->
  0 <= lo <= hi /\ hi <= len b
  /\ s = firstn (Z.to_nat (hi - lo)) (skipn (Z.to_nat lo) b).
Proof.
  unfold slice.
  destruct (Z.leb_spec 0 lo); [|discriminate].
  destruct (Z.leb_spec lo hi); [|discriminate].
  destruct (Z.leb_spec hi (len b)); [|discriminate].
  cbn [andb]. intros H2. injection H2 as <-. repeat split; lia.
Qed.

Lemma copy_make_window (b : bytes) (n : Z) :
  0 <= n <= len b ->
  copy (make n) (firstn (Z.to_nat n) b) = firstn (Z.to_nat n) b.
Proof.
  intros Hn.
  assert (Hl : len (firstn (Z.to_nat n) b) = n).
  { unfold len in *. rewrite length_firstn. lia. }
  rewrite <- Hl at 1. apply copy_make_exact.
Qed.

(** X4. A payload that [ParseDataFrame] accepts is, with the PADDED flag, the
    pad-length byte, then the data returned, then as many padding bytes as
    the pad length says; without the flag it is the data returned, and the
    pad length returned is 0. The header is returned as given and its type is
    DATA. *)
Theorem ParseDataFrame_content (h : FrameHeader.t) (payload : bytes)
        (f : DataFrame.t) :
  ParseDataFrame h payload = Ok f ->
  FrameHeader.Type' h = FrameData
  /\ DataFrame.Header f = h
  /\ if hasPad (FrameHeader.Flags h)
     then exists padding,
         payload = DataFrame.PadLen f :: DataFrame.Data f ++ padding
         /\ len padding = DataFrame.PadLen f
     else DataFrame.PadLen f = 0 /\ DataFrame.Data f = payload.
Proof.
  unfold ParseDataFrame. intros H.
  destruct (Z.eqb_spec (FrameHeader.Type' h) FrameData) as [Hty|Hty];
    [|discriminate H].
  cbn [negb] in H. split; [assumption|].
  fold (hasPad (FrameHeader.Flags h)) in H.
  destruct (hasPad (FrameHeader.Flags h)).
  - destruct payload as [|p rest]; [discriminate H|].
    pose proof (len_nonneg rest) as Hr.
    destruct (Z.ltb_spec (len (p :: rest)) 1) as [Hl|Hl];
      [rewrite len_cons in Hl; lia|].
    rewrite index_ok in H by (rewrite len_cons; lia).
    change (nth (Z.to_nat 0) (p :: rest) 0) with p in H. cbn [bind] in H.
    destruct (Z.ltb_spec (len (p :: rest) - (0 + 1)) p); [discriminate H|].
    cbn [bind] in H.
    destruct (Z.ltb_spec (len (p :: rest) - (0 + 1) - p) 0);
      [discriminate H|].
    apply bind_Ok in H. destruct H as [s [Hs Heq]].
    apply Ok_inj in Heq. subst f.
    cbn [DataFrame.Header DataFrame.PadLen DataFrame.Data].
    apply slice_Ok in Hs. destruct Hs as (Hlo & Hhi & ->).
    rewrite len_cons in *.
    replace (0 + 1 + (1 + len rest - (0 + 1) - p) - (0 + 1))
      with (len rest - p) by lia.
    replace (1 + len rest - (0 + 1) - p) with (len rest - p) by lia.
    change (skipn (Z.to_nat (0 + 1)) (p :: rest)) with rest.
    rewrite copy_make_window by lia.
    split; [reflexivity|].
    exists (skipn (Z.to_nat (len rest - p)) rest).
    rewrite firstn_skipn. split; [reflexivity|].
    unfold len in *. rewrite length_skipn. lia.
  - cbn [bind] in H.
    destruct (Z.ltb_spec (len payload - 0 - 0) 0); [discriminate H|].
    apply bind_Ok in H. destruct H as [s [Hs Heq]].
    apply Ok_inj in Heq. subst f.
    cbn [DataFrame.Header DataFrame.PadLen DataFrame.Data].
    rewrite slice_all in Hs by lia. apply Ok_inj in Hs. subst s.
    replace (len payload - 0 - 0) with (len payload) by lia.
    rewrite copy_make_exact. repeat split.
Qed.

Lemma ParseDataFrame_content_witness :
  FrameHeader.Type' (FrameHeader.mk 8 FrameData FlagPadded 1) = FrameData
  /\ DataFrame.Header
       (DataFrame.mk (FrameHeader.mk 8 FrameData FlagPadded 1) 2
                     [104; 101; 108; 108; 111])
     = FrameHeader.mk 8 FrameData FlagPadded 1
  /\ if hasPad (FrameHeader.Flags (FrameHeader.mk 8 FrameData FlagPadded 1))
     then exists padding,
         [2; 104; 101; 108; 108; 111; 0; 0]
         = DataFrame.PadLen
             (DataFrame.mk (FrameHeader.mk 8 FrameData FlagPadded 1) 2
                           [104; 101; 108; 108; 111])
           :: DataFrame.Data
                (DataFrame.mk (FrameHeader.mk 8 FrameData FlagPadded 1) 2
                              [104; 101; 108; 108; 111])
              ++ padding
         /\ len padding
            = DataFrame.PadLen
                (DataFrame.mk (FrameHeader.mk 8 FrameData FlagPadded 1) 2
                              [104; 101; 108; 108; 111])
     else DataFrame.PadLen
            (DataFrame.mk (FrameHeader.mk 8 FrameData FlagPadded 1) 2
                          [104; 101; 108; 108; 111]) = 0
          /\ DataFrame.Data
               (DataFrame.mk (FrameHeader.mk 8 FrameData FlagPadded 1) 2
                             [104; 101; 108; 108; 111])
             = [2; 104; 101; 108; 108; 111; 0; 0].
Proof.
  apply (ParseDataFrame_content
           (FrameHeader.mk 8 FrameData FlagPadded 1)
           [2; 104; 101; 108; 108; 111; 0; 0]).
  reflexivity.
Defined.

(** X5. On a DATA header [ParseDataFrame] has four outcomes and no other:
    with the PADDED flag, an empty payload is refused for the missing
    pad-length byte; a pad length above the number of bytes that follow it is
    refused as out of range; otherwise the data is what follows the
    pad-length byte, less the padding. Without the flag the whole payload is
    the data. On a payload of bytes these cases are all there is: the parser
    never aborts, and its last check (a negative data length) never fires. *)
Theorem ParseDataFrame_outcome (h : FrameHeader.t) :
  FrameHeader.Type' h = FrameData ->
  (hasPad (FrameHeader.Flags h) = true ->
   ParseDataFrame h [] = Err "DATA_FRAME_ERROR: pad is required"
   /\ (forall p rest,
          len rest < p ->
          ParseDataFrame h (p :: rest)
          = Err "DATA_FRAME_ERROR: pad length out of range")
   /\ (forall p rest,
          0 <= p <= len rest ->
          ParseDataFrame h (p :: rest)
          = Ok (DataFrame.mk h p (firstn (Z.to_nat (len rest - p)) rest))))
  /\ (hasPad (FrameHeader.Flags h) = false ->
      forall payload,
        ParseDataFrame h payload = Ok (DataFrame.mk h 0 payload)).
Proof.
  intros Hty. split.
  - intros Hpad. unfold ParseDataFrame. rewrite Hty.
    change (negb (FrameData =? FrameData)) with false. cbv iota.
    fold (hasPad (FrameHeader.Flags h)). rewrite Hpad.
    split; [reflexivity|]. split.
    + intros p rest Hp. pose proof (len_nonneg rest).
      destruct (Z.ltb_spec (len (p :: rest)) 1) as [Hl|Hl];
        [rewrite len_cons in Hl; lia|].
      rewrite index_ok by (rewrite len_cons; lia).
      change (nth (Z.to_nat 0) (p :: rest) 0) with p. cbn [bind].
      destruct (Z.ltb_spec (len (p :: rest) - (0 + 1)) p) as [Hc|Hc];
        [reflexivity|rewrite len_cons in Hc; lia].
    + intros p rest Hp.
      destruct (Z.ltb_spec (len (p :: rest)) 1) as [Hl|Hl];
        [rewrite len_cons in Hl; lia|].
      rewrite index_ok by (rewrite len_cons; lia).
      change (nth (Z.to_nat 0) (p :: rest) 0) with p. cbn [bind].
      destruct (Z.ltb_spec (len (p :: rest) - (0 + 1)) p) as [Hc|Hc];
        [rewrite len_cons in Hc; lia|].
      cbn [bind].
      destruct (Z.ltb_spec (len (p :: rest) - (0 + 1) - p) 0) as [Hd|Hd];
        [rewrite len_cons in Hd; lia|].
      rewrite slice_ok by (rewrite len_cons; lia). cbn [bind].
      rewrite len_cons.
      replace (0 + 1 + (1 + len rest - (0 + 1) - p) - (0 + 1))
        with (len rest - p) by lia.
      replace (1 + len rest - (0 + 1) - p) with (len rest - p) by lia.
      change (skipn (Z.to_nat (0 + 1)) (p :: rest)) with rest.
      rewrite copy_make_window by lia. reflexivity.
  - intros Hpad payload. unfold ParseDataFrame. rewrite Hty.
    change (negb (FrameData =? FrameData)) with false. cbv iota.
    fold (hasPad (FrameHeader.Flags h)). rewrite Hpad. cbn [bind].
    pose proof (len_nonneg payload).
    destruct (Z.ltb_spec (len payload - 0 - 0) 0); [lia|].
    rewrite slice_all by lia. cbn [bind].
    replace (len payload - 0 - 0) with (len payload) by lia.
    rewrite copy_make_exact. reflexivity.
Qed.

Lemma ParseDataFrame_outcome_witness :
  ParseDataFrame (FrameHeader.mk 3 FrameData FlagPadded 1) [5; 104; 101]
  = Err "DATA_FRAME_ERROR: pad length out of range"
  /\ ParseDataFrame (FrameHeader.mk 4 FrameData FlagPadded 1)
                    [1; 104; 101; 0]
     = Ok (DataFrame.mk (FrameHeader.mk 4 FrameData FlagPadded 1) 1
                        [104; 101])
  /\ ParseDataFrame (FrameHeader.mk 2 FrameData 0 1) [104; 101]
     = Ok (DataFrame.mk (FrameHeader.mk 2 FrameData 0 1) 0 [104; 101]).
Proof.
  split; [|split].
  - destruct (ParseDataFrame_outcome
                (FrameHeader.mk 3 FrameData FlagPadded 1) eq_refl)
      as [Hp _].
    destruct (Hp eq_refl) as (_ & Hout & _).
    apply Hout. vm_compute. reflexivity.
  - destruct (ParseDataFrame_outcome
                (FrameHeader.mk 4 FrameData FlagPadded 1) eq_refl)
      as [Hp _].
    destruct (Hp eq_refl) as (_ & _ & Hin).
    apply (Hin 1 [104; 101; 0]). vm_compute. split; discriminate.
  - destruct (ParseDataFrame_outcome
                (FrameHeader.mk 2 FrameData 0 1) eq_refl) as [_ Hn].
    apply Hn. reflexivity.
Defined.

Lemma payload_split (payload : bytes) (o pl : Z) (hb : bytes) :
  0 <= o -> 0 <= len payload - o - pl ->
  slice payload o (o + (len payload - o - pl)) = Ok hb ->
  exists prefix padding,
    payload = prefix ++ hb ++ padding
    /\ len prefix = o /\ len padding = pl.
Proof.
  intros Ho Hn Hs. apply slice_Ok in Hs. destruct Hs as (Hlo & Hhi & ->).
  exists (firstn (Z.to_nat o) payload),
    (skipn (Z.to_nat (o + (len payload - o - pl) - o))
           (skipn (Z.to_nat o) payload)).
  rewrite firstn_skipn, firstn_skipn. split; [reflexivity|].
  unfold len in *. rewrite length_firstn, !length_skipn. lia.
Qed.

(** X6. A payload that [ParseHeadersFrame] accepts is a prefix (the
    pad-length byte if PADDED, the five priority bytes if PRIORITY), then the
    header block returned, then as many padding bytes as the pad length
    returned. The fields whose flag is unset are returned as zero, the stream
    dependency returned fits 31 bits, and the header is returned as given,
    whatever its type and stream. *)
Theorem ParseHeadersFrame_content (h : FrameHeader.t) (payload : bytes)
        (f : HeadersFrame.t) :
  ParseHeadersFrame h payload = Ok f ->
  HeadersFrame.Header f = h
  /\ 0 <= HeadersFrame.StreamDependency f < 2 ^ 31
  /\ (hasPad (FrameHeader.Flags h) = false -> HeadersFrame.PadLen f = 0)
  /\ (hasPriority (FrameHeader.Flags h) = false ->
      HeadersFrame.Exclusive f = false
      /\ HeadersFrame.StreamDependency f = 0 /\ HeadersFrame.Weight f = 0)
  /\ exists prefix padding,
      payload = prefix ++ HeadersFrame.HeaderBlock f ++ padding
      /\ len prefix
         = (if hasPad (FrameHeader.Flags h) then 1 else 0)
           + (if hasPriority (FrameHeader.Flags h) then 5 else 0)
      /\ len padding = HeadersFrame.PadLen f.
Proof.
  unfold ParseHeadersFrame. intros H.
  apply bind_Ok in H. destruct H as [[padLen o1] [H1 H]].
  apply bind_Ok in H. destruct H as [[[[ex sd] w] o2] [H2 H]].
  cbv zeta in H.
  destruct (Z.ltb_spec (len payload - o2 - padLen) 0) as [Hneg|Hpos];
    [discriminate H|].
  apply bind_Ok in H. destruct H as [hb [Hhb Heq]].
  apply Ok_inj in Heq. subst f.
  cbn [HeadersFrame.Header HeadersFrame.PadLen HeadersFrame.Exclusive
       HeadersFrame.StreamDependency HeadersFrame.Weight
       HeadersFrame.HeaderBlock].
  assert (S1 : o1 = (if hasPad (FrameHeader.Flags h) then 1 else 0)
               /\ (hasPad (FrameHeader.Flags h) = false -> padLen = 0)).
  { destruct (hasPad (FrameHeader.Flags h)).
    - destruct (len payload <? 1); [discriminate H1|].
      apply bind_Ok in H1. destruct H1 as [b [_ Heq]].
      apply Ok_inj in Heq. injection Heq as _ <-.
      split; [reflexivity|discriminate].
    - apply Ok_inj in H1. injection H1 as <- <-.
      split; reflexivity. }
  destruct S1 as [-> Hpad0]. clear H1.
  assert (S2 : o2 = (if hasPad (FrameHeader.Flags h) then 1 else 0)
                    + (if hasPriority (FrameHeader.Flags h) then 5 else 0)
               /\ 0 <= sd < 2 ^ 31
               /\ (hasPriority (FrameHeader.Flags h) = false ->
                   ex = false /\ sd = 0 /\ w = 0)).
  { destruct (hasPriority (FrameHeader.Flags h)).
    - destruct (len payload <? _); [discriminate H2|].
      apply bind_Ok in H2. destruct H2 as [s [_ H2]].
      apply bind_Ok in H2. destruct H2 as [dep [_ H2]].
      cbv zeta in H2.
      apply bind_Ok in H2. destruct H2 as [w' [_ Heq]].
      apply Ok_inj in Heq.
      assert (E2 : o2 = (if hasPad (FrameHeader.Flags h) then 1 else 0)
                        + 4 + 1) by congruence.
      assert (E3 : sd = Z.land dep 0x7FFFFFFF) by congruence.
      split; [lia|]. split; [|discriminate].
      rewrite E3. apply land_mask31_range.
    - apply Ok_inj in H2.
      assert (E2 : o2 = (if hasPad (FrameHeader.Flags h) then 1 else 0))
        by congruence.
      assert (E3 : sd = 0) by congruence.
      assert (E4 : ex = false) by congruence.
      assert (E5 : w = 0) by congruence.
      subst. repeat split; lia. }
  destruct S2 as (E2 & Hsd & Hprio0).
  split; [reflexivity|]. split; [assumption|]. split; [assumption|].
  split; [assumption|].
  destruct (payload_split payload o2 padLen hb) as (pre & pad & E & Hp1 & Hp2);
    [destruct (hasPad _), (hasPriority _); lia|lia|assumption|].
  exists pre, pad. repeat split; [assumption|lia|assumption].
Qed.

Lemma ParseHeadersFrame_content_witness :
  let h := FrameHeader.mk 9 FrameHeaders 40 1 in
  let f := HeadersFrame.mk h 2 true 3 16 [97] in
  HeadersFrame.Header f = h
  /\ 0 <= HeadersFrame.StreamDependency f < 2 ^ 31
  /\ (hasPad (FrameHeader.Flags h) = false -> HeadersFrame.PadLen f = 0)
  /\ (hasPriority (FrameHeader.Flags h) = false ->
      HeadersFrame.Exclusive f = false
      /\ HeadersFrame.StreamDependency f = 0 /\ HeadersFrame.Weight f = 0)
  /\ exists prefix padding,
      [2; 128; 0; 0; 3; 16; 97; 0; 0]
      = prefix ++ HeadersFrame.HeaderBlock f ++ padding
      /\ len prefix
         = (if hasPad (FrameHeader.Flags h) then 1 else 0)
           + (if hasPriority (FrameHeader.Flags h) then 5 else 0)
      /\ len padding = HeadersFrame.PadLen f.
Proof.
  cbv zeta.
  apply (ParseHeadersFrame_content
           (FrameHeader.mk 9 FrameHeaders 40 1)
           [2; 128; 0; 0; 3; 16; 97; 0; 0]).
  reflexivity.
Defined.

(** ** Parsers that cannot abort *)

Lemma nth_byte_nonneg (payload : bytes) (i : nat) :
  Forall is_u8 payload -> 0 <= nth i payload 0.
Proof.
  intros Hb. destruct (Nat.lt_ge_cases i (length payload)) as [Hi|Hi].
  - rewrite Forall_forall in Hb. apply (Hb (nth i payload 0)).
    apply nth_In. assumption.
  - rewrite nth_overflow by assumption. lia.
Qed.

Lemma ParseDataFrame_no_abort (h : FrameHeader.t) (payload : bytes)
      (m : string) :
  Forall is_u8 payload -> ParseDataFrame h payload <> Panic m.
Proof.
  intros Hb. pose proof (len_nonneg payload) as Hnn.
  pose proof (nth_byte_nonneg payload 0 Hb) as Hp.
  unfold ParseDataFrame.
  destruct (negb _); [discriminate|].
  destruct (negb _).
  - destruct (Z.ltb_spec (len payload) 1); [discriminate|].
    rewrite index_ok by lia. cbn [bind].
    change (Z.to_nat 0) with 0%nat.
    destruct (Z.ltb_spec (len payload - (0 + 1)) (nth 0 payload 0));
      [discriminate|].
    cbn [bind].
    destruct (Z.ltb_spec (len payload - (0 + 1) - nth 0 payload 0) 0);
      [discriminate|].
    rewrite slice_ok by lia. discriminate.
  - cbn [bind].
    destruct (Z.ltb_spec (len payload - 0 - 0) 0); [discriminate|].
    rewrite slice_ok by lia. discriminate.
Qed.

Lemma ParseHeadersFrame_no_abort (h : FrameHeader.t) (payload : bytes)
      (m : string) :
  Forall is_u8 payload -> ParseHeadersFrame h payload <> Panic m.
Proof.
  intros Hb. pose proof (len_nonneg payload) as Hnn.
  pose proof (nth_byte_nonneg payload 0 Hb) as Hp.
  unfold ParseHeadersFrame.
  destruct (hasPad _), (hasPriority _).
  - destruct (Z.ltb_spec (len payload) 1); [discriminate|].
    rewrite index_ok by lia. cbn [bind]. change (Z.to_nat 0) with 0%nat.
    destruct (Z.ltb_spec (len payload) (0 + 1 + 5)); [discriminate|].
    rewrite slice_ok by lia. cbn [bind].
    rewrite Uint32_ok by (rewrite len_window; lia). cbn [bind].
    rewrite index_ok by lia. cbn [bind].
    destruct (Z.ltb_spec (len payload - (0 + 1 + 4 + 1) - nth 0 payload 0) 0);
      [discriminate|].
    rewrite slice_ok by lia. discriminate.
  - destruct (Z.ltb_spec (len payload) 1); [discriminate|].
    rewrite index_ok by lia. cbn [bind]. change (Z.to_nat 0) with 0%nat.
    destruct (Z.ltb_spec (len payload - (0 + 1) - nth 0 payload 0) 0);
      [discriminate|].
    rewrite slice_ok by lia. discriminate.
  - cbn [bind].
    destruct (Z.ltb_spec (len payload) (0 + 5)); [discriminate|].
    rewrite slice_ok by lia. cbn [bind].
    rewrite Uint32_ok by (rewrite len_window; lia). cbn [bind].
    rewrite index_ok by lia. cbn [bind].
    destruct (Z.ltb_spec (len payload - (0 + 4 + 1) - 0) 0); [discriminate|].
    rewrite slice_ok by lia. discriminate.
  - cbn [bind].
    destruct (Z.ltb_spec (len payload - 0 - 0) 0); [discriminate|].
    rewrite slice_ok by lia. discriminate.
Qed.

Lemma ParseSettingsFrame_no_abort (h : FrameHeader.t) (payload : bytes)
      (m : string) :
  ParseSettingsFrame h payload <> Panic m.
Proof.
  pose proof (len_nonneg payload) as Hnn.
  destruct (Z.eq_dec (FrameHeader.StreamID h) 0) as [Hs|Hs].
  - destruct (Z.eq_dec (len payload mod 6) 0) as [Hm|Hm].
    + destruct (ParseSettingsFrame_accepts h payload Hs Hm) as [f [-> _]].
      discriminate.
    + unfold ParseSettingsFrame. rewrite Hs. cbn [Z.eqb negb].
      rewrite Z.rem_mod_nonneg by lia.
      destruct (Z.eqb_spec (len payload mod 6) 0); [contradiction|].
      discriminate.
  - rewrite ParseSettingsFrame_nonzero_stream by assumption. discriminate.
Qed.

(** X7. On any header and any payload of bytes, the parsers of DATA, HEADERS,
    SETTINGS, PING, WINDOW_UPDATE and RST_STREAM frames return a frame or an
    error: none of them indexes or slices the payload out of its bounds. *)
Theorem parsers_never_abort (h : FrameHeader.t) (payload : bytes)
        (m : string) :
  Forall is_u8 payload ->
  ParseDataFrame h payload <> Panic m
  /\ ParseHeadersFrame h payload <> Panic m
  /\ ParseSettingsFrame h payload <> Panic m
  /\ ParsePingFrame h payload <> Panic m
  /\ ParseWindowUpdateFrame h payload <> Panic m
  /\ ParseRSTStreamFrame h payload <> Panic m.
Proof.
  intros Hb.
  split; [apply ParseDataFrame_no_abort; assumption|].
  split; [apply ParseHeadersFrame_no_abort; assumption|].
  split; [apply ParseSettingsFrame_no_abort|].
  split; [|split].
  - unfold ParsePingFrame.
    destruct (negb _); [discriminate|].
    destruct (negb _); [discriminate|].
    destruct (negb _); discriminate.
  - unfold ParseWindowUpdateFrame.
    destruct (Z.ltb_spec (len payload) 4); [discriminate|].
    destruct (negb _); [discriminate|].
    destruct (negb _); [discriminate|].
    rewrite Uint32_ok by lia. cbn [bind].
    destruct (_ =? 0); discriminate.
  - unfold ParseRSTStreamFrame.
    destruct (Z.ltb_spec (len payload) 4); [discriminate|].
    destruct (negb _); [discriminate|].
    destruct (negb _); [discriminate|].
    rewrite Uint32_ok by lia. discriminate.
Qed.

Lemma parsers_never_abort_witness :
  ParseDataFrame (FrameHeader.mk 1 FrameData FlagPadded 1) [255]
    <> Panic slice_msg
  /\ ParseHeadersFrame (FrameHeader.mk 1 FrameData FlagPadded 1) [255]
       <> Panic slice_msg
  /\ ParseSettingsFrame (FrameHeader.mk 1 FrameData FlagPadded 1) [255]
       <> Panic slice_msg
  /\ ParsePingFrame (FrameHeader.mk 1 FrameData FlagPadded 1) [255]
       <> Panic slice_msg
  /\ ParseWindowUpdateFrame (FrameHeader.mk 1 FrameData FlagPadded 1) [255]
       <> Panic slice_msg
  /\ ParseRSTStreamFrame (FrameHeader.mk 1 FrameData FlagPadded 1) [255]
       <> Panic slice_msg.
Proof.
  apply parsers_never_abort. repeat constructor; unfold is_u8; lia.
Defined.

(** ** SETTINGS: the constructor, and payloads read and written again *)



Lemma parse_settings_bytes (n : nat) :
  forall (pre tail : bytes) (i : Z),
    len pre = i * 6 -> len tail = Z.of_nat n * 6 -> Forall is_u8 tail ->
    exists settings,
      parse_settings (pre ++ tail) n i = Ok settings
      /\ SettingsFrame_payload settings = tail
      /\ Forall SettingsFrame.wf_setting settings.
Proof.
  induction n as [|n IH]; intros pre tail i Hpre Htail Hb.
  - destruct tail as [|x tail];
      [|rewrite len_cons in Htail; pose proof (len_nonneg tail); lia].
    exists []. repeat split. constructor.
  - pose proof (len_nonneg pre) as Hp.
    do 6 (destruct tail as [|? tail];
          [exfalso; rewrite ?len_cons, ?len_nil in Htail; lia|]).
    rename z into b0, z0 into b1, z1 into b2, z2 into b3, z3 into b4,
      z4 into b5.
    rewrite !len_cons in Htail.
    repeat match goal with
           | H : Forall _ (_ :: _) |- _ => inversion H; subst; clear H
           end.
    destruct (be16_encode_decode b0 b1) as [E16 R16]; [assumption..|].
    pose proof (be32_encode_decode b2 b3 b4 b5) as E32.
    pose proof (Uint32_is_u32 b2 b3 b4 b5) as R32.
    destruct (IH (pre ++ [b0; b1; b2; b3; b4; b5]) tail (i + 1))
      as (rest & Hrest & Hpay & Hwf);
      [rewrite len_app, !len_cons, len_nil; lia|lia|assumption|].
    cbn [parse_settings]. cbv zeta.
    change (b0 :: b1 :: b2 :: b3 :: b4 :: b5 :: tail)
      with ([b0; b1] ++ ([b2; b3; b4; b5] ++ tail)).
    rewrite (slice_app pre _ _ _ 0 2) by lia.
    rewrite slice_prefix by reflexivity. cbn [bind].
    rewrite Uint16_ok by (unfold len; cbn [length]; lia). cbn [bind nth].
    rewrite (app_assoc pre).
    rewrite (slice_app (pre ++ [b0; b1]) _ _ _ 0 4)
      by (rewrite ?len_app, ?len_cons, ?len_nil; lia).
    rewrite slice_prefix by reflexivity. cbn [bind].
    rewrite Uint32_ok by (unfold len; cbn [length]; lia). cbn [bind nth].
    rewrite (app_assoc (pre ++ [b0; b1])), <- (app_assoc pre).
    change ([b0; b1] ++ [b2; b3; b4; b5]) with [b0; b1; b2; b3; b4; b5].
    rewrite Hrest. cbn [bind]. eexists. split; [reflexivity|].
    split.
    + unfold SettingsFrame_payload in *. cbn [flat_map].
      unfold Setting_bytes at 1. cbn [ID Value].
      rewrite E16, E32, Hpay by assumption. reflexivity.
    + constructor; [|assumption].
      split; cbn [ID Value]; [assumption|apply R32; assumption].
Qed.

(** X9. [ParseSettingsFrame] accepts every payload of bytes whose length is
    a multiple of six, on a header with stream 0; the settings it returns
    are within their types and carry the whole payload: written as six-byte
    records they are the payload again, and [Serialize] of the frame
    returned is a header followed by exactly that payload. *)
Theorem ParseSettingsFrame_then_Serialize (h : FrameHeader.t)
        (payload : bytes) :
  FrameHeader.StreamID h = 0 -> len payload mod 6 = 0 ->
  Forall is_u8 payload ->
  exists f f',
    ParseSettingsFrame h payload = Ok f
    /\ SettingsFrame.Header f = h
    /\ Forall SettingsFrame.wf_setting (SettingsFrame.Settings f)
    /\ SettingsFrame_payload (SettingsFrame.Settings f) = payload
    /\ SettingsFrame.Serialize f
       = Ok (f', header_bytes (SettingsFrame.Header f') ++ payload).
Proof.
  intros Hsid Hmod Hb. pose proof (len_nonneg payload) as Hnn.
  assert (Hdiv : len payload = 6 * (len payload / 6))
    by (apply Z.div_exact; [lia|assumption]).
  destruct (parse_settings_bytes (Z.to_nat (len payload / 6)) [] payload 0)
    as (settings & Hs & Hpay & Hwf);
    [reflexivity
    |rewrite Z2Nat.id by (apply Z.div_pos; lia); lia
    |assumption|].
  cbn [app] in Hs.
  exists (SettingsFrame.mk h settings). eexists.
  split.
  { unfold ParseSettingsFrame. rewrite Hsid. cbn [Z.eqb negb].
    rewrite Z.rem_mod_nonneg by lia. rewrite Hmod. cbn [Z.eqb negb].
    rewrite Z.quot_div_nonneg by lia. rewrite Hs. reflexivity. }
  split; [reflexivity|]. split; [assumption|]. split; [assumption|].
  rewrite SettingsFrame_Serialize_eq. cbv zeta.
  cbn [SettingsFrame.Settings]. rewrite Hpay. reflexivity.
Qed.

Lemma ParseSettingsFrame_then_Serialize_witness :
  exists f f',
    ParseSettingsFrame (FrameHeader.mk 6 FrameSettings 0 0)
                       [0; 3; 0; 0; 0; 100] = Ok f
    /\ SettingsFrame.Header f = FrameHeader.mk 6 FrameSettings 0 0
    /\ Forall SettingsFrame.wf_setting (SettingsFrame.Settings f)
    /\ SettingsFrame_payload (SettingsFrame.Settings f)
       = [0; 3; 0; 0; 0; 100]
    /\ SettingsFrame.Serialize f
       = Ok (f', header_bytes (SettingsFrame.Header f')
                 ++ [0; 3; 0; 0; 0; 100]).
Proof.
  apply ParseSettingsFrame_then_Serialize.
  - reflexivity.
  - reflexivity.
  - repeat constructor; unfold is_u8; lia.
Defined.

(** ** GOAWAY as the code has it *)

Lemma copy_same_len (dst src : bytes) : len dst = len src -> copy dst src = src.
Proof.
  intros H. unfold copy, len in *.
  rewrite firstn_all2 by lia. rewrite skipn_all2 by lia. apply app_nil_r.
Qed.

Lemma GoAway_Serialize_long_DebugData (f : GoAwayFrame.t) :
  FrameHeader.StreamID (GoAwayFrame.Header f) = 0 ->
  4 <= len (GoAwayFrame.DebugData f) <= 0xFFFFFF ->
  let f' := GoAwayFrame.set_Length (8 + len (GoAwayFrame.DebugData f)) f in
  GoAwayFrame.Serialize f
  = Ok (f', header_bytes (GoAwayFrame.Header f')
            ++ be32 (Z.land (GoAwayFrame.LastStreamID f) 0x7FFFFFFF)
            ++ [0; 0; 0; 0] ++ GoAwayFrame.DebugData f).
Proof.
  intros Hsid Hlen. cbv zeta. unfold GoAwayFrame.Serialize.
  rewrite Hsid. change (negb (0 =? 0)) with false. cbv iota zeta.
  set (n := len (GoAwayFrame.DebugData f)) in *.
  unfold u32. rewrite (Z.mod_small n) by lia. rewrite Z.mod_small by lia.
  rewrite FrameHeader_Serialize_eq. cbn [bind].
  cbn [GoAwayFrame.set_Length GoAwayFrame.Header GoAwayFrame.LastStreamID
       GoAwayFrame.ErrorCode GoAwayFrame.DebugData
       FrameHeader.set_Length FrameHeader.Length].
  fold (FrameHeader.set_Length (8 + n) (GoAwayFrame.Header f)).
  set (hb := header_bytes (FrameHeader.set_Length (8 + n)
                                                  (GoAwayFrame.Header f))).
  assert (Hhb : len hb = 9) by reflexivity.
  rewrite copy_make by lia.
  replace (8 + n) with (4 + (4 + n)) at 1 by lia.
  rewrite (make_add 4 (4 + n)) by lia.
  rewrite (on_slice_app hb _ _ _ 0 4) by lia.
  rewrite on_slice_PutUint32_head
    by (rewrite len_app, !len_make by lia; lia).
  rewrite (skipn_app_len (make 4) _ 4 0) by reflexivity.
  cbn [skipn fmap bind].
  set (l := be32 (Z.land (GoAwayFrame.LastStreamID f) 0x7FFFFFFF)).
  rewrite (make_add 4 n) by lia.
  rewrite !app_assoc.
  rewrite (on_slice_app ((hb ++ l) ++ make 4) _ _ _ 0 4)
    by (unfold l; rewrite ?len_app, ?len_be32; rewrite ?len_make by lia; lia).
  rewrite on_slice_PutUint32_head by (rewrite len_make; lia).
  cbn [fmap bind].
  rewrite (copy_from_app ((hb ++ l) ++ make 4) _ _ 0)
    by (unfold l; rewrite ?len_app, ?len_be32; rewrite ?len_make by lia; lia).
  rewrite copy_from_0. cbn [fmap bind].
  rewrite copy_same_len.
  - change (make 4) with [0; 0; 0; 0]. rewrite <- !app_assoc. reflexivity.
  - rewrite len_app, len_be32. unfold len at 1.
    rewrite length_skipn. fold n. unfold make. rewrite repeat_length. lia.
Qed.

(** X10. [GoAwayFrame.Serialize] refuses a nonzero stream; on stream 0 it
    aborts when the debug data has fewer than four bytes, and otherwise
    returns the header with length 8 + len(debug data), the last stream
    identifier without its top bit, four zero bytes where the error code
    belongs, and the debug data: the error code never reaches the wire. *)
Theorem GoAway_Serialize_outcome (f : GoAwayFrame.t) :
  (FrameHeader.StreamID (GoAwayFrame.Header f) <> 0 ->
   GoAwayFrame.Serialize f
   = Err "GOWAYFRAME_FRAME_ERROR: streamID must be zero")
  /\ (FrameHeader.StreamID (GoAwayFrame.Header f) = 0 ->
      len (GoAwayFrame.DebugData f) < 4 ->
      GoAwayFrame.Serialize f = Panic slice_msg)
  /\ (FrameHeader.StreamID (GoAwayFrame.Header f) = 0 ->
      4 <= len (GoAwayFrame.DebugData f) <= 0xFFFFFF ->
      let f' :=
        GoAwayFrame.set_Length (8 + len (GoAwayFrame.DebugData f)) f in
      GoAwayFrame.Serialize f
      = Ok (f', header_bytes (GoAwayFrame.Header f')
                ++ be32 (Z.land (GoAwayFrame.LastStreamID f) 0x7FFFFFFF)
                ++ [0; 0; 0; 0] ++ GoAwayFrame.DebugData f)).
Proof.
  split; [apply GoAway_Serialize_nonzero_stream|].
  split; [apply GoAway_Serialize_short_DebugData|].
  apply GoAway_Serialize_long_DebugData.
Qed.

Lemma GoAway_Serialize_outcome_witness :
  GoAwayFrame.Serialize
    (GoAwayFrame.mk (FrameHeader.mk 0 FrameGoWay 0 3) 1 2 [97; 98; 99; 100])
  = Err "GOWAYFRAME_FRAME_ERROR: streamID must be zero"
  /\ GoAwayFrame.Serialize
       (GoAwayFrame.mk (FrameHeader.mk 0 FrameGoWay 0 0) 1 2 [97; 98; 99])
     = Panic slice_msg
  /\ GoAwayFrame.Serialize
       (GoAwayFrame.mk (FrameHeader.mk 0 FrameGoWay 0 0) 1 2
                       [97; 98; 99; 100; 101])
     = Ok (GoAwayFrame.mk (FrameHeader.mk 13 FrameGoWay 0 0) 1 2
                          [97; 98; 99; 100; 101],
           [0; 0; 13; 7; 0; 0; 0; 0; 0; 0; 0; 0; 1; 0; 0; 0; 0;
            97; 98; 99; 100; 101]).
Proof.
  split; [|split].
  - apply (GoAway_Serialize_outcome
             (GoAwayFrame.mk (FrameHeader.mk 0 FrameGoWay 0 3) 1 2
                             [97; 98; 99; 100])).
    discriminate.
  - apply (GoAway_Serialize_outcome
             (GoAwayFrame.mk (FrameHeader.mk 0 FrameGoWay 0 0) 1 2
                             [97; 98; 99])).
    + reflexivity.
    + vm_compute. reflexivity.
  - apply (GoAway_Serialize_outcome
             (GoAwayFrame.mk (FrameHeader.mk 0 FrameGoWay 0 0) 1 2
                             [97; 98; 99; 100; 101])).
    + reflexivity.
    + vm_compute. split; discriminate.
Defined.

(** X11. On a GOAWAY header with stream 0 whose [Length] lies between 8 and
    the payload's length, [ParseGoAwayFrame] returns the last stream
    identifier read from the first four bytes without its top bit, the error
    code read from the next four, and as debug data the payload bytes from 8
    up to [Length] (none when [Length] is 8); payload bytes after [Length]
    are ignored. *)
Theorem ParseGoAwayFrame_content (h : FrameHeader.t)
        (b0 b1 b2 b3 b4 b5 b6 b7 : Z) (rest : bytes) :
  FrameHeader.Type' h = FrameGoWay -> FrameHeader.StreamID h = 0 ->
  is_u32 (FrameHeader.Length h) ->
  8 <= FrameHeader.Length h <= 8 + len rest ->
  ParseGoAwayFrame h (b0 :: b1 :: b2 :: b3 :: b4 :: b5 :: b6 :: b7 :: rest)
  = Ok (GoAwayFrame.mk h
          (Z.land (Z.lor (Z.lor (Z.lor b3 (Z.shiftl b2 8)) (Z.shiftl b1 16))
                         (Z.shiftl b0 24)) 0x7FFFFFFF)
          (Z.lor (Z.lor (Z.lor b7 (Z.shiftl b6 8)) (Z.shiftl b5 16))
                 (Z.shiftl b4 24))
          (firstn (Z.to_nat (FrameHeader.Length h - 8)) rest)).
Proof.
  intros Hty Hsid Hu Hlen. pose proof (len_nonneg rest) as Hr.
  unfold ParseGoAwayFrame. rewrite Hty, Hsid.
  destruct (Z.ltb_spec
              (len (b0 :: b1 :: b2 :: b3 :: b4 :: b5 :: b6 :: b7 :: rest)) 8)
    as [Hshort|_]; [rewrite !len_cons in Hshort; lia|].
  change (negb (FrameGoWay =? FrameGoWay)) with false.
  change (negb (0 =? 0)) with false. cbv iota.
  change (b0 :: b1 :: b2 :: b3 :: b4 :: b5 :: b6 :: b7 :: rest)
    with ([b0; b1; b2; b3] ++ ([b4; b5; b6; b7] ++ rest)).
  rewrite slice_prefix by reflexivity. cbn [bind].
  rewrite Uint32_ok by (unfold len; cbn [length]; lia). cbn [bind nth].
  rewrite (slice_app [b0; b1; b2; b3] _ _ _ 0 4) by (cbn; lia).
  rewrite slice_prefix by reflexivity. cbn [bind].
  rewrite Uint32_ok by (unfold len; cbn [length]; lia). cbn [bind nth].
  unfold u32. rewrite Z.mod_small by (unfold is_u32 in Hu; lia).
  destruct (Z.ltb_spec 8 (FrameHeader.Length h)) as [Hgt|Hle].
  - rewrite app_assoc.
    rewrite (slice_app ([b0; b1; b2; b3] ++ [b4; b5; b6; b7]) _ _ _ 0
                       (FrameHeader.Length h - 8))
      by (rewrite ?len_app, ?len_cons, ?len_nil; lia).
    rewrite slice_ok by lia. cbn [bind].
    change (Z.to_nat 0) with 0%nat. cbn [skipn]. rewrite Z.sub_0_r.
    rewrite copy_make_window by lia. reflexivity.
  - cbn [bind]. replace (FrameHeader.Length h - 8) with 0 by lia.
    reflexivity.
Qed.

Lemma ParseGoAwayFrame_content_witness :
  ParseGoAwayFrame (FrameHeader.mk 10 FrameGoWay 0 0)
                   [128; 0; 0; 5; 0; 0; 0; 2; 97; 98; 99]
  = Ok (GoAwayFrame.mk (FrameHeader.mk 10 FrameGoWay 0 0) 5 2 [97; 98]).
Proof.
  apply (ParseGoAwayFrame_content (FrameHeader.mk 10 FrameGoWay 0 0)
           128 0 0 5 0 0 0 2 [97; 98; 99]).
  - reflexivity.
  - reflexivity.
  - vm_compute. split; [discriminate|reflexivity].
  - vm_compute. split; discriminate.
Defined.

(** ** Parsing, then serializing *)

(** X12. A frame returned by [ParsePingFrame] is accepted by
    [PingFrame.Serialize], which writes the payload parsed after the header;
    a frame returned by [ParseWindowUpdateFrame] has an increment between 1
    and 0x7FFFFFFF and is accepted by [WindowUpdateFrame.Serialize], which
    writes that increment after the header. *)
Theorem parsed_Ping_and_WindowUpdate_serialize (h : FrameHeader.t)
        (payload : bytes) :
  (forall f,
      ParsePingFrame h payload = Ok f ->
      PingFrame.Serialize f
      = Ok (PingFrame.set_Length 8 f,
            header_bytes (FrameHeader.set_Length 8 h) ++ payload))
  /\ (forall f,
         ParseWindowUpdateFrame h payload = Ok f ->
         1 <= WindowUpdateFrame.WindowSizeIncrement f <= 0x7FFFFFFF
         /\ WindowUpdateFrame.Serialize f
            = Ok (WindowUpdateFrame.set_Length 4 f,
                  header_bytes (FrameHeader.set_Length 4 h)
                  ++ be32 (WindowUpdateFrame.WindowSizeIncrement f))).
Proof.
  split.
  - intros f H. unfold ParsePingFrame in H.
    destruct (negb _); [discriminate H|].
    destruct (Z.eqb_spec (FrameHeader.StreamID h) 0) as [Hs|Hs];
      [|discriminate H].
    destruct (Z.eqb_spec (len payload) 8) as [Hl|Hl]; [|discriminate H].
    cbn [negb] in H. apply Ok_inj in H. subst f.
    replace (make 8) with (make (len payload)) by (rewrite Hl; reflexivity).
    rewrite copy_make_exact.
    rewrite PingFrame_Serialize_eq by (cbn [PingFrame.Data]; lia).
    cbn [PingFrame.Header]. rewrite Hs. reflexivity.
  - intros f H. unfold ParseWindowUpdateFrame in H.
    destruct (len payload <? 4); [discriminate H|].
    destruct (negb _); [discriminate H|].
    destruct (negb _); [discriminate H|].
    apply bind_Ok in H. destruct H as [v [_ H]]. cbv zeta in H.
    pose proof (land_mask31_range v) as Hr.
    destruct (Z.eqb_spec (Z.land v 0x7FFFFFFF) 0) as [Hz|Hnz];
      [discriminate H|].
    apply Ok_inj in H. subst f.
    cbn [WindowUpdateFrame.WindowSizeIncrement].
    split; [lia|].
    rewrite WindowUpdateFrame_Serialize_eq
      by (cbn [WindowUpdateFrame.WindowSizeIncrement]; unfold is_u32; lia).
    cbn [WindowUpdateFrame.WindowSizeIncrement].
    destruct (Z.eqb_spec (Z.land v 0x7FFFFFFF) 0); [contradiction|].
    destruct (Z.ltb_spec 0x7FFFFFFF (Z.land v 0x7FFFFFFF)); [lia|].
    reflexivity.
Qed.

Lemma parsed_Ping_and_WindowUpdate_serialize_witness :
  PingFrame.Serialize
    (PingFrame.mk (FrameHeader.mk 8 FramePing 1 0) [1; 2; 3; 4; 5; 6; 7; 8])
  = Ok (PingFrame.set_Length 8
          (PingFrame.mk (FrameHeader.mk 8 FramePing 1 0)
                        [1; 2; 3; 4; 5; 6; 7; 8]),
        header_bytes (FrameHeader.set_Length 8
                        (FrameHeader.mk 8 FramePing 1 0))
        ++ [1; 2; 3; 4; 5; 6; 7; 8])
  /\ 1 <= WindowUpdateFrame.WindowSizeIncrement
            (WindowUpdateFrame.mk (FrameHeader.mk 4 FrameWindowUpdate 0 1) 5)
       <= 0x7FFFFFFF
  /\ WindowUpdateFrame.Serialize
       (WindowUpdateFrame.mk (FrameHeader.mk 4 FrameWindowUpdate 0 1) 5)
     = Ok (WindowUpdateFrame.set_Length 4
             (WindowUpdateFrame.mk (FrameHeader.mk 4 FrameWindowUpdate 0 1)
                                   5),
           header_bytes (FrameHeader.set_Length 4
                           (FrameHeader.mk 4 FrameWindowUpdate 0 1))
           ++ be32 (WindowUpdateFrame.WindowSizeIncrement
                      (WindowUpdateFrame.mk
                         (FrameHeader.mk 4 FrameWindowUpdate 0 1) 5))).
Proof.
  split.
  - destruct (parsed_Ping_and_WindowUpdate_serialize
                (FrameHeader.mk 8 FramePing 1 0) [1; 2; 3; 4; 5; 6; 7; 8])
      as [Hping _].
    apply Hping. reflexivity.
  - destruct (parsed_Ping_and_WindowUpdate_serialize
                (FrameHeader.mk 4 FrameWindowUpdate 0 1) [128; 0; 0; 5])
      as [_ Hwu].
    apply Hwu. reflexivity.
Defined.

(** The DATA parser reads the type and the flags of the header and nothing
    else of it: on two headers that agree on both it returns the same fields
    or the same error, each time with the header it was given. *)
Lemma ParseDataFrame_header_indep (h h' : FrameHeader.t) (payload : bytes) :
  FrameHeader.Type' h = FrameHeader.Type' h' ->
  FrameHeader.Flags h = FrameHeader.Flags h' ->
  ParseDataFrame h payload
  = fmap (fun f => DataFrame.mk h (DataFrame.PadLen f) (DataFrame.Data f))
         (ParseDataFrame h' payload).
Proof.
  intros Hty Hfl. unfold ParseDataFrame. rewrite Hty, Hfl.
  destruct (negb _); [reflexivity|].
  match goal with
  | |- bind ?r _ = _ => destruct r as [[p o]|m|m]
  end; try reflexivity.
  cbn [bind]. cbv zeta.
  destruct (_ <? 0); [reflexivity|].
  destruct (slice _ _ _); reflexivity.
Qed.

(** The HEADERS parser reads the flags of the header and nothing else. *)
Lemma ParseHeadersFrame_header_indep (h h' : FrameHeader.t)
      (payload : bytes) :
  FrameHeader.Flags h = FrameHeader.Flags h' ->
  ParseHeadersFrame h payload
  = fmap (fun f =>
            HeadersFrame.mk h (HeadersFrame.PadLen f)
                            (HeadersFrame.Exclusive f)
                            (HeadersFrame.StreamDependency f)
                            (HeadersFrame.Weight f)
                            (HeadersFrame.HeaderBlock f))
         (ParseHeadersFrame h' payload).
Proof.
  intros Hfl. unfold ParseHeadersFrame. rewrite Hfl.
  match goal with
  | |- bind ?r _ = _ => destruct r as [[p o]|m|m]
  end; try reflexivity.
  cbn [bind].
  match goal with
  | |- bind ?r _ = _ => destruct r as [[[[ex sd] w] o2]|m|m]
  end; try reflexivity.
  cbn [bind]. cbv zeta.
  destruct (_ <? 0); [reflexivity|].
  destruct (slice _ _ _); reflexivity.
Qed.

(** X13. The DATA and HEADERS parsers do not look at the stream identifier
    and the RST_STREAM parser does not look at the error code. Whenever
    [ParseDataFrame] or [ParseHeadersFrame] accepts a payload under some
    header, it accepts the same payload under that header with any other
    stream identifier, stream 0 included, and returns the same fields; and
    [ParseRSTStreamFrame] accepts a payload that starts with four zero bytes
    and returns error code 0. Each of the frames so parsed on stream 0, or
    with error code 0, is then refused by its own [Serialize]. *)
Theorem parsed_frames_Serialize_refuses (h : FrameHeader.t)
        (payload : bytes) :
  let on_stream sid :=
    FrameHeader.mk (FrameHeader.Length h) (FrameHeader.Type' h)
                   (FrameHeader.Flags h) sid in
  (forall f sid,
      ParseDataFrame h payload = Ok f ->
      let g := DataFrame.mk (on_stream sid) (DataFrame.PadLen f)
                            (DataFrame.Data f) in
      ParseDataFrame (on_stream sid) payload = Ok g
      /\ (sid = 0 ->
          DataFrame.Serialize g
          = Err "DATA_FRAME_ERROR: StreamID must be greater than zero"))
  /\ (forall f sid,
         ParseHeadersFrame h payload = Ok f ->
         let g := HeadersFrame.mk (on_stream sid) (HeadersFrame.PadLen f)
                                  (HeadersFrame.Exclusive f)
                                  (HeadersFrame.StreamDependency f)
                                  (HeadersFrame.Weight f)
                                  (HeadersFrame.HeaderBlock f) in
         ParseHeadersFrame (on_stream sid) payload = Ok g
         /\ (sid = 0 ->
             HeadersFrame.Serialize g
             = Err "HEADERS_FRAME_ERROR: frame must have non-zero stream ID"))
  /\ (FrameHeader.Type' h = FrameRSTStream -> FrameHeader.Length h = 4 ->
      ParseRSTStreamFrame h (0 :: 0 :: 0 :: 0 :: payload)
      = Ok (RSTStreamFrame.mk h 0)
      /\ RSTStreamFrame.Serialize (RSTStreamFrame.mk h 0)
         = Err "RST_STREAM_FRAME_ERROR: streamID must be greater than zero").
Proof.
  cbv zeta. split; [|split].
  - intros f sid H. split.
    + rewrite (ParseDataFrame_header_indep _ h) by reflexivity.
      rewrite H. reflexivity.
    + intros ->. reflexivity.
  - intros f sid H. split.
    + rewrite (ParseHeadersFrame_header_indep _ h) by reflexivity.
      rewrite H. reflexivity.
    + intros ->. reflexivity.
  - intros Hty Hlen. split; [|reflexivity].
    unfold ParseRSTStreamFrame. rewrite Hty, Hlen.
    pose proof (len_nonneg payload).
    destruct (Z.ltb_spec (len (0 :: 0 :: 0 :: 0 :: payload)) 4) as [Hs|_];
      [rewrite !len_cons in Hs; lia|].
    change (negb (FrameRSTStream =? FrameRSTStream)) with false.
    change (negb (4 =? 4)) with false. cbv iota.
    rewrite Uint32_ok by (rewrite !len_cons; lia). reflexivity.
Qed.

Lemma parsed_frames_Serialize_refuses_witness :
  (ParseDataFrame (FrameHeader.mk 4 FrameData FlagPadded 0) [1; 104; 101; 0]
   = Ok (DataFrame.mk (FrameHeader.mk 4 FrameData FlagPadded 0) 1 [104; 101])
   /\ DataFrame.Serialize
        (DataFrame.mk (FrameHeader.mk 4 FrameData FlagPadded 0) 1 [104; 101])
      = Err "DATA_FRAME_ERROR: StreamID must be greater than zero")
  /\ (ParseHeadersFrame (FrameHeader.mk 2 FrameHeaders 0 0) [104; 101]
      = Ok (HeadersFrame.mk (FrameHeader.mk 2 FrameHeaders 0 0) 0 false 0 0
                            [104; 101])
      /\ HeadersFrame.Serialize
           (HeadersFrame.mk (FrameHeader.mk 2 FrameHeaders 0 0) 0 false 0 0
                            [104; 101])
         = Err "HEADERS_FRAME_ERROR: frame must have non-zero stream ID")
  /\ (ParseRSTStreamFrame (FrameHeader.mk 4 FrameRSTStream 0 1) [0; 0; 0; 0]
      = Ok (RSTStreamFrame.mk (FrameHeader.mk 4 FrameRSTStream 0 1) 0)
      /\ RSTStreamFrame.Serialize
           (RSTStreamFrame.mk (FrameHeader.mk 4 FrameRSTStream 0 1) 0)
         = Err "RST_STREAM_FRAME_ERROR: streamID must be greater than zero").
Proof.
  split; [|split].
  - destruct (parsed_frames_Serialize_refuses
                (FrameHeader.mk 4 FrameData FlagPadded 7) [1; 104; 101; 0])
      as (Hd & _ & _).
    destruct (Hd (DataFrame.mk (FrameHeader.mk 4 FrameData FlagPadded 7) 1
                               [104; 101]) 0 eq_refl) as [Hp Hs].
    split; [exact Hp|exact (Hs eq_refl)].
  - destruct (parsed_frames_Serialize_refuses
                (FrameHeader.mk 2 FrameHeaders 0 7) [104; 101])
      as (_ & Hh & _).
    destruct (Hh (HeadersFrame.mk (FrameHeader.mk 2 FrameHeaders 0 7) 0 false
                                  0 0 [104; 101]) 0 eq_refl) as [Hp Hs].
    split; [exact Hp|exact (Hs eq_refl)].
  - destruct (parsed_frames_Serialize_refuses
                (FrameHeader.mk 4 FrameRSTStream 0 1) [])
      as (_ & _ & Hr).
    apply Hr; reflexivity.
Defined.

(** ** The flag predicates *)

Lemma land_pow2_testbit (x k : Z) :
  0 <= k -> negb (Z.land x (2 ^ k) =? 0) = Z.testbit x k.
Proof.
  intros Hk.
  assert (E : Z.land x (2 ^ k) = if Z.testbit x k then 2 ^ k else 0).
  { apply Z.bits_inj'. intros n Hn.
    rewrite Z.land_spec, Z.pow2_bits_eqb by lia.
    destruct (Z.eqb_spec k n) as [<-|Hne].
    - destruct (Z.testbit x k).
      + rewrite Z.pow2_bits_true by lia. reflexivity.
      + rewrite Z.bits_0. reflexivity.
    - rewrite andb_false_r.
      destruct (Z.testbit x k).
      + rewrite Z.pow2_bits_false by lia. reflexivity.
      + rewrite Z.bits_0. reflexivity. }
  rewrite E. destruct (Z.testbit x k).
  - assert (0 < 2 ^ k) by (apply Z.pow_pos_nonneg; lia).
    destruct (Z.eqb_spec (2 ^ k) 0); [lia|reflexivity].
  - reflexivity.
Qed.

(** X14. [hasPad] is bit 3 of the flags and [hasPriority] is bit 5: each
    depends on its own bit only, so setting or clearing END_STREAM,
    END_HEADERS or any other flag changes neither. *)
Theorem flag_predicates_are_bits (flags : Z) :
  hasPad flags = Z.testbit flags 3
  /\ hasPriority flags = Z.testbit flags 5
  /\ (forall other,
         Z.testbit other 3 = false -> Z.testbit other 5 = false ->
         hasPad (Z.lor flags other) = hasPad flags
         /\ hasPriority (Z.lor flags other) = hasPriority flags).
Proof.
  assert (Hp : forall x, hasPad x = Z.testbit x 3).
  { intros x. unfold hasPad. apply (land_pow2_testbit x 3). lia. }
  assert (Hq : forall x, hasPriority x = Z.testbit x 5).
  { intros x. unfold hasPriority. apply (land_pow2_testbit x 5). lia. }
  split; [apply Hp|]. split; [apply Hq|].
  intros other H3 H5. rewrite !Hp, !Hq, !Z.lor_spec, H3, H5, !orb_false_r.
  split; reflexivity.
Qed.

Lemma flag_predicates_are_bits_witness :
  hasPad (Z.lor FlagPadded (Z.lor FlagEndStream FlagEndHeaders))
  = hasPad FlagPadded
  /\ hasPriority (Z.lor FlagPadded (Z.lor FlagEndStream FlagEndHeaders))
     = hasPriority FlagPadded.
Proof.
  destruct (flag_predicates_are_bits FlagPadded) as (_ & _ & H).
  apply H; reflexivity.
Defined.

(** ** DATA and HEADERS as [Serialize] lays them out *)

Lemma HeadersFrame_Serialize_padded (f : HeadersFrame.t) :
  hasPad (FrameHeader.Flags (HeadersFrame.Header f)) = true ->
  0 <= HeadersFrame.PadLen f <= 255 ->
  FrameHeader.StreamID (HeadersFrame.Header f) <> 0 ->
  let priority := hasPriority (FrameHeader.Flags (HeadersFrame.Header f)) in
  let f' :=
    HeadersFrame.set_Length
      (1 + HeadersFrame.PadLen f + (if priority then 5 else 0)) f in
  HeadersFrame.Serialize f
  = Ok (f', header_bytes (HeadersFrame.Header f')
            ++ [HeadersFrame.PadLen f]
            ++ (if priority
                then be32 (HeadersFrame_dep f) ++ [HeadersFrame.Weight f]
                else [])
            ++ copy (make (HeadersFrame.PadLen f))
                    (HeadersFrame.HeaderBlock f)).
Proof.
  intros Hpad Hrange Hsid. cbv zeta. unfold HeadersFrame.Serialize.
  destruct (Z.eqb_spec (FrameHeader.StreamID (HeadersFrame.Header f)) 0);
    [contradiction|].
  rewrite HeadersFrame_payloadLength_padded by assumption. cbn [bind].
  rewrite FrameHeader_Serialize_eq. cbn [bind]. cbv zeta.
  rewrite Hpad.
  set (p := HeadersFrame.PadLen f) in *.
  cbn [HeadersFrame.set_Length HeadersFrame.PadLen HeadersFrame.Weight
       HeadersFrame.Exclusive HeadersFrame.StreamDependency
       HeadersFrame.HeaderBlock].
  fold p. fold (HeadersFrame_dep f).
  destruct (hasPriority (FrameHeader.Flags (HeadersFrame.Header f))).
  - set (hb := header_bytes _).
    assert (Hhb : len hb = 9) by reflexivity.
    rewrite copy_make by lia.
    rewrite (set_index_app hb _ _ 0) by lia.
    rewrite set_index_make_0 by lia. cbn [fmap bind].
    replace (1 + p + 5 - 1) with (4 + (1 + p)) by lia.
    rewrite (make_add 4 (1 + p)) by lia.
    change (p :: make 4 ++ make (1 + p))
      with ([p] ++ (make 4 ++ make (1 + p))).
    rewrite app_assoc.
    rewrite (on_slice_app (hb ++ [p]) _ _ _ 0 4)
      by (rewrite ?len_app, ?len_cons, ?len_nil; lia).
    rewrite on_slice_PutUint32_head
      by (rewrite len_app; rewrite !len_make by lia; lia).
    rewrite (skipn_app_len (make 4) _ 4 0) by reflexivity.
    cbn [skipn fmap bind]. rewrite app_assoc.
    rewrite (set_index_app ((hb ++ [p]) ++ be32 (HeadersFrame_dep f)) _ _ 0)
      by (rewrite ?len_app, ?len_cons, ?len_nil, ?len_be32; lia).
    rewrite set_index_make_0 by lia. cbn [fmap bind].
    replace (1 + p - 1) with p by lia.
    change (HeadersFrame.Weight f :: make p)
      with ([HeadersFrame.Weight f] ++ make p).
    rewrite app_assoc.
    rewrite (copy_from_app _ _ _ 0)
      by (rewrite ?len_app, ?len_cons, ?len_nil, ?len_be32; lia).
    rewrite copy_from_0. cbn [fmap bind].
    rewrite <- !app_assoc. reflexivity.
  - set (hb := header_bytes _).
    assert (Hhb : len hb = 9) by reflexivity.
    rewrite copy_make by lia.
    rewrite (set_index_app hb _ _ 0) by lia.
    rewrite set_index_make_0 by lia. cbn [fmap bind].
    replace (1 + p + 0 - 1) with p by lia.
    change (p :: make p) with ([p] ++ make p).
    rewrite app_assoc.
    rewrite (copy_from_app _ _ _ 0)
      by (rewrite ?len_app, ?len_cons, ?len_nil; lia).
    rewrite copy_from_0. cbn [fmap bind].
    rewrite <- !app_assoc. reflexivity.
Qed.

(** X15. For a DATA frame with a pad length in a byte and data within the
    24-bit length, [DataFrame.Serialize] refuses stream 0, refuses with an
    empty message a payload above 0xFFFFFF, and otherwise returns the frame
    with its [Length] set to the payload length, and a buffer made of the
    header, then with PADDED the pad-length byte, the data and as many zero
    bytes as the pad length, and without PADDED the data alone. *)
Theorem DataFrame_Serialize_layout (f : DataFrame.t) :
  0 <= DataFrame.PadLen f <= 255 -> len (DataFrame.Data f) <= 0xFFFFFF ->
  (FrameHeader.StreamID (DataFrame.Header f) = 0 ->
   DataFrame.Serialize f
   = Err "DATA_FRAME_ERROR: StreamID must be greater than zero")
  /\ (FrameHeader.StreamID (DataFrame.Header f) <> 0 ->
      0xFFFFFF < DataFrame_payloadLength f ->
      DataFrame.Serialize f = Err EmptyString)
  /\ (FrameHeader.StreamID (DataFrame.Header f) <> 0 ->
      DataFrame_payloadLength f <= 0xFFFFFF ->
      let f' := DataFrame.set_Length (DataFrame_payloadLength f) f in
      DataFrame.Serialize f
      = Ok (f', header_bytes (DataFrame.Header f')
                ++ (if hasPad (FrameHeader.Flags (DataFrame.Header f))
                    then [DataFrame.PadLen f] ++ DataFrame.Data f
                         ++ make (DataFrame.PadLen f)
                    else DataFrame.Data f))).
Proof.
  intros Hpad Hlen. rewrite DataFrame_Serialize_eq by assumption.
  split; [|split].
  - intros ->. reflexivity.
  - intros Hs Hbig.
    destruct (Z.eqb_spec (FrameHeader.StreamID (DataFrame.Header f)) 0);
      [contradiction|].
    destruct (Z.ltb_spec 0xFFFFFF (DataFrame_payloadLength f));
      [reflexivity|lia].
  - intros Hs Hfit.
    destruct (Z.eqb_spec (FrameHeader.StreamID (DataFrame.Header f)) 0);
      [contradiction|].
    destruct (Z.ltb_spec 0xFFFFFF (DataFrame_payloadLength f)); [lia|].
    reflexivity.
Qed.

Lemma DataFrame_Serialize_layout_witness :
  DataFrame.Serialize
    (DataFrame.mk (FrameHeader.mk 0 FrameData FlagPadded 0) 2 [104; 101])
  = Err "DATA_FRAME_ERROR: StreamID must be greater than zero"
  /\ DataFrame.Serialize
       (DataFrame.mk (FrameHeader.mk 0 FrameData FlagPadded 1) 2 [104; 101])
     = Ok (DataFrame.mk (FrameHeader.mk 5 FrameData FlagPadded 1) 2
                        [104; 101],
           [0; 0; 5; 0; 8; 0; 0; 0; 1; 2; 104; 101; 0; 0]).
Proof.
  split.
  - destruct (DataFrame_Serialize_layout
                (DataFrame.mk (FrameHeader.mk 0 FrameData FlagPadded 0) 2
                              [104; 101])) as (Hzero & _ & _).
    + cbn [DataFrame.PadLen]. lia.
    + vm_compute. discriminate.
    + apply Hzero. reflexivity.
  - destruct (DataFrame_Serialize_layout
                (DataFrame.mk (FrameHeader.mk 0 FrameData FlagPadded 1) 2
                              [104; 101])) as (_ & _ & Hok).
    + cbn [DataFrame.PadLen]. lia.
    + vm_compute. discriminate.
    + apply Hok.
      * discriminate.
      * vm_compute. discriminate.
Defined.

(** X16. For a HEADERS frame on a nonzero stream, with a pad length in a byte
    and a header block of at most 0xFFFFFF - 5 bytes, [HeadersFrame.Serialize]
    succeeds. Without PADDED the payload is the priority block, if PRIORITY
    is set, and the header block, and [Length] counts both. With PADDED the
    payload is the pad-length byte, the priority block if any, and a region
    of pad-length bytes into which the head of the header block is copied:
    [Length] is 1 + pad length (+ 5), and no more than pad-length bytes of
    the header block are written. The priority block is the dependency ORed
    with 0x80000000 when exclusive and with 0x7FFFFFFF when not, then the
    weight. *)
Theorem HeadersFrame_Serialize_layout (f : HeadersFrame.t) :
  FrameHeader.StreamID (HeadersFrame.Header f) <> 0 ->
  0 <= HeadersFrame.PadLen f <= 255 ->
  len (HeadersFrame.HeaderBlock f) + 5 <= 0xFFFFFF ->
  let flags := FrameHeader.Flags (HeadersFrame.Header f) in
  let priority_block :=
    if hasPriority flags
    then be32 (if HeadersFrame.Exclusive f
               then Z.lor (HeadersFrame.StreamDependency f) 0x80000000
               else Z.lor (HeadersFrame.StreamDependency f) 0x7FFFFFFF)
         ++ [HeadersFrame.Weight f]
    else [] in
  let payload :=
    if hasPad flags
    then [HeadersFrame.PadLen f] ++ priority_block
         ++ copy (make (HeadersFrame.PadLen f)) (HeadersFrame.HeaderBlock f)
    else priority_block ++ HeadersFrame.HeaderBlock f in
  let f' := HeadersFrame.set_Length (len payload) f in
  HeadersFrame.Serialize f
  = Ok (f', header_bytes (HeadersFrame.Header f') ++ payload)
  /\ len payload
     = (if hasPad flags then 1 + HeadersFrame.PadLen f
        else len (HeadersFrame.HeaderBlock f))
       + (if hasPriority flags then 5 else 0).
Proof.
  intros Hsid Hpad Hlen. cbv zeta.
  pose proof (len_nonneg (HeadersFrame.HeaderBlock f)) as Hnn.
  fold (HeadersFrame_dep f).
  destruct (hasPad (FrameHeader.Flags (HeadersFrame.Header f))) eqn:Epad.
  - assert (El : len ([HeadersFrame.PadLen f]
                      ++ (if hasPriority
                               (FrameHeader.Flags (HeadersFrame.Header f))
                          then be32 (HeadersFrame_dep f)
                               ++ [HeadersFrame.Weight f]
                          else [])
                      ++ copy (make (HeadersFrame.PadLen f))
                              (HeadersFrame.HeaderBlock f))
                 = 1 + HeadersFrame.PadLen f
                   + (if hasPriority
                           (FrameHeader.Flags (HeadersFrame.Header f))
                      then 5 else 0)).
    { rewrite !len_app, len_copy, len_make by lia.
      destruct (hasPriority _);
        rewrite ?len_app, ?len_be32, ?len_cons, ?len_nil; lia. }
    split; [|exact El].
    rewrite El. apply HeadersFrame_Serialize_padded; assumption.
  - rewrite HeadersFrame_Serialize_unpadded by (assumption || lia).
    destruct (Z.eqb_spec (FrameHeader.StreamID (HeadersFrame.Header f)) 0);
      [contradiction|].
    unfold HeadersFrame_payloadLength_unpadded,
      HeadersFrame_payload_unpadded.
    destruct (hasPriority (FrameHeader.Flags (HeadersFrame.Header f))).
    + destruct (Z.ltb_spec 0xFFFFFF (len (HeadersFrame.HeaderBlock f) + 5));
        [lia|].
      assert (El : len ((be32 (HeadersFrame_dep f)
                         ++ [HeadersFrame.Weight f])
                        ++ HeadersFrame.HeaderBlock f)
                   = len (HeadersFrame.HeaderBlock f) + 5).
      { rewrite !len_app, len_be32, len_cons, len_nil. lia. }
      rewrite El. cbv zeta. rewrite <- app_assoc.
      split; reflexivity.
    + destruct (Z.ltb_spec 0xFFFFFF (len (HeadersFrame.HeaderBlock f)));
        [lia|].
      cbn [app]. rewrite Z.add_0_r. split; reflexivity.
Qed.

Lemma HeadersFrame_Serialize_layout_witness :
  HeadersFrame.Serialize
    (HeadersFrame.mk (FrameHeader.mk 0 FrameHeaders 40 1) 2 false 3 16
                     [97; 98; 99])
  = Ok (HeadersFrame.mk (FrameHeader.mk 8 FrameHeaders 40 1) 2 false 3 16
                        [97; 98; 99],
        [0; 0; 8; 1; 40; 0; 0; 0; 1]
        ++ [2] ++ [127; 255; 255; 255; 16] ++ [97; 98])
  /\ len ([2] ++ [127; 255; 255; 255; 16] ++ [97; 98]) = 1 + 2 + 5.
Proof.
  apply (HeadersFrame_Serialize_layout
           (HeadersFrame.mk (FrameHeader.mk 0 FrameHeaders 40 1) 2 false 3 16
                            [97; 98; 99])).
  - discriminate.
  - vm_compute. split; discriminate.
  - vm_compute. discriminate.
Defined.
